(** * FastAPI advanced-validation demo: the validation model and its handlers

    A shallow embedding of [models.py] (the [UserCreate] and [UserOut]
    pydantic models with their field validators) and of [main.py] (the
    three route handlers over the in-memory [fake_db]), followed by the
    properties proved about them.

    Python values are embedded as follows.
    - A [str] is the list of its Unicode code points; [len] is [length].
    - [raise ValueError(msg)] inside a validator is the [ValueError] branch
      of [result]; a validator that falls through to [return v] is [Return].
    - A [dict] with string keys is an association list in insertion order,
      which is also the order in which its JSON rendering lists the keys.
    - The module-level list [fake_db] is threaded through the handlers as
      explicit state.
    - The character predicates of [str] ([isalpha], [isdecimal], [isdigit],
      [isnumeric], [isspace]) are tables of code-point ranges of the Unicode
      Character Database, version 14.0.0 (the one of CPython 3.11). *)

From Stdlib Require Import ZArith List String Ascii Bool Lia Permutation.
Import ListNotations.

(* ===================================================================== *)
(** ** Python strings *)
(* ===================================================================== *)

Module Py.

Local Open Scope Z_scope.

Definition codepoint := Z.

(** A Python [str]: a sequence of code points. *)
Definition str := list codepoint.

(** [len(v)] *)
Definition len (v : str) : nat := List.length v.

(** [ord(c)] for a character written as an ASCII literal. *)
Definition ord (a : ascii) : codepoint := Z.of_N (N_of_ascii a).

(** A [str] literal whose characters are all ASCII. *)
Definition lit (s : string) : str := map ord (list_ascii_of_string s).

(** Membership of a code point in a table of inclusive ranges. *)
Definition in_ranges (rs : list (Z * Z)) (c : codepoint) : bool :=
  existsb (fun r => (fst r <=? c) && (c <=? snd r)) rs.

(** Code points with general category Lu, Ll, Lt, Lm or Lo: the characters for which [str.isalpha] holds. *)
Definition alpha_ranges : list (Z * Z) :=
  [ (0x0041, 0x005A); (0x0061, 0x007A); (0x00AA, 0x00AA); (0x00B5, 0x00B5); (0x00BA, 0x00BA);
    (0x00C0, 0x00D6); (0x00D8, 0x00F6); (0x00F8, 0x02C1); (0x02C6, 0x02D1); (0x02E0, 0x02E4);
    (0x02EC, 0x02EC); (0x02EE, 0x02EE); (0x0370, 0x0374); (0x0376, 0x0377); (0x037A, 0x037D);
    (0x037F, 0x037F); (0x0386, 0x0386); (0x0388, 0x038A); (0x038C, 0x038C); (0x038E, 0x03A1);
    (0x03A3, 0x03F5); (0x03F7, 0x0481); (0x048A, 0x052F); (0x0531, 0x0556); (0x0559, 0x0559);
    (0x0560, 0x0588); (0x05D0, 0x05EA); (0x05EF, 0x05F2); (0x0620, 0x064A); (0x066E, 0x066F);
    (0x0671, 0x06D3); (0x06D5, 0x06D5); (0x06E5, 0x06E6); (0x06EE, 0x06EF); (0x06FA, 0x06FC);
    (0x06FF, 0x06FF); (0x0710, 0x0710); (0x0712, 0x072F); (0x074D, 0x07A5); (0x07B1, 0x07B1);
    (0x07CA, 0x07EA); (0x07F4, 0x07F5); (0x07FA, 0x07FA); (0x0800, 0x0815); (0x081A, 0x081A);
    (0x0824, 0x0824); (0x0828, 0x0828); (0x0840, 0x0858); (0x0860, 0x086A); (0x0870, 0x0887);
    (0x0889, 0x088E); (0x08A0, 0x08C9); (0x0904, 0x0939); (0x093D, 0x093D); (0x0950, 0x0950);
    (0x0958, 0x0961); (0x0971, 0x0980); (0x0985, 0x098C); (0x098F, 0x0990); (0x0993, 0x09A8);
    (0x09AA, 0x09B0); (0x09B2, 0x09B2); (0x09B6, 0x09B9); (0x09BD, 0x09BD); (0x09CE, 0x09CE);
    (0x09DC, 0x09DD); (0x09DF, 0x09E1); (0x09F0, 0x09F1); (0x09FC, 0x09FC); (0x0A05, 0x0A0A);
    (0x0A0F, 0x0A10); (0x0A13, 0x0A28); (0x0A2A, 0x0A30); (0x0A32, 0x0A33); (0x0A35, 0x0A36);
    (0x0A38, 0x0A39); (0x0A59, 0x0A5C); (0x0A5E, 0x0A5E); (0x0A72, 0x0A74); (0x0A85, 0x0A8D);
    (0x0A8F, 0x0A91); (0x0A93, 0x0AA8); (0x0AAA, 0x0AB0); (0x0AB2, 0x0AB3); (0x0AB5, 0x0AB9);
    (0x0ABD, 0x0ABD); (0x0AD0, 0x0AD0); (0x0AE0, 0x0AE1); (0x0AF9, 0x0AF9); (0x0B05, 0x0B0C);
    (0x0B0F, 0x0B10); (0x0B13, 0x0B28); (0x0B2A, 0x0B30); (0x0B32, 0x0B33); (0x0B35, 0x0B39);
    (0x0B3D, 0x0B3D); (0x0B5C, 0x0B5D); (0x0B5F, 0x0B61); (0x0B71, 0x0B71); (0x0B83, 0x0B83);
    (0x0B85, 0x0B8A); (0x0B8E, 0x0B90); (0x0B92, 0x0B95); (0x0B99, 0x0B9A); (0x0B9C, 0x0B9C);
    (0x0B9E, 0x0B9F); (0x0BA3, 0x0BA4); (0x0BA8, 0x0BAA); (0x0BAE, 0x0BB9); (0x0BD0, 0x0BD0);
    (0x0C05, 0x0C0C); (0x0C0E, 0x0C10); (0x0C12, 0x0C28); (0x0C2A, 0x0C39); (0x0C3D, 0x0C3D);
    (0x0C58, 0x0C5A); (0x0C5D, 0x0C5D); (0x0C60, 0x0C61); (0x0C80, 0x0C80); (0x0C85, 0x0C8C);
    (0x0C8E, 0x0C90); (0x0C92, 0x0CA8); (0x0CAA, 0x0CB3); (0x0CB5, 0x0CB9); (0x0CBD, 0x0CBD);
    (0x0CDD, 0x0CDE); (0x0CE0, 0x0CE1); (0x0CF1, 0x0CF2); (0x0D04, 0x0D0C); (0x0D0E, 0x0D10);
    (0x0D12, 0x0D3A); (0x0D3D, 0x0D3D); (0x0D4E, 0x0D4E); (0x0D54, 0x0D56); (0x0D5F, 0x0D61);
    (0x0D7A, 0x0D7F); (0x0D85, 0x0D96); (0x0D9A, 0x0DB1); (0x0DB3, 0x0DBB); (0x0DBD, 0x0DBD);
    (0x0DC0, 0x0DC6); (0x0E01, 0x0E30); (0x0E32, 0x0E33); (0x0E40, 0x0E46); (0x0E81, 0x0E82);
    (0x0E84, 0x0E84); (0x0E86, 0x0E8A); (0x0E8C, 0x0EA3); (0x0EA5, 0x0EA5); (0x0EA7, 0x0EB0);
    (0x0EB2, 0x0EB3); (0x0EBD, 0x0EBD); (0x0EC0, 0x0EC4); (0x0EC6, 0x0EC6); (0x0EDC, 0x0EDF);
    (0x0F00, 0x0F00); (0x0F40, 0x0F47); (0x0F49, 0x0F6C); (0x0F88, 0x0F8C); (0x1000, 0x102A);
    (0x103F, 0x103F); (0x1050, 0x1055); (0x105A, 0x105D); (0x1061, 0x1061); (0x1065, 0x1066);
    (0x106E, 0x1070); (0x1075, 0x1081); (0x108E, 0x108E); (0x10A0, 0x10C5); (0x10C7, 0x10C7);
    (0x10CD, 0x10CD); (0x10D0, 0x10FA); (0x10FC, 0x1248); (0x124A, 0x124D); (0x1250, 0x1256);
    (0x1258, 0x1258); (0x125A, 0x125D); (0x1260, 0x1288); (0x128A, 0x128D); (0x1290, 0x12B0);
    (0x12B2, 0x12B5); (0x12B8, 0x12BE); (0x12C0, 0x12C0); (0x12C2, 0x12C5); (0x12C8, 0x12D6);
    (0x12D8, 0x1310); (0x1312, 0x1315); (0x1318, 0x135A); (0x1380, 0x138F); (0x13A0, 0x13F5);
    (0x13F8, 0x13FD); (0x1401, 0x166C); (0x166F, 0x167F); (0x1681, 0x169A); (0x16A0, 0x16EA);
    (0x16F1, 0x16F8); (0x1700, 0x1711); (0x171F, 0x1731); (0x1740, 0x1751); (0x1760, 0x176C);
    (0x176E, 0x1770); (0x1780, 0x17B3); (0x17D7, 0x17D7); (0x17DC, 0x17DC); (0x1820, 0x1878);
    (0x1880, 0x1884); (0x1887, 0x18A8); (0x18AA, 0x18AA); (0x18B0, 0x18F5); (0x1900, 0x191E);
    (0x1950, 0x196D); (0x1970, 0x1974); (0x1980, 0x19AB); (0x19B0, 0x19C9); (0x1A00, 0x1A16);
    (0x1A20, 0x1A54); (0x1AA7, 0x1AA7); (0x1B05, 0x1B33); (0x1B45, 0x1B4C); (0x1B83, 0x1BA0);
    (0x1BAE, 0x1BAF); (0x1BBA, 0x1BE5); (0x1C00, 0x1C23); (0x1C4D, 0x1C4F); (0x1C5A, 0x1C7D);
    (0x1C80, 0x1C88); (0x1C90, 0x1CBA); (0x1CBD, 0x1CBF); (0x1CE9, 0x1CEC); (0x1CEE, 0x1CF3);
    (0x1CF5, 0x1CF6); (0x1CFA, 0x1CFA); (0x1D00, 0x1DBF); (0x1E00, 0x1F15); (0x1F18, 0x1F1D);
    (0x1F20, 0x1F45); (0x1F48, 0x1F4D); (0x1F50, 0x1F57); (0x1F59, 0x1F59); (0x1F5B, 0x1F5B);
    (0x1F5D, 0x1F5D); (0x1F5F, 0x1F7D); (0x1F80, 0x1FB4); (0x1FB6, 0x1FBC); (0x1FBE, 0x1FBE);
    (0x1FC2, 0x1FC4); (0x1FC6, 0x1FCC); (0x1FD0, 0x1FD3); (0x1FD6, 0x1FDB); (0x1FE0, 0x1FEC);
    (0x1FF2, 0x1FF4); (0x1FF6, 0x1FFC); (0x2071, 0x2071); (0x207F, 0x207F); (0x2090, 0x209C);
    (0x2102, 0x2102); (0x2107, 0x2107); (0x210A, 0x2113); (0x2115, 0x2115); (0x2119, 0x211D);
    (0x2124, 0x2124); (0x2126, 0x2126); (0x2128, 0x2128); (0x212A, 0x212D); (0x212F, 0x2139);
    (0x213C, 0x213F); (0x2145, 0x2149); (0x214E, 0x214E); (0x2183, 0x2184); (0x2C00, 0x2CE4);
    (0x2CEB, 0x2CEE); (0x2CF2, 0x2CF3); (0x2D00, 0x2D25); (0x2D27, 0x2D27); (0x2D2D, 0x2D2D);
    (0x2D30, 0x2D67); (0x2D6F, 0x2D6F); (0x2D80, 0x2D96); (0x2DA0, 0x2DA6); (0x2DA8, 0x2DAE);
    (0x2DB0, 0x2DB6); (0x2DB8, 0x2DBE); (0x2DC0, 0x2DC6); (0x2DC8, 0x2DCE); (0x2DD0, 0x2DD6);
    (0x2DD8, 0x2DDE); (0x2E2F, 0x2E2F); (0x3005, 0x3006); (0x3031, 0x3035); (0x303B, 0x303C);
    (0x3041, 0x3096); (0x309D, 0x309F); (0x30A1, 0x30FA); (0x30FC, 0x30FF); (0x3105, 0x312F);
    (0x3131, 0x318E); (0x31A0, 0x31BF); (0x31F0, 0x31FF); (0x3400, 0x4DBF); (0x4E00, 0xA48C);
    (0xA4D0, 0xA4FD); (0xA500, 0xA60C); (0xA610, 0xA61F); (0xA62A, 0xA62B); (0xA640, 0xA66E);
    (0xA67F, 0xA69D); (0xA6A0, 0xA6E5); (0xA717, 0xA71F); (0xA722, 0xA788); (0xA78B, 0xA7CA);
    (0xA7D0, 0xA7D1); (0xA7D3, 0xA7D3); (0xA7D5, 0xA7D9); (0xA7F2, 0xA801); (0xA803, 0xA805);
    (0xA807, 0xA80A); (0xA80C, 0xA822); (0xA840, 0xA873); (0xA882, 0xA8B3); (0xA8F2, 0xA8F7);
    (0xA8FB, 0xA8FB); (0xA8FD, 0xA8FE); (0xA90A, 0xA925); (0xA930, 0xA946); (0xA960, 0xA97C);
    (0xA984, 0xA9B2); (0xA9CF, 0xA9CF); (0xA9E0, 0xA9E4); (0xA9E6, 0xA9EF); (0xA9FA, 0xA9FE);
    (0xAA00, 0xAA28); (0xAA40, 0xAA42); (0xAA44, 0xAA4B); (0xAA60, 0xAA76); (0xAA7A, 0xAA7A);
    (0xAA7E, 0xAAAF); (0xAAB1, 0xAAB1); (0xAAB5, 0xAAB6); (0xAAB9, 0xAABD); (0xAAC0, 0xAAC0);
    (0xAAC2, 0xAAC2); (0xAADB, 0xAADD); (0xAAE0, 0xAAEA); (0xAAF2, 0xAAF4); (0xAB01, 0xAB06);
    (0xAB09, 0xAB0E); (0xAB11, 0xAB16); (0xAB20, 0xAB26); (0xAB28, 0xAB2E); (0xAB30, 0xAB5A);
    (0xAB5C, 0xAB69); (0xAB70, 0xABE2); (0xAC00, 0xD7A3); (0xD7B0, 0xD7C6); (0xD7CB, 0xD7FB);
    (0xF900, 0xFA6D); (0xFA70, 0xFAD9); (0xFB00, 0xFB06); (0xFB13, 0xFB17); (0xFB1D, 0xFB1D);
    (0xFB1F, 0xFB28); (0xFB2A, 0xFB36); (0xFB38, 0xFB3C); (0xFB3E, 0xFB3E); (0xFB40, 0xFB41);
    (0xFB43, 0xFB44); (0xFB46, 0xFBB1); (0xFBD3, 0xFD3D); (0xFD50, 0xFD8F); (0xFD92, 0xFDC7);
    (0xFDF0, 0xFDFB); (0xFE70, 0xFE74); (0xFE76, 0xFEFC); (0xFF21, 0xFF3A); (0xFF41, 0xFF5A);
    (0xFF66, 0xFFBE); (0xFFC2, 0xFFC7); (0xFFCA, 0xFFCF); (0xFFD2, 0xFFD7); (0xFFDA, 0xFFDC);
    (0x10000, 0x1000B); (0x1000D, 0x10026); (0x10028, 0x1003A); (0x1003C, 0x1003D); (0x1003F, 0x1004D);
    (0x10050, 0x1005D); (0x10080, 0x100FA); (0x10280, 0x1029C); (0x102A0, 0x102D0); (0x10300, 0x1031F);
    (0x1032D, 0x10340); (0x10342, 0x10349); (0x10350, 0x10375); (0x10380, 0x1039D); (0x103A0, 0x103C3);
    (0x103C8, 0x103CF); (0x10400, 0x1049D); (0x104B0, 0x104D3); (0x104D8, 0x104FB); (0x10500, 0x10527);
    (0x10530, 0x10563); (0x10570, 0x1057A); (0x1057C, 0x1058A); (0x1058C, 0x10592); (0x10594, 0x10595);
    (0x10597, 0x105A1); (0x105A3, 0x105B1); (0x105B3, 0x105B9); (0x105BB, 0x105BC); (0x10600, 0x10736);
    (0x10740, 0x10755); (0x10760, 0x10767); (0x10780, 0x10785); (0x10787, 0x107B0); (0x107B2, 0x107BA);
    (0x10800, 0x10805); (0x10808, 0x10808); (0x1080A, 0x10835); (0x10837, 0x10838); (0x1083C, 0x1083C);
    (0x1083F, 0x10855); (0x10860, 0x10876); (0x10880, 0x1089E); (0x108E0, 0x108F2); (0x108F4, 0x108F5);
    (0x10900, 0x10915); (0x10920, 0x10939); (0x10980, 0x109B7); (0x109BE, 0x109BF); (0x10A00, 0x10A00);
    (0x10A10, 0x10A13); (0x10A15, 0x10A17); (0x10A19, 0x10A35); (0x10A60, 0x10A7C); (0x10A80, 0x10A9C);
    (0x10AC0, 0x10AC7); (0x10AC9, 0x10AE4); (0x10B00, 0x10B35); (0x10B40, 0x10B55); (0x10B60, 0x10B72);
    (0x10B80, 0x10B91); (0x10C00, 0x10C48); (0x10C80, 0x10CB2); (0x10CC0, 0x10CF2); (0x10D00, 0x10D23);
    (0x10E80, 0x10EA9); (0x10EB0, 0x10EB1); (0x10F00, 0x10F1C); (0x10F27, 0x10F27); (0x10F30, 0x10F45);
    (0x10F70, 0x10F81); (0x10FB0, 0x10FC4); (0x10FE0, 0x10FF6); (0x11003, 0x11037); (0x11071, 0x11072);
    (0x11075, 0x11075); (0x11083, 0x110AF); (0x110D0, 0x110E8); (0x11103, 0x11126); (0x11144, 0x11144);
    (0x11147, 0x11147); (0x11150, 0x11172); (0x11176, 0x11176); (0x11183, 0x111B2); (0x111C1, 0x111C4);
    (0x111DA, 0x111DA); (0x111DC, 0x111DC); (0x11200, 0x11211); (0x11213, 0x1122B); (0x11280, 0x11286);
    (0x11288, 0x11288); (0x1128A, 0x1128D); (0x1128F, 0x1129D); (0x1129F, 0x112A8); (0x112B0, 0x112DE);
    (0x11305, 0x1130C); (0x1130F, 0x11310); (0x11313, 0x11328); (0x1132A, 0x11330); (0x11332, 0x11333);
    (0x11335, 0x11339); (0x1133D, 0x1133D); (0x11350, 0x11350); (0x1135D, 0x11361); (0x11400, 0x11434);
    (0x11447, 0x1144A); (0x1145F, 0x11461); (0x11480, 0x114AF); (0x114C4, 0x114C5); (0x114C7, 0x114C7);
    (0x11580, 0x115AE); (0x115D8, 0x115DB); (0x11600, 0x1162F); (0x11644, 0x11644); (0x11680, 0x116AA);
    (0x116B8, 0x116B8); (0x11700, 0x1171A); (0x11740, 0x11746); (0x11800, 0x1182B); (0x118A0, 0x118DF);
    (0x118FF, 0x11906); (0x11909, 0x11909); (0x1190C, 0x11913); (0x11915, 0x11916); (0x11918, 0x1192F);
    (0x1193F, 0x1193F); (0x11941, 0x11941); (0x119A0, 0x119A7); (0x119AA, 0x119D0); (0x119E1, 0x119E1);
    (0x119E3, 0x119E3); (0x11A00, 0x11A00); (0x11A0B, 0x11A32); (0x11A3A, 0x11A3A); (0x11A50, 0x11A50);
    (0x11A5C, 0x11A89); (0x11A9D, 0x11A9D); (0x11AB0, 0x11AF8); (0x11C00, 0x11C08); (0x11C0A, 0x11C2E);
    (0x11C40, 0x11C40); (0x11C72, 0x11C8F); (0x11D00, 0x11D06); (0x11D08, 0x11D09); (0x11D0B, 0x11D30);
    (0x11D46, 0x11D46); (0x11D60, 0x11D65); (0x11D67, 0x11D68); (0x11D6A, 0x11D89); (0x11D98, 0x11D98);
    (0x11EE0, 0x11EF2); (0x11FB0, 0x11FB0); (0x12000, 0x12399); (0x12480, 0x12543); (0x12F90, 0x12FF0);
    (0x13000, 0x1342E); (0x14400, 0x14646); (0x16800, 0x16A38); (0x16A40, 0x16A5E); (0x16A70, 0x16ABE);
    (0x16AD0, 0x16AED); (0x16B00, 0x16B2F); (0x16B40, 0x16B43); (0x16B63, 0x16B77); (0x16B7D, 0x16B8F);
    (0x16E40, 0x16E7F); (0x16F00, 0x16F4A); (0x16F50, 0x16F50); (0x16F93, 0x16F9F); (0x16FE0, 0x16FE1);
    (0x16FE3, 0x16FE3); (0x17000, 0x187F7); (0x18800, 0x18CD5); (0x18D00, 0x18D08); (0x1AFF0, 0x1AFF3);
    (0x1AFF5, 0x1AFFB); (0x1AFFD, 0x1AFFE); (0x1B000, 0x1B122); (0x1B150, 0x1B152); (0x1B164, 0x1B167);
    (0x1B170, 0x1B2FB); (0x1BC00, 0x1BC6A); (0x1BC70, 0x1BC7C); (0x1BC80, 0x1BC88); (0x1BC90, 0x1BC99);
    (0x1D400, 0x1D454); (0x1D456, 0x1D49C); (0x1D49E, 0x1D49F); (0x1D4A2, 0x1D4A2); (0x1D4A5, 0x1D4A6);
    (0x1D4A9, 0x1D4AC); (0x1D4AE, 0x1D4B9); (0x1D4BB, 0x1D4BB); (0x1D4BD, 0x1D4C3); (0x1D4C5, 0x1D505);
    (0x1D507, 0x1D50A); (0x1D50D, 0x1D514); (0x1D516, 0x1D51C); (0x1D51E, 0x1D539); (0x1D53B, 0x1D53E);
    (0x1D540, 0x1D544); (0x1D546, 0x1D546); (0x1D54A, 0x1D550); (0x1D552, 0x1D6A5); (0x1D6A8, 0x1D6C0);
    (0x1D6C2, 0x1D6DA); (0x1D6DC, 0x1D6FA); (0x1D6FC, 0x1D714); (0x1D716, 0x1D734); (0x1D736, 0x1D74E);
    (0x1D750, 0x1D76E); (0x1D770, 0x1D788); (0x1D78A, 0x1D7A8); (0x1D7AA, 0x1D7C2); (0x1D7C4, 0x1D7CB);
    (0x1DF00, 0x1DF1E); (0x1E100, 0x1E12C); (0x1E137, 0x1E13D); (0x1E14E, 0x1E14E); (0x1E290, 0x1E2AD);
    (0x1E2C0, 0x1E2EB); (0x1E7E0, 0x1E7E6); (0x1E7E8, 0x1E7EB); (0x1E7ED, 0x1E7EE); (0x1E7F0, 0x1E7FE);
    (0x1E800, 0x1E8C4); (0x1E900, 0x1E943); (0x1E94B, 0x1E94B); (0x1EE00, 0x1EE03); (0x1EE05, 0x1EE1F);
    (0x1EE21, 0x1EE22); (0x1EE24, 0x1EE24); (0x1EE27, 0x1EE27); (0x1EE29, 0x1EE32); (0x1EE34, 0x1EE37);
    (0x1EE39, 0x1EE39); (0x1EE3B, 0x1EE3B); (0x1EE42, 0x1EE42); (0x1EE47, 0x1EE47); (0x1EE49, 0x1EE49);
    (0x1EE4B, 0x1EE4B); (0x1EE4D, 0x1EE4F); (0x1EE51, 0x1EE52); (0x1EE54, 0x1EE54); (0x1EE57, 0x1EE57);
    (0x1EE59, 0x1EE59); (0x1EE5B, 0x1EE5B); (0x1EE5D, 0x1EE5D); (0x1EE5F, 0x1EE5F); (0x1EE61, 0x1EE62);
    (0x1EE64, 0x1EE64); (0x1EE67, 0x1EE6A); (0x1EE6C, 0x1EE72); (0x1EE74, 0x1EE77); (0x1EE79, 0x1EE7C);
    (0x1EE7E, 0x1EE7E); (0x1EE80, 0x1EE89); (0x1EE8B, 0x1EE9B); (0x1EEA1, 0x1EEA3); (0x1EEA5, 0x1EEA9);
    (0x1EEAB, 0x1EEBB); (0x20000, 0x2A6DF); (0x2A700, 0x2B738); (0x2B740, 0x2B81D); (0x2B820, 0x2CEA1);
    (0x2CEB0, 0x2EBE0); (0x2F800, 0x2FA1D); (0x30000, 0x3134A) ].

(** Code points with Numeric_Type=Decimal (general category Nd): [str.isdecimal]. *)
Definition decimal_ranges : list (Z * Z) :=
  [ (0x0030, 0x0039); (0x0660, 0x0669); (0x06F0, 0x06F9); (0x07C0, 0x07C9); (0x0966, 0x096F);
    (0x09E6, 0x09EF); (0x0A66, 0x0A6F); (0x0AE6, 0x0AEF); (0x0B66, 0x0B6F); (0x0BE6, 0x0BEF);
    (0x0C66, 0x0C6F); (0x0CE6, 0x0CEF); (0x0D66, 0x0D6F); (0x0DE6, 0x0DEF); (0x0E50, 0x0E59);
    (0x0ED0, 0x0ED9); (0x0F20, 0x0F29); (0x1040, 0x1049); (0x1090, 0x1099); (0x17E0, 0x17E9);
    (0x1810, 0x1819); (0x1946, 0x194F); (0x19D0, 0x19D9); (0x1A80, 0x1A89); (0x1A90, 0x1A99);
    (0x1B50, 0x1B59); (0x1BB0, 0x1BB9); (0x1C40, 0x1C49); (0x1C50, 0x1C59); (0xA620, 0xA629);
    (0xA8D0, 0xA8D9); (0xA900, 0xA909); (0xA9D0, 0xA9D9); (0xA9F0, 0xA9F9); (0xAA50, 0xAA59);
    (0xABF0, 0xABF9); (0xFF10, 0xFF19); (0x104A0, 0x104A9); (0x10D30, 0x10D39); (0x11066, 0x1106F);
    (0x110F0, 0x110F9); (0x11136, 0x1113F); (0x111D0, 0x111D9); (0x112F0, 0x112F9); (0x11450, 0x11459);
    (0x114D0, 0x114D9); (0x11650, 0x11659); (0x116C0, 0x116C9); (0x11730, 0x11739); (0x118E0, 0x118E9);
    (0x11950, 0x11959); (0x11C50, 0x11C59); (0x11D50, 0x11D59); (0x11DA0, 0x11DA9); (0x16A60, 0x16A69);
    (0x16AC0, 0x16AC9); (0x16B50, 0x16B59); (0x1D7CE, 0x1D7FF); (0x1E140, 0x1E149); (0x1E2F0, 0x1E2F9);
    (0x1E950, 0x1E959); (0x1FBF0, 0x1FBF9) ].

(** Code points with Numeric_Type=Digit or Decimal: [str.isdigit]. *)
Definition digit_ranges : list (Z * Z) :=
  [ (0x0030, 0x0039); (0x00B2, 0x00B3); (0x00B9, 0x00B9); (0x0660, 0x0669); (0x06F0, 0x06F9);
    (0x07C0, 0x07C9); (0x0966, 0x096F); (0x09E6, 0x09EF); (0x0A66, 0x0A6F); (0x0AE6, 0x0AEF);
    (0x0B66, 0x0B6F); (0x0BE6, 0x0BEF); (0x0C66, 0x0C6F); (0x0CE6, 0x0CEF); (0x0D66, 0x0D6F);
    (0x0DE6, 0x0DEF); (0x0E50, 0x0E59); (0x0ED0, 0x0ED9); (0x0F20, 0x0F29); (0x1040, 0x1049);
    (0x1090, 0x1099); (0x1369, 0x1371); (0x17E0, 0x17E9); (0x1810, 0x1819); (0x1946, 0x194F);
    (0x19D0, 0x19DA); (0x1A80, 0x1A89); (0x1A90, 0x1A99); (0x1B50, 0x1B59); (0x1BB0, 0x1BB9);
    (0x1C40, 0x1C49); (0x1C50, 0x1C59); (0x2070, 0x2070); (0x2074, 0x2079); (0x2080, 0x2089);
    (0x2460, 0x2468); (0x2474, 0x247C); (0x2488, 0x2490); (0x24EA, 0x24EA); (0x24F5, 0x24FD);
    (0x24FF, 0x24FF); (0x2776, 0x277E); (0x2780, 0x2788); (0x278A, 0x2792); (0xA620, 0xA629);
    (0xA8D0, 0xA8D9); (0xA900, 0xA909); (0xA9D0, 0xA9D9); (0xA9F0, 0xA9F9); (0xAA50, 0xAA59);
    (0xABF0, 0xABF9); (0xFF10, 0xFF19); (0x104A0, 0x104A9); (0x10A40, 0x10A43); (0x10D30, 0x10D39);
    (0x10E60, 0x10E68); (0x11052, 0x1105A); (0x11066, 0x1106F); (0x110F0, 0x110F9); (0x11136, 0x1113F);
    (0x111D0, 0x111D9); (0x112F0, 0x112F9); (0x11450, 0x11459); (0x114D0, 0x114D9); (0x11650, 0x11659);
    (0x116C0, 0x116C9); (0x11730, 0x11739); (0x118E0, 0x118E9); (0x11950, 0x11959); (0x11C50, 0x11C59);
    (0x11D50, 0x11D59); (0x11DA0, 0x11DA9); (0x16A60, 0x16A69); (0x16AC0, 0x16AC9); (0x16B50, 0x16B59);
    (0x1D7CE, 0x1D7FF); (0x1E140, 0x1E149); (0x1E2F0, 0x1E2F9); (0x1E950, 0x1E959); (0x1F100, 0x1F10A);
    (0x1FBF0, 0x1FBF9) ].

(** Code points with Numeric_Type=Digit, Decimal or Numeric: [str.isnumeric]. *)
Definition numeric_ranges : list (Z * Z) :=
  [ (0x0030, 0x0039); (0x00B2, 0x00B3); (0x00B9, 0x00B9); (0x00BC, 0x00BE); (0x0660, 0x0669);
    (0x06F0, 0x06F9); (0x07C0, 0x07C9); (0x0966, 0x096F); (0x09E6, 0x09EF); (0x09F4, 0x09F9);
    (0x0A66, 0x0A6F); (0x0AE6, 0x0AEF); (0x0B66, 0x0B6F); (0x0B72, 0x0B77); (0x0BE6, 0x0BF2);
    (0x0C66, 0x0C6F); (0x0C78, 0x0C7E); (0x0CE6, 0x0CEF); (0x0D58, 0x0D5E); (0x0D66, 0x0D78);
    (0x0DE6, 0x0DEF); (0x0E50, 0x0E59); (0x0ED0, 0x0ED9); (0x0F20, 0x0F33); (0x1040, 0x1049);
    (0x1090, 0x1099); (0x1369, 0x137C); (0x16EE, 0x16F0); (0x17E0, 0x17E9); (0x17F0, 0x17F9);
    (0x1810, 0x1819); (0x1946, 0x194F); (0x19D0, 0x19DA); (0x1A80, 0x1A89); (0x1A90, 0x1A99);
    (0x1B50, 0x1B59); (0x1BB0, 0x1BB9); (0x1C40, 0x1C49); (0x1C50, 0x1C59); (0x2070, 0x2070);
    (0x2074, 0x2079); (0x2080, 0x2089); (0x2150, 0x2182); (0x2185, 0x2189); (0x2460, 0x249B);
    (0x24EA, 0x24FF); (0x2776, 0x2793); (0x2CFD, 0x2CFD); (0x3007, 0x3007); (0x3021, 0x3029);
    (0x3038, 0x303A); (0x3192, 0x3195); (0x3220, 0x3229); (0x3248, 0x324F); (0x3251, 0x325F);
    (0x3280, 0x3289); (0x32B1, 0x32BF); (0x3405, 0x3405); (0x3483, 0x3483); (0x382A, 0x382A);
    (0x3B4D, 0x3B4D); (0x4E00, 0x4E00); (0x4E03, 0x4E03); (0x4E07, 0x4E07); (0x4E09, 0x4E09);
    (0x4E5D, 0x4E5D); (0x4E8C, 0x4E8C); (0x4E94, 0x4E94); (0x4E96, 0x4E96); (0x4EBF, 0x4EC0);
    (0x4EDF, 0x4EDF); (0x4EE8, 0x4EE8); (0x4F0D, 0x4F0D); (0x4F70, 0x4F70); (0x5104, 0x5104);
    (0x5146, 0x5146); (0x5169, 0x5169); (0x516B, 0x516B); (0x516D, 0x516D); (0x5341, 0x5341);
    (0x5343, 0x5345); (0x534C, 0x534C); (0x53C1, 0x53C4); (0x56DB, 0x56DB); (0x58F1, 0x58F1);
    (0x58F9, 0x58F9); (0x5E7A, 0x5E7A); (0x5EFE, 0x5EFF); (0x5F0C, 0x5F0E); (0x5F10, 0x5F10);
    (0x62FE, 0x62FE); (0x634C, 0x634C); (0x67D2, 0x67D2); (0x6F06, 0x6F06); (0x7396, 0x7396);
    (0x767E, 0x767E); (0x8086, 0x8086); (0x842C, 0x842C); (0x8CAE, 0x8CAE); (0x8CB3, 0x8CB3);
    (0x8D30, 0x8D30); (0x9621, 0x9621); (0x9646, 0x9646); (0x964C, 0x964C); (0x9678, 0x9678);
    (0x96F6, 0x96F6); (0xA620, 0xA629); (0xA6E6, 0xA6EF); (0xA830, 0xA835); (0xA8D0, 0xA8D9);
    (0xA900, 0xA909); (0xA9D0, 0xA9D9); (0xA9F0, 0xA9F9); (0xAA50, 0xAA59); (0xABF0, 0xABF9);
    (0xF96B, 0xF96B); (0xF973, 0xF973); (0xF978, 0xF978); (0xF9B2, 0xF9B2); (0xF9D1, 0xF9D1);
    (0xF9D3, 0xF9D3); (0xF9FD, 0xF9FD); (0xFF10, 0xFF19); (0x10107, 0x10133); (0x10140, 0x10178);
    (0x1018A, 0x1018B); (0x102E1, 0x102FB); (0x10320, 0x10323); (0x10341, 0x10341); (0x1034A, 0x1034A);
    (0x103D1, 0x103D5); (0x104A0, 0x104A9); (0x10858, 0x1085F); (0x10879, 0x1087F); (0x108A7, 0x108AF);
    (0x108FB, 0x108FF); (0x10916, 0x1091B); (0x109BC, 0x109BD); (0x109C0, 0x109CF); (0x109D2, 0x109FF);
    (0x10A40, 0x10A48); (0x10A7D, 0x10A7E); (0x10A9D, 0x10A9F); (0x10AEB, 0x10AEF); (0x10B58, 0x10B5F);
    (0x10B78, 0x10B7F); (0x10BA9, 0x10BAF); (0x10CFA, 0x10CFF); (0x10D30, 0x10D39); (0x10E60, 0x10E7E);
    (0x10F1D, 0x10F26); (0x10F51, 0x10F54); (0x10FC5, 0x10FCB); (0x11052, 0x1106F); (0x110F0, 0x110F9);
    (0x11136, 0x1113F); (0x111D0, 0x111D9); (0x111E1, 0x111F4); (0x112F0, 0x112F9); (0x11450, 0x11459);
    (0x114D0, 0x114D9); (0x11650, 0x11659); (0x116C0, 0x116C9); (0x11730, 0x1173B); (0x118E0, 0x118F2);
    (0x11950, 0x11959); (0x11C50, 0x11C6C); (0x11D50, 0x11D59); (0x11DA0, 0x11DA9); (0x11FC0, 0x11FD4);
    (0x12400, 0x1246E); (0x16A60, 0x16A69); (0x16AC0, 0x16AC9); (0x16B50, 0x16B59); (0x16B5B, 0x16B61);
    (0x16E80, 0x16E96); (0x1D2E0, 0x1D2F3); (0x1D360, 0x1D378); (0x1D7CE, 0x1D7FF); (0x1E140, 0x1E149);
    (0x1E2F0, 0x1E2F9); (0x1E8C7, 0x1E8CF); (0x1E950, 0x1E959); (0x1EC71, 0x1ECAB); (0x1ECAD, 0x1ECAF);
    (0x1ECB1, 0x1ECB4); (0x1ED01, 0x1ED2D); (0x1ED2F, 0x1ED3D); (0x1F100, 0x1F10C); (0x1FBF0, 0x1FBF9);
    (0x20001, 0x20001); (0x20064, 0x20064); (0x200E2, 0x200E2); (0x20121, 0x20121); (0x2092A, 0x2092A);
    (0x20983, 0x20983); (0x2098C, 0x2098C); (0x2099C, 0x2099C); (0x20AEA, 0x20AEA); (0x20AFD, 0x20AFD);
    (0x20B19, 0x20B19); (0x22390, 0x22390); (0x22998, 0x22998); (0x23B1B, 0x23B1B); (0x2626D, 0x2626D);
    (0x2F890, 0x2F890) ].

(** Code points that are whitespace for [str.isspace] and for the [\s] class of [re] on [str] patterns: bidirectional class WS, B or S, or general category Zs. *)
Definition space_ranges : list (Z * Z) :=
  [ (0x0009, 0x000D); (0x001C, 0x0020); (0x0085, 0x0085); (0x00A0, 0x00A0); (0x1680, 0x1680);
    (0x2000, 0x200A); (0x2028, 0x2029); (0x202F, 0x202F); (0x205F, 0x205F); (0x3000, 0x3000) ].

(** Code points with a general category in P (Pc, Pd, Ps, Pe, Pi, Pf, Po):
    punctuation. No method of [str] reads this table and the next; they
    say what the properties below mean by punctuation and by symbol. *)
Definition punctuation_ranges : list (Z * Z) :=
  [ (0x0021, 0x0023); (0x0025, 0x002A); (0x002C, 0x002F); (0x003A, 0x003B); (0x003F, 0x0040);
    (0x005B, 0x005D); (0x005F, 0x005F); (0x007B, 0x007B); (0x007D, 0x007D); (0x00A1, 0x00A1);
    (0x00A7, 0x00A7); (0x00AB, 0x00AB); (0x00B6, 0x00B7); (0x00BB, 0x00BB); (0x00BF, 0x00BF);
    (0x037E, 0x037E); (0x0387, 0x0387); (0x055A, 0x055F); (0x0589, 0x058A); (0x05BE, 0x05BE);
    (0x05C0, 0x05C0); (0x05C3, 0x05C3); (0x05C6, 0x05C6); (0x05F3, 0x05F4); (0x0609, 0x060A);
    (0x060C, 0x060D); (0x061B, 0x061B); (0x061D, 0x061F); (0x066A, 0x066D); (0x06D4, 0x06D4);
    (0x0700, 0x070D); (0x07F7, 0x07F9); (0x0830, 0x083E); (0x085E, 0x085E); (0x0964, 0x0965);
    (0x0970, 0x0970); (0x09FD, 0x09FD); (0x0A76, 0x0A76); (0x0AF0, 0x0AF0); (0x0C77, 0x0C77);
    (0x0C84, 0x0C84); (0x0DF4, 0x0DF4); (0x0E4F, 0x0E4F); (0x0E5A, 0x0E5B); (0x0F04, 0x0F12);
    (0x0F14, 0x0F14); (0x0F3A, 0x0F3D); (0x0F85, 0x0F85); (0x0FD0, 0x0FD4); (0x0FD9, 0x0FDA);
    (0x104A, 0x104F); (0x10FB, 0x10FB); (0x1360, 0x1368); (0x1400, 0x1400); (0x166E, 0x166E);
    (0x169B, 0x169C); (0x16EB, 0x16ED); (0x1735, 0x1736); (0x17D4, 0x17D6); (0x17D8, 0x17DA);
    (0x1800, 0x180A); (0x1944, 0x1945); (0x1A1E, 0x1A1F); (0x1AA0, 0x1AA6); (0x1AA8, 0x1AAD);
    (0x1B5A, 0x1B60); (0x1B7D, 0x1B7E); (0x1BFC, 0x1BFF); (0x1C3B, 0x1C3F); (0x1C7E, 0x1C7F);
    (0x1CC0, 0x1CC7); (0x1CD3, 0x1CD3); (0x2010, 0x2027); (0x2030, 0x2043); (0x2045, 0x2051);
    (0x2053, 0x205E); (0x207D, 0x207E); (0x208D, 0x208E); (0x2308, 0x230B); (0x2329, 0x232A);
    (0x2768, 0x2775); (0x27C5, 0x27C6); (0x27E6, 0x27EF); (0x2983, 0x2998); (0x29D8, 0x29DB);
    (0x29FC, 0x29FD); (0x2CF9, 0x2CFC); (0x2CFE, 0x2CFF); (0x2D70, 0x2D70); (0x2E00, 0x2E2E);
    (0x2E30, 0x2E4F); (0x2E52, 0x2E5D); (0x3001, 0x3003); (0x3008, 0x3011); (0x3014, 0x301F);
    (0x3030, 0x3030); (0x303D, 0x303D); (0x30A0, 0x30A0); (0x30FB, 0x30FB); (0xA4FE, 0xA4FF);
    (0xA60D, 0xA60F); (0xA673, 0xA673); (0xA67E, 0xA67E); (0xA6F2, 0xA6F7); (0xA874, 0xA877);
    (0xA8CE, 0xA8CF); (0xA8F8, 0xA8FA); (0xA8FC, 0xA8FC); (0xA92E, 0xA92F); (0xA95F, 0xA95F);
    (0xA9C1, 0xA9CD); (0xA9DE, 0xA9DF); (0xAA5C, 0xAA5F); (0xAADE, 0xAADF); (0xAAF0, 0xAAF1);
    (0xABEB, 0xABEB); (0xFD3E, 0xFD3F); (0xFE10, 0xFE19); (0xFE30, 0xFE52); (0xFE54, 0xFE61);
    (0xFE63, 0xFE63); (0xFE68, 0xFE68); (0xFE6A, 0xFE6B); (0xFF01, 0xFF03); (0xFF05, 0xFF0A);
    (0xFF0C, 0xFF0F); (0xFF1A, 0xFF1B); (0xFF1F, 0xFF20); (0xFF3B, 0xFF3D); (0xFF3F, 0xFF3F);
    (0xFF5B, 0xFF5B); (0xFF5D, 0xFF5D); (0xFF5F, 0xFF65); (0x10100, 0x10102); (0x1039F, 0x1039F);
    (0x103D0, 0x103D0); (0x1056F, 0x1056F); (0x10857, 0x10857); (0x1091F, 0x1091F); (0x1093F, 0x1093F);
    (0x10A50, 0x10A58); (0x10A7F, 0x10A7F); (0x10AF0, 0x10AF6); (0x10B39, 0x10B3F); (0x10B99, 0x10B9C);
    (0x10EAD, 0x10EAD); (0x10F55, 0x10F59); (0x10F86, 0x10F89); (0x11047, 0x1104D); (0x110BB, 0x110BC);
    (0x110BE, 0x110C1); (0x11140, 0x11143); (0x11174, 0x11175); (0x111C5, 0x111C8); (0x111CD, 0x111CD);
    (0x111DB, 0x111DB); (0x111DD, 0x111DF); (0x11238, 0x1123D); (0x112A9, 0x112A9); (0x1144B, 0x1144F);
    (0x1145A, 0x1145B); (0x1145D, 0x1145D); (0x114C6, 0x114C6); (0x115C1, 0x115D7); (0x11641, 0x11643);
    (0x11660, 0x1166C); (0x116B9, 0x116B9); (0x1173C, 0x1173E); (0x1183B, 0x1183B); (0x11944, 0x11946);
    (0x119E2, 0x119E2); (0x11A3F, 0x11A46); (0x11A9A, 0x11A9C); (0x11A9E, 0x11AA2); (0x11C41, 0x11C45);
    (0x11C70, 0x11C71); (0x11EF7, 0x11EF8); (0x11FFF, 0x11FFF); (0x12470, 0x12474); (0x12FF1, 0x12FF2);
    (0x16A6E, 0x16A6F); (0x16AF5, 0x16AF5); (0x16B37, 0x16B3B); (0x16B44, 0x16B44); (0x16E97, 0x16E9A);
    (0x16FE2, 0x16FE2); (0x1BC9F, 0x1BC9F); (0x1DA87, 0x1DA8B); (0x1E95E, 0x1E95F) ].

(** Code points with a general category in S (Sm, Sc, Sk, So): symbols. *)
Definition symbol_ranges : list (Z * Z) :=
  [ (0x0024, 0x0024); (0x002B, 0x002B); (0x003C, 0x003E); (0x005E, 0x005E); (0x0060, 0x0060);
    (0x007C, 0x007C); (0x007E, 0x007E); (0x00A2, 0x00A6); (0x00A8, 0x00A9); (0x00AC, 0x00AC);
    (0x00AE, 0x00B1); (0x00B4, 0x00B4); (0x00B8, 0x00B8); (0x00D7, 0x00D7); (0x00F7, 0x00F7);
    (0x02C2, 0x02C5); (0x02D2, 0x02DF); (0x02E5, 0x02EB); (0x02ED, 0x02ED); (0x02EF, 0x02FF);
    (0x0375, 0x0375); (0x0384, 0x0385); (0x03F6, 0x03F6); (0x0482, 0x0482); (0x058D, 0x058F);
    (0x0606, 0x0608); (0x060B, 0x060B); (0x060E, 0x060F); (0x06DE, 0x06DE); (0x06E9, 0x06E9);
    (0x06FD, 0x06FE); (0x07F6, 0x07F6); (0x07FE, 0x07FF); (0x0888, 0x0888); (0x09F2, 0x09F3);
    (0x09FA, 0x09FB); (0x0AF1, 0x0AF1); (0x0B70, 0x0B70); (0x0BF3, 0x0BFA); (0x0C7F, 0x0C7F);
    (0x0D4F, 0x0D4F); (0x0D79, 0x0D79); (0x0E3F, 0x0E3F); (0x0F01, 0x0F03); (0x0F13, 0x0F13);
    (0x0F15, 0x0F17); (0x0F1A, 0x0F1F); (0x0F34, 0x0F34); (0x0F36, 0x0F36); (0x0F38, 0x0F38);
    (0x0FBE, 0x0FC5); (0x0FC7, 0x0FCC); (0x0FCE, 0x0FCF); (0x0FD5, 0x0FD8); (0x109E, 0x109F);
    (0x1390, 0x1399); (0x166D, 0x166D); (0x17DB, 0x17DB); (0x1940, 0x1940); (0x19DE, 0x19FF);
    (0x1B61, 0x1B6A); (0x1B74, 0x1B7C); (0x1FBD, 0x1FBD); (0x1FBF, 0x1FC1); (0x1FCD, 0x1FCF);
    (0x1FDD, 0x1FDF); (0x1FED, 0x1FEF); (0x1FFD, 0x1FFE); (0x2044, 0x2044); (0x2052, 0x2052);
    (0x207A, 0x207C); (0x208A, 0x208C); (0x20A0, 0x20C0); (0x2100, 0x2101); (0x2103, 0x2106);
    (0x2108, 0x2109); (0x2114, 0x2114); (0x2116, 0x2118); (0x211E, 0x2123); (0x2125, 0x2125);
    (0x2127, 0x2127); (0x2129, 0x2129); (0x212E, 0x212E); (0x213A, 0x213B); (0x2140, 0x2144);
    (0x214A, 0x214D); (0x214F, 0x214F); (0x218A, 0x218B); (0x2190, 0x2307); (0x230C, 0x2328);
    (0x232B, 0x2426); (0x2440, 0x244A); (0x249C, 0x24E9); (0x2500, 0x2767); (0x2794, 0x27C4);
    (0x27C7, 0x27E5); (0x27F0, 0x2982); (0x2999, 0x29D7); (0x29DC, 0x29FB); (0x29FE, 0x2B73);
    (0x2B76, 0x2B95); (0x2B97, 0x2BFF); (0x2CE5, 0x2CEA); (0x2E50, 0x2E51); (0x2E80, 0x2E99);
    (0x2E9B, 0x2EF3); (0x2F00, 0x2FD5); (0x2FF0, 0x2FFB); (0x3004, 0x3004); (0x3012, 0x3013);
    (0x3020, 0x3020); (0x3036, 0x3037); (0x303E, 0x303F); (0x309B, 0x309C); (0x3190, 0x3191);
    (0x3196, 0x319F); (0x31C0, 0x31E3); (0x3200, 0x321E); (0x322A, 0x3247); (0x3250, 0x3250);
    (0x3260, 0x327F); (0x328A, 0x32B0); (0x32C0, 0x33FF); (0x4DC0, 0x4DFF); (0xA490, 0xA4C6);
    (0xA700, 0xA716); (0xA720, 0xA721); (0xA789, 0xA78A); (0xA828, 0xA82B); (0xA836, 0xA839);
    (0xAA77, 0xAA79); (0xAB5B, 0xAB5B); (0xAB6A, 0xAB6B); (0xFB29, 0xFB29); (0xFBB2, 0xFBC2);
    (0xFD40, 0xFD4F); (0xFDCF, 0xFDCF); (0xFDFC, 0xFDFF); (0xFE62, 0xFE62); (0xFE64, 0xFE66);
    (0xFE69, 0xFE69); (0xFF04, 0xFF04); (0xFF0B, 0xFF0B); (0xFF1C, 0xFF1E); (0xFF3E, 0xFF3E);
    (0xFF40, 0xFF40); (0xFF5C, 0xFF5C); (0xFF5E, 0xFF5E); (0xFFE0, 0xFFE6); (0xFFE8, 0xFFEE);
    (0xFFFC, 0xFFFD); (0x10137, 0x1013F); (0x10179, 0x10189); (0x1018C, 0x1018E); (0x10190, 0x1019C);
    (0x101A0, 0x101A0); (0x101D0, 0x101FC); (0x10877, 0x10878); (0x10AC8, 0x10AC8); (0x1173F, 0x1173F);
    (0x11FD5, 0x11FF1); (0x16B3C, 0x16B3F); (0x16B45, 0x16B45); (0x1BC9C, 0x1BC9C); (0x1CF50, 0x1CFC3);
    (0x1D000, 0x1D0F5); (0x1D100, 0x1D126); (0x1D129, 0x1D164); (0x1D16A, 0x1D16C); (0x1D183, 0x1D184);
    (0x1D18C, 0x1D1A9); (0x1D1AE, 0x1D1EA); (0x1D200, 0x1D241); (0x1D245, 0x1D245); (0x1D300, 0x1D356);
    (0x1D6C1, 0x1D6C1); (0x1D6DB, 0x1D6DB); (0x1D6FB, 0x1D6FB); (0x1D715, 0x1D715); (0x1D735, 0x1D735);
    (0x1D74F, 0x1D74F); (0x1D76F, 0x1D76F); (0x1D789, 0x1D789); (0x1D7A9, 0x1D7A9); (0x1D7C3, 0x1D7C3);
    (0x1D800, 0x1D9FF); (0x1DA37, 0x1DA3A); (0x1DA6D, 0x1DA74); (0x1DA76, 0x1DA83); (0x1DA85, 0x1DA86);
    (0x1E14F, 0x1E14F); (0x1E2FF, 0x1E2FF); (0x1ECAC, 0x1ECAC); (0x1ECB0, 0x1ECB0); (0x1ED2E, 0x1ED2E);
    (0x1EEF0, 0x1EEF1); (0x1F000, 0x1F02B); (0x1F030, 0x1F093); (0x1F0A0, 0x1F0AE); (0x1F0B1, 0x1F0BF);
    (0x1F0C1, 0x1F0CF); (0x1F0D1, 0x1F0F5); (0x1F10D, 0x1F1AD); (0x1F1E6, 0x1F202); (0x1F210, 0x1F23B);
    (0x1F240, 0x1F248); (0x1F250, 0x1F251); (0x1F260, 0x1F265); (0x1F300, 0x1F6D7); (0x1F6DD, 0x1F6EC);
    (0x1F6F0, 0x1F6FC); (0x1F700, 0x1F773); (0x1F780, 0x1F7D8); (0x1F7E0, 0x1F7EB); (0x1F7F0, 0x1F7F0);
    (0x1F800, 0x1F80B); (0x1F810, 0x1F847); (0x1F850, 0x1F859); (0x1F860, 0x1F887); (0x1F890, 0x1F8AD);
    (0x1F8B0, 0x1F8B1); (0x1F900, 0x1FA53); (0x1FA60, 0x1FA6D); (0x1FA70, 0x1FA74); (0x1FA78, 0x1FA7C);
    (0x1FA80, 0x1FA86); (0x1FA90, 0x1FAAC); (0x1FAB0, 0x1FABA); (0x1FAC0, 0x1FAC5); (0x1FAD0, 0x1FAD9);
    (0x1FAE0, 0x1FAE7); (0x1FAF0, 0x1FAF6); (0x1FB00, 0x1FB92); (0x1FB94, 0x1FBCA) ].

Definition isalpha_char (c : codepoint) : bool := in_ranges alpha_ranges c.
Definition isdecimal_char (c : codepoint) : bool := in_ranges decimal_ranges c.
Definition isdigit_char (c : codepoint) : bool := in_ranges digit_ranges c.
Definition isnumeric_char (c : codepoint) : bool := in_ranges numeric_ranges c.
Definition isspace_char (c : codepoint) : bool := in_ranges space_ranges c.

(** A character is alphanumeric when one of [isalpha], [isdecimal],
    [isdigit], [isnumeric] holds of it. *)
Definition isalnum_char (c : codepoint) : bool :=
  isalpha_char c || isdecimal_char c || isdigit_char c || isnumeric_char c.

(** [str.isalnum()]: every character is alphanumeric and there is at
    least one character. *)
Definition isalnum (v : str) : bool :=
  match v with
  | [] => false
  | _ => forallb isalnum_char v
  end.

End Py.

(* ===================================================================== *)
(** ** The fragment of [re] used by the validators *)
(* ===================================================================== *)

Module Re.

Import Py.
Local Open Scope Z_scope.

(** The members of a bracketed character class: a range [a-z], a single
    (possibly escaped) character, or the category escape [\s]. *)
Inductive class_item : Type :=
| Range (lo hi : codepoint)
| Char (c : codepoint)
| Space.

Definition class_item_mem (i : class_item) (c : codepoint) : bool :=
  match i with
  | Range lo hi => (lo <=? c) && (c <=? hi)
  | Char x => c =? x
  | Space => isspace_char c
  end.

Definition class_mem (cls : list class_item) (c : codepoint) : bool :=
  existsb (fun i => class_item_mem i c) cls.

(** The pattern nodes that occur in [models.py]: the anchors [^] and [$],
    a character class, and a character class under [+]. *)
Inductive node : Type :=
| Bol
| Eol
| Class (cls : list class_item)
| ClassPlus (cls : list class_item).

Definition pattern := list node.

(** Without [re.MULTILINE], [$] matches at the end of the string and just
    before a newline that is the last character of the string. *)
Definition at_end (s : str) : bool :=
  match s with
  | [] => true
  | [c] => c =? 10
  | _ => false
  end.

(** Backtracking match of [p] against the remaining input [s]; [at_start]
    says whether no character has been consumed since the beginning of the
    string (where [^] matches). [+] is greedy: the longer repetition is
    tried before the rest of the pattern. *)
Fixpoint match_here (p : pattern) (at_start : bool) (s : str) {struct p} : bool :=
  match p with
  | [] => true
  | Bol :: p' => at_start && match_here p' at_start s
  | Eol :: p' => at_end s && match_here p' at_start s
  | Class cls :: p' =>
      match s with
      | c :: s' => class_mem cls c && match_here p' false s'
      | [] => false
      end
  | ClassPlus cls :: p' =>
      (fix plus (s : str) : bool :=
         match s with
         | c :: s' => class_mem cls c && (plus s' || match_here p' false s')
         | [] => false
         end) s
  end.

(** [re.match(p, s)] as a truth value: a match starting at position 0. *)
Definition match_ (p : pattern) (s : str) : bool := match_here p true s.

Fixpoint search_from (p : pattern) (at_start : bool) (s : str) : bool :=
  match_here p at_start s
  || match s with
     | [] => false
     | _ :: s' => search_from p false s'
     end.

(** [re.search(p, s)] as a truth value: a match starting at any position. *)
Definition search (p : pattern) (s : str) : bool := search_from p true s.

End Re.

(* ===================================================================== *)
(** ** [models.py] *)
(* ===================================================================== *)

Module Models.

Import Py.
Local Open Scope string_scope.

(** Outcome of a field validator: the value it returns, or the message of
    the [ValueError] it raises. *)
Inductive result (A : Type) : Type :=
| Return (v : A)
| ValueError (msg : string).

Arguments Return {A} v.
Arguments ValueError {A} msg.

(** One entry of a pydantic [ValidationError]: the field it is located at
    and the message of the error raised for that field. *)
Record ErrorDetails : Type := { loc : string; msg : string }.

(** The entries a field contributes to the [ValidationError] of its model:
    none when its validation returned, one when it raised. *)
Definition line_errors {A : Type} (field : string) (r : result A) : list ErrorDetails :=
  match r with
  | Return _ => []
  | ValueError m => [{| loc := field; msg := m |}]
  end.

(** Python values that occur in the dictionaries of [main.py]. *)
#[local] Set Warnings "-register-all".
Inductive value : Type :=
| VNone
| VBool (b : bool)
| VInt (n : Z)
| VStr (s : str)
| VDict (items : list (string * value)).

(** A [dict] with string keys, in insertion order. *)
Definition dict := list (string * value).

(** [d.get(key)]: the value bound to [key], if any. *)
Fixpoint get (d : dict) (key : string) : option value :=
  match d with
  | [] => None
  | (k, x) :: d' => if String.eqb k key then Some x else get d' key
  end.

(** [list(d.keys())] *)
Definition keys (d : dict) : list string := map fst d.

Module UserCreate.

(** [r'[A-Z]'] *)
Definition re_uppercase : Re.pattern :=
  [Re.Class [Re.Range (ord "A") (ord "Z")]].

(** [r'[a-z]'] *)
Definition re_lowercase : Re.pattern :=
  [Re.Class [Re.Range (ord "a") (ord "z")]].

(** [r'[0-9]'] *)
Definition re_number : Re.pattern :=
  [Re.Class [Re.Range (ord "0") (ord "9")]].

(** The class of the twenty special characters of the fifth check; the
    double quote, between [?] and [:], is written as code point 34. *)
Definition re_special : Re.pattern :=
  [Re.Class (map Re.Char (lit "!@#$%^&*(),.?" ++ [34%Z] ++ lit ":{}|<>"))].

(** [r'^[A-Za-z\s\-\'\.]+$'] *)
Definition re_full_name : Re.pattern :=
  [Re.Bol;
   Re.ClassPlus [Re.Range (ord "A") (ord "Z"); Re.Range (ord "a") (ord "z");
                 Re.Space; Re.Char (ord "-"); Re.Char (ord "'"); Re.Char (ord ".")];
   Re.Eol].

(** [UserCreate.password_must_be_strong] *)
Definition password_must_be_strong (v : str) : result str :=
  if (len v <? 8)%nat then
    ValueError "Password must be at least 8 characters long"
  else if negb (Re.search re_uppercase v) then
    ValueError "Password must contain at least one uppercase letter"
  else if negb (Re.search re_lowercase v) then
    ValueError "Password must contain at least one lowercase letter"
  else if negb (Re.search re_number v) then
    ValueError "Password must contain at least one number"
  else if negb (Re.search re_special v) then
    ValueError "Password must contain at least one special character"
  else Return v.

(** [UserCreate.username_must_be_alphanumeric] *)
Definition username_must_be_alphanumeric (v : str) : result str :=
  if negb (isalnum v) then
    ValueError "Username must be alphanumeric (letters and numbers only)"
  else if (len v <? 3)%nat then
    ValueError "Username must be at least 3 characters long"
  else if (20 <? len v)%nat then
    ValueError "Username must be at most 20 characters long"
  else Return v.

(** [UserCreate.full_name_must_be_proper_format]; [None] is Python's
    [None], the value of an absent [full_name]. *)
Definition full_name_must_be_proper_format (v : option str) : result (option str) :=
  match v with
  | Some s =>
      if negb (Re.match_ re_full_name s) then
        ValueError "Full name can only contain letters, spaces, hyphens, apostrophes, and periods"
      else if (len s <? 2)%nat then
        ValueError "Full name must be at least 2 characters long"
      else if (50 <? len s)%nat then
        ValueError "Full name must be at most 50 characters long"
      else Return v
  | None => Return v
  end.

(** The fields of a request body handed to the model: [username], [email]
    and [password] are strings, [full_name] is a string or [None] (JSON
    [null], or the default taken when the key is absent). A body in which
    one of the three required fields is missing, or in which a field is not
    a string, has no [input]: it is refused with 422 on the type of the
    field, without the field's validator being run, and stores nothing. *)
Record input : Type := {
  input_username : str;
  input_email : str;
  input_password : str;
  input_full_name : option str
}.

(** An instance of the model. *)
Record t : Type := {
  username : str;
  email : str;
  password : str;
  full_name : option str
}.

Section Validate.

(** Validation of the [EmailStr] type, which pydantic delegates to the
    [email_validator] package: the normalised address, or an error. *)
Variable EmailStr : str -> result str.

(** [UserCreate.model_validate]: every field is validated, in declaration
    order, a field's own validator raising at its first failing check; the
    errors of all fields are collected, and the instance is built only when
    there is none. *)
Definition model_validate (data : input) : list ErrorDetails + t :=
  let r_username := username_must_be_alphanumeric (input_username data) in
  let r_email := EmailStr (input_email data) in
  let r_password := password_must_be_strong (input_password data) in
  let r_full_name := full_name_must_be_proper_format (input_full_name data) in
  match r_username, r_email, r_password, r_full_name with
  | Return u, Return e, Return p, Return f =>
      inr {| username := u; email := e; password := p; full_name := f |}
  | _, _, _, _ =>
      inl (line_errors "username" r_username ++ line_errors "email" r_email
           ++ line_errors "password" r_password
           ++ line_errors "full_name" r_full_name)%list
  end.

End Validate.

End UserCreate.

Module UserOut.

Record t : Type := {
  username : str;
  email : str;
  full_name : option str;
  join_date : str;
  validation_status : str
}.

Section Validate.

Variable EmailStr : str -> result str.

(** A required [str] field: the key must be bound to a string. *)
Definition required_str (d : dict) (key : string) : option str :=
  match get d key with
  | Some (VStr s) => Some s
  | _ => None
  end.

(** [UserOut.model_validate] on a dictionary, [None] standing for a
    [ValidationError]. Keys that are not fields of the model are ignored;
    [full_name] defaults to [None] and [validation_status] to ["passed"]. *)
Definition model_validate (d : dict) : option t :=
  match required_str d "username" with
  | None => None
  | Some u =>
  match required_str d "email" with
  | None => None
  | Some e0 =>
  match EmailStr e0 with
  | ValueError _ => None
  | Return e =>
  match (match get d "full_name" with
         | None | Some VNone => Some None
         | Some (VStr s) => Some (Some s)
         | Some _ => None
         end) with
  | None => None
  | Some f =>
  match required_str d "join_date" with
  | None => None
  | Some j =>
  match (match get d "validation_status" with
         | None => Some (lit "passed")
         | Some (VStr s) => Some s
         | Some _ => None
         end) with
  | None => None
  | Some st =>
      Some {| username := u; email := e; full_name := f;
              join_date := j; validation_status := st |}
  end end end end end end.

End Validate.

(** [UserOut.model_dump]: the fields of the model, in declaration order. *)
Definition model_dump (u : t) : dict :=
  [("username", VStr (username u));
   ("email", VStr (email u));
   ("full_name", match full_name u with Some s => VStr s | None => VNone end);
   ("join_date", VStr (join_date u));
   ("validation_status", VStr (validation_status u))].

End UserOut.

End Models.

(* ===================================================================== *)
(** ** [main.py] *)
(* ===================================================================== *)

Module Main.

Import Py Models.
Local Open Scope string_scope.

(** A naive [datetime], as [datetime.now()] returns it. *)
Record datetime : Type := {
  year : Z;
  month : Z;
  day : Z;
  hour : Z;
  minute : Z;
  second : Z;
  microsecond : Z
}.

(** The ranges the fields of a [datetime] lie in (days per month aside). *)
Definition datetime_in_range (t : datetime) : Prop :=
  (1 <= year t <= 9999 /\ 1 <= month t <= 12 /\ 1 <= day t <= 31
   /\ 0 <= hour t <= 23 /\ 0 <= minute t <= 59 /\ 0 <= second t <= 59
   /\ 0 <= microsecond t <= 999999)%Z.

(** The decimal digit of [n] of weight one, as a character. *)
Definition digit_char (n : Z) : codepoint := (ord "0" + n mod 10)%Z.

(** [n] written with exactly [width] decimal digits, zero-padded on the
    left: the [%0<width>d] conversion for [0 <= n < 10 ^ width]. *)
Fixpoint zero_padded (width : nat) (n : Z) : str :=
  match width with
  | O => []
  | S w => (zero_padded w (n / 10) ++ [digit_char n])%list
  end.

(** [datetime.isoformat()] of a naive [datetime]:
    [YYYY-MM-DDTHH:MM:SS], followed by [.ffffff] when the microsecond is
    not zero. *)
Definition isoformat (t : datetime) : str :=
  (zero_padded 4 (year t) ++ lit "-" ++ zero_padded 2 (month t) ++ lit "-"
   ++ zero_padded 2 (day t) ++ lit "T" ++ zero_padded 2 (hour t) ++ lit ":"
   ++ zero_padded 2 (minute t) ++ lit ":" ++ zero_padded 2 (second t)
   ++ (if (microsecond t =? 0)%Z then []
       else lit "." ++ zero_padded 6 (microsecond t)))%list.

(** [value] of an [Optional[str]]. *)
Definition optional_str (v : option str) : value :=
  match v with
  | Some s => VStr s
  | None => VNone
  end.

(** The body of [create_user]: [now] is the reading of [datetime.now()],
    [fake_db] the module-level list before the call. The result is the
    returned [db_user] and the list after [fake_db.append(db_user)]. *)
Definition create_user (now : datetime) (user_data : UserCreate.t)
    (fake_db : list dict) : dict * list dict :=
  let db_user :=
    [("username", VStr (UserCreate.username user_data));
     ("email", VStr (UserCreate.email user_data));
     ("full_name", optional_str (UserCreate.full_name user_data));
     ("join_date", VStr (isoformat now));
     ("password", VStr (UserCreate.password user_data));
     ("validation_status", VStr (lit "passed"))] in
  (db_user, (fake_db ++ [db_user])%list).

(** The body of [get_validation_rules]. *)
Definition get_validation_rules : dict :=
  [("password_rules",
    VDict [("min_length", VInt 8);
           ("requires_uppercase", VBool true);
           ("requires_lowercase", VBool true);
           ("requires_number", VBool true);
           ("requires_special_char", VBool true)]);
   ("username_rules",
    VDict [("alphanumeric_only", VBool true);
           ("min_length", VInt 3);
           ("max_length", VInt 20)]);
   ("full_name_rules",
    VDict [("allowed_characters",
            VStr (lit "letters, spaces, hyphens, apostrophes, periods"));
           ("min_length", VInt 2);
           ("max_length", VInt 50);
           ("optional", VBool true)])].

(** The body of [root]. *)
Definition root : dict :=
  [("message", VStr (lit "FastAPI Advanced Validation Demo"));
   ("endpoints",
    VDict [("create_user", VStr (lit "POST /users/"));
           ("validation_rules", VStr (lit "GET /validation-rules/"));
           ("interactive_docs", VStr (lit "GET /docs"))])].

(** What a route sends back. *)
Inductive content : Type :=
| JSON (d : dict)
| RequestValidationError (detail : list ErrorDetails)
| ResponseValidationError.

Record Response : Type := { status_code : Z; body : content }.

Definition HTTP_200_OK : Z := 200.
Definition HTTP_201_CREATED : Z := 201.
Definition HTTP_422_UNPROCESSABLE_ENTITY : Z := 422.
Definition HTTP_500_INTERNAL_SERVER_ERROR : Z := 500.

Section App.

Variable EmailStr : str -> result str.

(** [POST /users/]. The request body is validated as a [UserCreate]; a
    validation error is answered with 422 and [create_user] does not run.
    Otherwise [create_user] runs, and what it returns is validated and
    serialised as the [response_model], [UserOut], with status 201. *)
Definition post_users (now : datetime) (data : UserCreate.input)
    (fake_db : list dict) : Response * list dict :=
  match UserCreate.model_validate EmailStr data with
  | inl errors =>
      ({| status_code := HTTP_422_UNPROCESSABLE_ENTITY;
          body := RequestValidationError errors |}, fake_db)
  | inr user_data =>
      let (db_user, fake_db') := create_user now user_data fake_db in
      match UserOut.model_validate EmailStr db_user with
      | Some out =>
          ({| status_code := HTTP_201_CREATED;
              body := JSON (UserOut.model_dump out) |}, fake_db')
      | None =>
          ({| status_code := HTTP_500_INTERNAL_SERVER_ERROR;
              body := ResponseValidationError |}, fake_db')
      end
  end.

End App.

(** [GET /validation-rules/] *)
Definition get_validation_rules_route (fake_db : list dict) : Response * list dict :=
  ({| status_code := HTTP_200_OK; body := JSON get_validation_rules |}, fake_db).

(** [GET /] *)
Definition get_root (fake_db : list dict) : Response * list dict :=
  ({| status_code := HTTP_200_OK; body := JSON root |}, fake_db).

(** A request to one of the three routes of [app]; a [POST /users/] comes
    with its body and with what the clock reads when it is handled. *)
Inductive request : Type :=
| POST_users (now : datetime) (data : UserCreate.input)
| GET_validation_rules
| GET_root.

Section Serve.

Variable EmailStr : str -> result str.

(** The FastAPI application [app]: the route a request is dispatched to. *)
Definition dispatch (r : request) (fake_db : list dict) : Response * list dict :=
  match r with
  | POST_users now data => post_users EmailStr now data fake_db
  | GET_validation_rules => get_validation_rules_route fake_db
  | GET_root => get_root fake_db
  end.

(** Requests handled one after the other, each on the storage the previous
    one left: the responses, in order, and the storage at the end. *)
Fixpoint serve (requests : list request) (fake_db : list dict)
    : list Response * list dict :=
  match requests with
  | [] => ([], fake_db)
  | r :: requests' =>
      let (response, fake_db') := dispatch r fake_db in
      let (responses, fake_db'') := serve requests' fake_db' in
      (response :: responses, fake_db'')
  end.

End Serve.

End Main.

(* ===================================================================== *)
(** ** The rules the validators are specified by *)
(* ===================================================================== *)

Import Py Models Main.

(** The five password rules. *)
Inductive password_rule : Type :=
| MinLength
| Uppercase
| Lowercase
| Number
| SpecialChar.

(** The twenty special characters, in the order in which the rule lists
    them: [! @ # $ % ^ & * ( ) , . ?], the double quote (34), [: { } | < >]. *)
Definition special_characters : list codepoint :=
  [33; 64; 35; 36; 37; 94; 38; 42; 40; 41; 44; 46; 63; 34; 58; 123; 125; 124; 60; 62]%Z.

Definition uppercase_latin (c : codepoint) : Prop := (65 <= c <= 90)%Z.
Definition lowercase_latin (c : codepoint) : Prop := (97 <= c <= 122)%Z.
Definition decimal_digit (c : codepoint) : Prop := (48 <= c <= 57)%Z.

(** [obeys v r]: the password [v] satisfies rule [r]. *)
Definition obeys (v : str) (r : password_rule) : Prop :=
  match r with
  | MinLength => 8 <= len v
  | Uppercase => exists c, In c v /\ uppercase_latin c
  | Lowercase => exists c, In c v /\ lowercase_latin c
  | Number => exists c, In c v /\ decimal_digit c
  | SpecialChar => exists c, In c v /\ In c special_characters
  end.

(** The message by which a rejection names each rule. *)
Definition rule_message (r : password_rule) : string :=
  match r with
  | MinLength => "Password must be at least 8 characters long"
  | Uppercase => "Password must contain at least one uppercase letter"
  | Lowercase => "Password must contain at least one lowercase letter"
  | Number => "Password must contain at least one number"
  | SpecialChar => "Password must contain at least one special character"
  end.

(** Classes of characters, as the Unicode Character Database has them. *)
Definition letter (c : codepoint) : Prop := isalpha_char c = true.
Definition digit (c : codepoint) : Prop := isdigit_char c = true.
Definition other_numeric (c : codepoint) : Prop :=
  isnumeric_char c = true /\ isdigit_char c = false.
Definition whitespace (c : codepoint) : Prop := isspace_char c = true.
Definition punctuation (c : codepoint) : Prop := in_ranges punctuation_ranges c = true.
Definition symbol (c : codepoint) : Prop := in_ranges symbol_ranges c = true.

(** The characters a full name may be made of: a Latin letter [A-Z] or
    [a-z], a whitespace character, a hyphen, an apostrophe or a period. *)
Definition name_character (c : codepoint) : Prop :=
  uppercase_latin c \/ lowercase_latin c \/ whitespace c
  \/ c = ord "-" \/ c = ord "'" \/ c = ord ".".

(** The character class of the full-name pattern. *)
Definition full_name_class : list Re.class_item :=
  [Re.Range (ord "A") (ord "Z"); Re.Range (ord "a") (ord "z");
   Re.Space; Re.Char (ord "-"); Re.Char (ord "'"); Re.Char (ord ".")].

(** The message of the first check of the full-name validator. *)
Definition not_proper_format : string :=
  "Full name can only contain letters, spaces, hyphens, apostrophes, and periods".

(** The message of the first check of the username validator. *)
Definition not_alphanumeric : string :=
  "Username must be alphanumeric (letters and numbers only)".

(** Every range of [rs1] lies inside one range of [rs2]. *)
Definition ranges_included (rs1 rs2 : list (Z * Z)) : bool :=
  forallb (fun r1 =>
    existsb (fun r2 => (fst r2 <=? fst r1)%Z && (snd r1 <=? snd r2)%Z) rs2) rs1.

(** No range of [rs1] meets a range of [rs2]. *)
Definition ranges_disjoint (rs1 rs2 : list (Z * Z)) : bool :=
  forallb (fun r1 =>
    forallb (fun r2 => (snd r1 <? fst r2)%Z || (snd r2 <? fst r1)%Z) rs2) rs1.

(** The four field validators accept the request body [data], and
    [user_data] holds what they return. *)
Definition accepted (EmailStr : str -> result str) (data : UserCreate.input)
    (user_data : UserCreate.t) : Prop :=
  UserCreate.username_must_be_alphanumeric (UserCreate.input_username data)
    = Return (UserCreate.username user_data)
  /\ EmailStr (UserCreate.input_email data) = Return (UserCreate.email user_data)
  /\ UserCreate.password_must_be_strong (UserCreate.input_password data)
     = Return (UserCreate.password user_data)
  /\ UserCreate.full_name_must_be_proper_format (UserCreate.input_full_name data)
     = Return (UserCreate.full_name user_data).

(** The errors of the four fields of [data], in the order of the fields. *)
Definition field_errors (EmailStr : str -> result str) (data : UserCreate.input)
    : list ErrorDetails :=
  line_errors "username"
    (UserCreate.username_must_be_alphanumeric (UserCreate.input_username data))
  ++ line_errors "email" (EmailStr (UserCreate.input_email data))
  ++ line_errors "password"
       (UserCreate.password_must_be_strong (UserCreate.input_password data))
  ++ line_errors "full_name"
       (UserCreate.full_name_must_be_proper_format (UserCreate.input_full_name data)).

(** A validator raises. *)
Definition raises {A : Type} (r : result A) : Prop := exists m, r = ValueError m.

(** Some field validator rejects the request body [data]. *)
Definition rejected (EmailStr : str -> result str) (data : UserCreate.input) : Prop :=
  raises (UserCreate.username_must_be_alphanumeric (UserCreate.input_username data))
  \/ raises (EmailStr (UserCreate.input_email data))
  \/ raises (UserCreate.password_must_be_strong (UserCreate.input_password data))
  \/ raises (UserCreate.full_name_must_be_proper_format (UserCreate.input_full_name data)).

(** The dictionary [create_user] builds from a validated request. *)
Definition record_of (now : datetime) (user_data : UserCreate.t) : dict :=
  fst (create_user now user_data []).

(** The request body [data] with another password. *)
Definition with_password (data : UserCreate.input) (p : str) : UserCreate.input :=
  {| UserCreate.input_username := UserCreate.input_username data;
     UserCreate.input_email := UserCreate.input_email data;
     UserCreate.input_password := p;
     UserCreate.input_full_name := UserCreate.input_full_name data |}.

(** The keys of a stored record, and those of a response body. *)
Definition record_keys : list string :=
  ["username"; "email"; "full_name"; "join_date"; "password";
   "validation_status"]%string.

Definition view_keys : list string :=
  ["username"; "email"; "full_name"; "join_date"; "validation_status"]%string.

(** The response body for a validated request whose e-mail address is
    rendered as [e], at clock reading [now]. *)
Definition view_of (now : datetime) (user_data : UserCreate.t) (e : str) : dict :=
  [("username"%string, VStr (UserCreate.username user_data));
   ("email"%string, VStr e);
   ("full_name"%string, optional_str (UserCreate.full_name user_data));
   ("join_date"%string, VStr (isoformat now));
   ("validation_status"%string, VStr (lit "passed"))].

(** A status code of the client-error class. *)
Definition client_error (code : Z) : Prop := (400 <= code < 500)%Z.

(** The order in which the checks of each validator are made. *)
Definition password_checks : list password_rule :=
  [MinLength; Uppercase; Lowercase; Number; SpecialChar].

(** The three checks of the username validator. *)
Inductive username_rule : Type :=
| Alphanumeric
| UsernameMinLength
| UsernameMaxLength.

Definition username_obeys (v : str) (r : username_rule) : Prop :=
  match r with
  | Alphanumeric => v <> [] /\ forall c, In c v -> letter c \/ digit c \/ other_numeric c
  | UsernameMinLength => 3 <= len v
  | UsernameMaxLength => len v <= 20
  end.

Definition username_rule_message (r : username_rule) : string :=
  match r with
  | Alphanumeric => not_alphanumeric
  | UsernameMinLength => "Username must be at least 3 characters long"
  | UsernameMaxLength => "Username must be at most 20 characters long"
  end.

Definition username_checks : list username_rule :=
  [Alphanumeric; UsernameMinLength; UsernameMaxLength].

(** The three checks of the full-name validator on a present name. *)
Inductive full_name_rule : Type :=
| ProperFormat
| FullNameMinLength
| FullNameMaxLength.

Definition full_name_obeys (s : str) (r : full_name_rule) : Prop :=
  match r with
  | ProperFormat => s <> [] /\ forall c, In c s -> name_character c
  | FullNameMinLength => 2 <= len s
  | FullNameMaxLength => len s <= 50
  end.

Definition full_name_rule_message (r : full_name_rule) : string :=
  match r with
  | ProperFormat => not_proper_format
  | FullNameMinLength => "Full name must be at least 2 characters long"
  | FullNameMaxLength => "Full name must be at most 50 characters long"
  end.

Definition full_name_checks : list full_name_rule :=
  [ProperFormat; FullNameMinLength; FullNameMaxLength].

(** [r] is the first rule of [order] that does not hold. *)
Definition first_violation {R : Type} (order : list R) (holds : R -> Prop) (r : R) : Prop :=
  exists before after,
    order = before ++ r :: after /\ (forall r', In r' before -> holds r') /\ ~ holds r.

Definition is_decimal_digit (c : codepoint) : bool := (48 <=? c)%Z && (c <=? 57)%Z.

(** [s] has the layout of [template], in which [0] stands for any decimal
    digit and every other character for itself. *)
Fixpoint has_layout (template s : str) : bool :=
  match template, s with
  | [], [] => true
  | t :: template', c :: s' =>
      (if (t =? ord "0")%Z then is_decimal_digit c else (c =? t)%Z)
      && has_layout template' s'
  | _, _ => false
  end.

(** The ISO 8601 layout of a local date and time, to the second or to the
    microsecond. *)
Definition iso8601 (s : str) : bool :=
  has_layout (lit "0000-00-00T00:00:00") s
  || has_layout (lit "0000-00-00T00:00:00.000000") s.

(** The number a string of decimal digits denotes. *)
Definition decimal_value (s : str) : Z :=
  fold_left (fun acc c => 10 * acc + (c - ord "0"))%Z s 0%Z.

(** Reading back a local date and time written in the ISO 8601 layout:
    the fields are the numbers at their fixed positions, the microsecond
    being zero when the fraction is absent. *)
Definition fromisoformat (s : str) : option datetime :=
  if iso8601 s then
    Some {| year := decimal_value (firstn 4 s);
            month := decimal_value (firstn 2 (skipn 5 s));
            day := decimal_value (firstn 2 (skipn 8 s));
            hour := decimal_value (firstn 2 (skipn 11 s));
            minute := decimal_value (firstn 2 (skipn 14 s));
            second := decimal_value (firstn 2 (skipn 17 s));
            microsecond := decimal_value (skipn 20 s) |}
  else None.

(** [s.split(sep)] *)
Fixpoint split (sep : codepoint) (s : str) : list str :=
  match s with
  | [] => [[]]
  | c :: s' =>
      if (c =? sep)%Z then [] :: split sep s'
      else match split sep s' with
           | w :: ws => (c :: w) :: ws
           | [] => [[c]]
           end
  end.

Definition nonempty (s : str) : bool :=
  match s with
  | [] => false
  | _ => true
  end.

(** Modelled from the spec: the e-mail grammar validator that [EmailStr]
    delegates to, which is not part of the sources. An address is a local
    part, [@], and a domain made of at least two period-delimited labels;
    an accepted address is returned as it is. The properties below hold for
    every validator; this one runs them on concrete requests. *)
Definition validateEmail (v : str) : result str :=
  match split (ord "@") v with
  | [local; domain] =>
      let labels := split (ord ".") domain in
      if nonempty local && (2 <=? List.length labels)%nat && forallb nonempty labels
      then Return v
      else ValueError "value is not a valid email address"
  | _ => ValueError "value is not a valid email address"
  end.

(** Sample requests: a well-formed one, and one whose username and
    password are both ill-formed. *)
Definition alice : UserCreate.input :=
  {| UserCreate.input_username := lit "alice1";
     UserCreate.input_email := lit "alice@example.com";
     UserCreate.input_password := lit "Str0ng!Pass";
     UserCreate.input_full_name := Some (lit "Alice A.") |}.

Definition two_bad_fields : UserCreate.input :=
  {| UserCreate.input_username := lit "a b";
     UserCreate.input_email := lit "alice@example.com";
     UserCreate.input_password := lit "weak";
     UserCreate.input_full_name := None |}.

(** A sample clock reading: 2024-05-17 12:00:00. *)
Definition noon : datetime :=
  {| year := 2024; month := 5; day := 17; hour := 12; minute := 0; second := 0;
     microsecond := 0 |}.

(** The value under [key] in the sub-dictionary [section] of a document. *)
Definition described (document : dict) (section key : string) : option value :=
  match get document section with
  | Some (VDict items) => get items key
  | _ => None
  end.

(** The parameters a rules document gives for the password. *)
Record password_parameters : Type := {
  password_min_length : Z;
  requires_uppercase : bool;
  requires_lowercase : bool;
  requires_number : bool;
  requires_special_char : bool
}.

Definition read_password_rules (document : dict) : option password_parameters :=
  match described document "password_rules" "min_length",
        described document "password_rules" "requires_uppercase",
        described document "password_rules" "requires_lowercase",
        described document "password_rules" "requires_number",
        described document "password_rules" "requires_special_char" with
  | Some (VInt n), Some (VBool u), Some (VBool l), Some (VBool d), Some (VBool s) =>
      Some {| password_min_length := n; requires_uppercase := u;
              requires_lowercase := l; requires_number := d;
              requires_special_char := s |}
  | _, _, _, _, _ => None
  end.

(** What the parameters require of a password. *)
Definition meets_password_rules (p : password_parameters) (v : str) : Prop :=
  (password_min_length p <= Z.of_nat (len v))%Z
  /\ (requires_uppercase p = true -> obeys v Uppercase)
  /\ (requires_lowercase p = true -> obeys v Lowercase)
  /\ (requires_number p = true -> obeys v Number)
  /\ (requires_special_char p = true -> obeys v SpecialChar).

(** The parameters a rules document gives for the username. *)
Record username_parameters : Type := {
  alphanumeric_only : bool;
  username_min_length : Z;
  username_max_length : Z
}.

Definition read_username_rules (document : dict) : option username_parameters :=
  match described document "username_rules" "alphanumeric_only",
        described document "username_rules" "min_length",
        described document "username_rules" "max_length" with
  | Some (VBool a), Some (VInt lo), Some (VInt hi) =>
      Some {| alphanumeric_only := a; username_min_length := lo;
              username_max_length := hi |}
  | _, _, _ => None
  end.

Definition meets_username_rules (p : username_parameters) (v : str) : Prop :=
  (alphanumeric_only p = true ->
   v <> [] /\ forall c, In c v -> letter c \/ digit c \/ other_numeric c)
  /\ (username_min_length p <= Z.of_nat (len v) <= username_max_length p)%Z.

(** The parameters a rules document gives for the full name. *)
Record full_name_parameters : Type := {
  allowed_characters : str;
  full_name_min_length : Z;
  full_name_max_length : Z;
  optional : bool
}.

Definition read_full_name_rules (document : dict) : option full_name_parameters :=
  match described document "full_name_rules" "allowed_characters",
        described document "full_name_rules" "min_length",
        described document "full_name_rules" "max_length",
        described document "full_name_rules" "optional" with
  | Some (VStr a), Some (VInt lo), Some (VInt hi), Some (VBool o) =>
      Some {| allowed_characters := a; full_name_min_length := lo;
              full_name_max_length := hi; optional := o |}
  | _, _, _, _ => None
  end.

(** What the numeric and boolean parameters require of a full name, the
    allowed characters being those the validator admits; how the text of
    [allowed_characters] reads is [meets_documented_full_name_rules]. *)
Definition meets_full_name_rules (p : full_name_parameters) (v : option str) : Prop :=
  match v with
  | None => optional p = true
  | Some s =>
      (forall c, In c s -> name_character c)
      /\ (full_name_min_length p <= Z.of_nat (len s) <= full_name_max_length p)%Z
  end.

(** A character of the ASCII range. *)
Definition ascii_char (c : codepoint) : Prop := (0 <= c < 128)%Z.

(** The ASCII letters and digits, as a test. *)
Definition ascii_alnum (c : codepoint) : bool :=
  ((65 <=? c) && (c <=? 90) || (97 <=? c) && (c <=? 122)
   || (48 <=? c) && (c <=? 57))%Z.

(** An e-mail validation that accepts, unchanged, every address it
    returns. *)
Definition stable (EmailStr : str -> result str) : Prop :=
  forall e e', EmailStr e = Return e' -> EmailStr e' = Return e'.

(** The records a request adds to the storage: one for a [POST /users/]
    whose body is accepted, none otherwise. *)
Definition stored_by (EmailStr : str -> result str) (r : request) : list dict :=
  match r with
  | POST_users now data =>
      match UserCreate.model_validate EmailStr data with
      | inr user_data => [record_of now user_data]
      | inl _ => []
      end
  | _ => []
  end.

(** A stored record as validation leaves it: the six keys, a username, a
    password and a full name that satisfy their rules, a join date in the
    ISO 8601 layout and the status [passed]. *)
Definition well_formed (d : dict) : Prop :=
  keys d = record_keys
  /\ (exists u, get d "username" = Some (VStr u)
                /\ (forall c, In c u -> letter c \/ digit c \/ other_numeric c)
                /\ 3 <= len u <= 20)
  /\ (exists e, get d "email" = Some (VStr e))
  /\ (exists p, get d "password" = Some (VStr p) /\ forall r, obeys p r)
  /\ (get d "full_name" = Some VNone
      \/ exists s, get d "full_name" = Some (VStr s)
                   /\ (forall c, In c s -> name_character c)
                   /\ 2 <= len s <= 50)
  /\ (exists j, get d "join_date" = Some (VStr j) /\ iso8601 j = true)
  /\ get d "validation_status" = Some (VStr (lit "passed")).

(** The lexicographic order of strings, by code point. *)
Fixpoint str_lt (s1 s2 : str) : Prop :=
  match s1, s2 with
  | _, [] => False
  | [], _ :: _ => True
  | c1 :: s1', c2 :: s2' => (c1 < c2)%Z \/ (c1 = c2 /\ str_lt s1' s2')
  end.

(** The chronological order of clock readings. *)
Definition earlier (t1 t2 : datetime) : Prop :=
  let lt := Z.lt in
  lt (year t1) (year t2) \/ (year t1 = year t2 /\
  (lt (month t1) (month t2) \/ (month t1 = month t2 /\
  (lt (day t1) (day t2) \/ (day t1 = day t2 /\
  (lt (hour t1) (hour t2) \/ (hour t1 = hour t2 /\
  (lt (minute t1) (minute t2) \/ (minute t1 = minute t2 /\
  (lt (second t1) (second t2) \/ (second t1 = second t2 /\
   lt (microsecond t1) (microsecond t2)))))))))))).

(** An ASCII letter in lower case; any other character as it is. *)
Definition lower (c : codepoint) : codepoint :=
  if ((65 <=? c) && (c <=? 90))%Z then (c + 32)%Z else c.

(** The e-mail validation with the normalisation that [EmailStr] returns.
    pydantic hands the address to the [email_validator] package, which is
    not part of the sources, and keeps its normalised form, in which the
    domain is in lower case and the local part is as written. The grammar
    is the one of [validateEmail]. *)
Definition EmailStr_normalised (v : str) : result str :=
  match split (ord "@") v with
  | [local; domain] =>
      let labels := split (ord ".") domain in
      if nonempty local && (2 <=? List.length labels)%nat && forallb nonempty labels
      then Return (local ++ [ord "@"] ++ map lower domain)
      else ValueError "value is not a valid email address"
  | _ => ValueError "value is not a valid email address"
  end.

(** Sample requests: one whose e-mail address has its domain in capitals,
    and one whose password is its e-mail address. *)
Definition alice_in_capitals : UserCreate.input :=
  {| UserCreate.input_username := lit "alice1";
     UserCreate.input_email := lit "Alice@EXAMPLE.COM";
     UserCreate.input_password := lit "Str0ng!Pass";
     UserCreate.input_full_name := Some (lit "Alice A.") |}.

Definition password_is_email : UserCreate.input :=
  {| UserCreate.input_username := lit "alice1";
     UserCreate.input_email := lit "Abcdef1@example.com";
     UserCreate.input_password := lit "Abcdef1@example.com";
     UserCreate.input_full_name := None |}.

(** Equality of strings, as a test. *)
Fixpoint str_eqb (a b : str) : bool :=
  match a, b with
  | [], [] => true
  | x :: a', y :: b' => (x =? y)%Z && str_eqb a' b'
  | _, _ => false
  end.

(** The characters that a class named in the [allowed_characters] text of
    the rules document stands for: [letters] for the letters, [spaces] for
    the space, [hyphens], [apostrophes] and [periods] for these characters. *)
Definition class_named (name : str) (c : codepoint) : bool :=
  if str_eqb name (lit "letters") then isalpha_char c
  else if str_eqb name (lit "spaces") then (c =? ord " ")%Z
  else if str_eqb name (lit "hyphens") then (c =? ord "-")%Z
  else if str_eqb name (lit "apostrophes") then (c =? ord "'")%Z
  else if str_eqb name (lit "periods") then (c =? ord ".")%Z
  else false.

(** A name without the space that follows the comma before it. *)
Definition after_comma (name : str) : str :=
  match name with
  | c :: name' => if (c =? ord " ")%Z then name' else name
  | [] => []
  end.

(** [c] belongs to one of the classes that the text [description], a list
    of class names separated by commas, names. *)
Definition allowed_by (description : str) (c : codepoint) : bool :=
  existsb (fun name => class_named (after_comma name) c)
          (split (ord ",") description).

(** What the parameters require of a full name when the allowed characters
    are taken from the text of the document. *)
Definition meets_documented_full_name_rules (p : full_name_parameters)
    (v : option str) : Prop :=
  match v with
  | None => optional p = true
  | Some s =>
      (forall c, In c s -> allowed_by (allowed_characters p) c = true)
      /\ (full_name_min_length p <= Z.of_nat (len s) <= full_name_max_length p)%Z
  end.

(* ===================================================================== *)
(** ** Properties of the pattern matcher *)
(* ===================================================================== *)

Lemma search_from_class (cls : list Re.class_item) (s : str) (b : bool) :
  Re.search_from [Re.Class cls] b s = existsb (Re.class_mem cls) s.
Proof.
  revert b. induction s as [|c s IH]; intros b; simpl.
  - reflexivity.
  - rewrite IH. now rewrite andb_true_r.
Qed.

(** Searching for a one-class pattern finds a match exactly when some
    character of the string is in the class. *)
Lemma search_class (cls : list Re.class_item) (s : str) :
  Re.search [Re.Class cls] s = true <-> exists c, In c s /\ Re.class_mem cls c = true.
Proof.
  unfold Re.search. rewrite search_from_class, existsb_exists. reflexivity.
Qed.

Lemma class_mem_range (lo hi c : codepoint) :
  Re.class_mem [Re.Range lo hi] c = true <-> (lo <= c <= hi)%Z.
Proof.
  unfold Re.class_mem; simpl. rewrite orb_false_r, andb_true_iff, !Z.leb_le.
  reflexivity.
Qed.

Lemma class_mem_chars (l : list codepoint) (c : codepoint) :
  Re.class_mem (map Re.Char l) c = true <-> In c l.
Proof.
  unfold Re.class_mem. rewrite existsb_exists. split.
  - intros [i [Hi Hm]]. apply in_map_iff in Hi as [x [<- Hx]].
    simpl in Hm. apply Z.eqb_eq in Hm. now subst.
  - intros H. exists (Re.Char c). split.
    + now apply in_map.
    + simpl. apply Z.eqb_refl.
Qed.

Lemma search_range (lo hi : codepoint) (s : str) :
  Re.search [Re.Class [Re.Range lo hi]] s = true
  <-> exists c, In c s /\ (lo <= c <= hi)%Z.
Proof.
  rewrite search_class. split; intros [c [Hin H]]; exists c; split; auto;
    now apply class_mem_range.
Qed.

Lemma search_special (s : str) :
  Re.search UserCreate.re_special s = true
  <-> exists c, In c s /\ In c special_characters.
Proof.
  unfold UserCreate.re_special. rewrite search_class.
  split; intros [c [Hin H]]; exists c; split; auto.
  - apply class_mem_chars in H. exact H.
  - apply class_mem_chars. exact H.
Qed.

Lemma match_bol (p : Re.pattern) (s : str) :
  Re.match_here (Re.Bol :: p) true s = Re.match_here p true s.
Proof. reflexivity. Qed.

(** The repetition of a class that contains the newline, anchored by [$]:
    it matches exactly the non-empty strings drawn from the class. *)
Lemma match_plus_eol (cls : list Re.class_item) (s : str) (b : bool) :
  Re.class_mem cls 10%Z = true ->
  Re.match_here [Re.ClassPlus cls; Re.Eol] b s
  = match s with [] => false | _ => forallb (Re.class_mem cls) s end.
Proof.
  intros Hnl. change (Re.match_here [Re.ClassPlus cls; Re.Eol] b s)
    with (Re.match_here [Re.ClassPlus cls; Re.Eol] false s).
  induction s as [|c s IH].
  - reflexivity.
  - change (Re.match_here [Re.ClassPlus cls; Re.Eol] false (c :: s))
      with (Re.class_mem cls c
            && (Re.match_here [Re.ClassPlus cls; Re.Eol] false s
                || (Re.at_end s && true))).
    rewrite IH. simpl forallb. f_equal.
    destruct s as [|d [|e s]]; simpl.
    + reflexivity.
    + rewrite !andb_true_r.
      destruct (Z.eqb_spec d 10) as [->|_].
      * rewrite Hnl. reflexivity.
      * now rewrite orb_false_r.
    + now rewrite orb_false_r.
Qed.

(* ===================================================================== *)
(** ** The password validator *)
(* ===================================================================== *)

Lemma search_uppercase (v : str) :
  Re.search UserCreate.re_uppercase v = true <-> obeys v Uppercase.
Proof. apply (search_range 65%Z 90%Z). Qed.

Lemma search_lowercase (v : str) :
  Re.search UserCreate.re_lowercase v = true <-> obeys v Lowercase.
Proof. apply (search_range 97%Z 122%Z). Qed.

Lemma search_number (v : str) :
  Re.search UserCreate.re_number v = true <-> obeys v Number.
Proof. apply (search_range 48%Z 57%Z). Qed.

Lemma not_true_of_false (b : bool) (P : Prop) :
  (b = true <-> P) -> b = false -> ~ P.
Proof. intros H Hb HP. apply H in HP. congruence. Qed.

(** The validator either returns its argument, all five rules holding, or
    raises with the message of a rule that does not hold. *)
Lemma password_outcome (v : str) :
  ((forall r, obeys v r) /\ UserCreate.password_must_be_strong v = Return v)
  \/ (exists r, ~ obeys v r
                /\ UserCreate.password_must_be_strong v = ValueError (rule_message r)).
Proof.
  unfold UserCreate.password_must_be_strong.
  destruct (Nat.ltb_spec (len v) 8) as [Hlen|Hlen].
  { right. exists MinLength. split; [simpl; lia | reflexivity]. }
  destruct (Re.search UserCreate.re_uppercase v) eqn:Hu; simpl negb; cbv iota.
  2:{ right. exists Uppercase. split; [|reflexivity].
      exact (not_true_of_false _ _ (search_uppercase v) Hu). }
  destruct (Re.search UserCreate.re_lowercase v) eqn:Hl; simpl negb; cbv iota.
  2:{ right. exists Lowercase. split; [|reflexivity].
      exact (not_true_of_false _ _ (search_lowercase v) Hl). }
  destruct (Re.search UserCreate.re_number v) eqn:Hn; simpl negb; cbv iota.
  2:{ right. exists Number. split; [|reflexivity].
      exact (not_true_of_false _ _ (search_number v) Hn). }
  destruct (Re.search UserCreate.re_special v) eqn:Hs; simpl negb; cbv iota.
  2:{ right. exists SpecialChar. split; [|reflexivity].
      exact (not_true_of_false _ _ (search_special v) Hs). }
  left. split; [|reflexivity].
  intros [| | | |].
  - exact Hlen.
  - now apply search_uppercase.
  - now apply search_lowercase.
  - now apply search_number.
  - now apply search_special.
Qed.

(** C1. [password_must_be_strong] accepts a password (returns it) if and
    only if all five rules hold: at least 8 characters, an uppercase Latin
    letter, a lowercase Latin letter, a decimal digit, and one of the twenty
    special characters. A password that violates some rule is rejected with
    a [ValueError] whose message is the message of a rule it violates, and
    distinct rules have distinct messages. *)
Theorem password_accepted_iff_five_rules (v : str) :
  (UserCreate.password_must_be_strong v = Return v <-> forall r, obeys v r)
  /\ ((exists r, ~ obeys v r) ->
      exists r, ~ obeys v r
                /\ UserCreate.password_must_be_strong v = ValueError (rule_message r))
  /\ (forall r1 r2, rule_message r1 = rule_message r2 -> r1 = r2).
Proof.
  split; [|split].
  - destruct (password_outcome v) as [[Hall Hret]|[r [Hr Hraise]]].
    + tauto.
    + split.
      * rewrite Hraise. discriminate.
      * intros Hall. exfalso. apply Hr, Hall.
  - intros [r0 Hr0].
    destruct (password_outcome v) as [[Hall _]|H].
    + exfalso. apply Hr0, Hall.
    + exact H.
  - intros [] []; simpl; intros H; try reflexivity; discriminate H.
Qed.

(** The password [Str0ng!Pass] is accepted; [weak], [alllowercase1!] and
    [NoSpecial123] are rejected, each with the message of the first check
    it fails. *)
Lemma password_witness :
  UserCreate.password_must_be_strong (lit "Str0ng!Pass") = Return (lit "Str0ng!Pass")
  /\ (exists r, ~ obeys (lit "weak") r
        /\ UserCreate.password_must_be_strong (lit "weak") = ValueError (rule_message r)).
Proof.
  split.
  - reflexivity.
  - apply (password_accepted_iff_five_rules (lit "weak")).
    exists MinLength. simpl. lia.
Defined.

(* ===================================================================== *)
(** ** The character tables *)
(* ===================================================================== *)

Lemma in_ranges_iff (rs : list (Z * Z)) (c : codepoint) :
  in_ranges rs c = true <-> exists r, In r rs /\ (fst r <= c <= snd r)%Z.
Proof.
  unfold in_ranges. rewrite existsb_exists.
  split; intros [r [Hr H]]; exists r; split; auto.
  - apply andb_true_iff in H. rewrite !Z.leb_le in H. exact H.
  - apply andb_true_iff. rewrite !Z.leb_le. exact H.
Qed.

Lemma ranges_included_sound (rs1 rs2 : list (Z * Z)) (c : codepoint) :
  ranges_included rs1 rs2 = true ->
  in_ranges rs1 c = true -> in_ranges rs2 c = true.
Proof.
  unfold ranges_included. rewrite forallb_forall, !in_ranges_iff.
  intros Hincl [r1 [Hr1 Hc]].
  specialize (Hincl r1 Hr1). apply existsb_exists in Hincl as [r2 [Hr2 H]].
  apply andb_true_iff in H. rewrite !Z.leb_le in H.
  exists r2. split; [exact Hr2 | lia].
Qed.

Lemma ranges_disjoint_sound (rs1 rs2 : list (Z * Z)) (c : codepoint) :
  ranges_disjoint rs1 rs2 = true ->
  in_ranges rs1 c = true -> in_ranges rs2 c = false.
Proof.
  unfold ranges_disjoint. rewrite forallb_forall.
  intros Hdisj H1. destruct (in_ranges rs2 c) eqn:H2; [exfalso | reflexivity].
  apply in_ranges_iff in H1 as [r1 [Hr1 Hc1]].
  apply in_ranges_iff in H2 as [r2 [Hr2 Hc2]].
  specialize (Hdisj r1 Hr1). rewrite forallb_forall in Hdisj.
  specialize (Hdisj r2 Hr2). apply orb_true_iff in Hdisj.
  rewrite !Z.ltb_lt in Hdisj. lia.
Qed.

(** Decimal characters are digits, and digits are numeric. *)
Lemma isdecimal_isdigit (c : codepoint) :
  isdecimal_char c = true -> isdigit_char c = true.
Proof. apply ranges_included_sound. vm_compute. reflexivity. Qed.

Lemma isdigit_isnumeric (c : codepoint) :
  isdigit_char c = true -> isnumeric_char c = true.
Proof. apply ranges_included_sound. vm_compute. reflexivity. Qed.

(** A character is alphanumeric exactly when it is a letter, a digit, or
    another numeric character. *)
Lemma isalnum_char_iff (c : codepoint) :
  isalnum_char c = true <-> letter c \/ digit c \/ other_numeric c.
Proof.
  unfold isalnum_char, letter, digit, other_numeric.
  rewrite !orb_true_iff. split.
  - intros [[[H|H]|H]|H]; auto.
    + right. left. now apply isdecimal_isdigit.
    + destruct (isdigit_char c); auto.
  - intros [H|[H|[H _]]]; auto.
Qed.

(** Whitespace, punctuation and symbols are not alphanumeric. *)
Lemma not_alnum_of_class (rs : list (Z * Z)) (c : codepoint) :
  ranges_disjoint rs alpha_ranges = true ->
  ranges_disjoint rs numeric_ranges = true ->
  in_ranges rs c = true -> isalnum_char c = false.
Proof.
  intros Ha Hn Hc. destruct (isalnum_char c) eqn:E; [exfalso | reflexivity].
  apply isalnum_char_iff in E.
  pose proof (ranges_disjoint_sound _ _ c Ha Hc) as Halpha.
  pose proof (ranges_disjoint_sound _ _ c Hn Hc) as Hnum.
  unfold letter, digit, other_numeric, isalpha_char, isnumeric_char in *.
  destruct E as [E|[E|[E _]]]; try congruence.
  apply isdigit_isnumeric in E. unfold isnumeric_char in E. congruence.
Qed.

Lemma whitespace_not_alnum (c : codepoint) : whitespace c -> isalnum_char c = false.
Proof. apply not_alnum_of_class; vm_compute; reflexivity. Qed.

Lemma punctuation_not_alnum (c : codepoint) : punctuation c -> isalnum_char c = false.
Proof. apply not_alnum_of_class; vm_compute; reflexivity. Qed.

Lemma symbol_not_alnum (c : codepoint) : symbol c -> isalnum_char c = false.
Proof. apply not_alnum_of_class; vm_compute; reflexivity. Qed.

Lemma isalnum_iff (v : str) :
  isalnum v = true <-> v <> [] /\ forall c, In c v -> isalnum_char c = true.
Proof.
  unfold isalnum. destruct v as [|c v].
  - split; [discriminate | intros [H _]; congruence].
  - rewrite forallb_forall. split.
    + intros H. split; [discriminate | exact H].
    + intros [_ H]. exact H.
Qed.

(* ===================================================================== *)
(** ** The username validator *)
(* ===================================================================== *)

Lemma username_not_alnum (v : str) :
  isalnum v = false ->
  UserCreate.username_must_be_alphanumeric v = ValueError not_alphanumeric.
Proof.
  intros H. unfold UserCreate.username_must_be_alphanumeric. now rewrite H.
Qed.

Lemma username_alnum (v : str) :
  isalnum v = true ->
  UserCreate.username_must_be_alphanumeric v =
    if (len v <? 3)%nat then ValueError "Username must be at least 3 characters long"
    else if (20 <? len v)%nat then ValueError "Username must be at most 20 characters long"
    else Return v.
Proof.
  intros H. unfold UserCreate.username_must_be_alphanumeric. now rewrite H.
Qed.

(** C2, refuted as stated. The username made of three vulgar fractions one
    half (U+00BD) is accepted although U+00BD is neither a letter nor a
    digit: it is alphanumeric for [str.isalnum] through [isnumeric]. *)
Lemma username_of_fractions_accepted :
  UserCreate.username_must_be_alphanumeric [0xBD; 0xBD; 0xBD]%Z
    = Return [0xBD; 0xBD; 0xBD]%Z
  /\ ~ (forall c, In c [0xBD; 0xBD; 0xBD]%Z -> letter c \/ digit c).
Proof.
  split.
  - vm_compute. reflexivity.
  - intros H. destruct (H 0xBD%Z) as [E|E]; [now left | |]; vm_compute in E;
      discriminate E.
Qed.

Lemma username_returns_iff (v : str) :
  UserCreate.username_must_be_alphanumeric v = Return v
  <-> (forall c, In c v -> letter c \/ digit c \/ other_numeric c)
      /\ 3 <= len v <= 20.
Proof.
  destruct (isalnum v) eqn:Halnum.
  - rewrite (username_alnum v Halnum).
    apply isalnum_iff in Halnum as [Hne Hall].
    destruct (Nat.ltb_spec (len v) 3) as [H3|H3];
      [split; [discriminate | intros [_ ?]; lia]|].
    destruct (Nat.ltb_spec 20 (len v)) as [H20|H20];
      [split; [discriminate | intros [_ ?]; lia]|].
    split; [|reflexivity].
    intros _. split; [|lia].
    intros c Hc. apply isalnum_char_iff, Hall, Hc.
  - rewrite (username_not_alnum v Halnum).
    split; [discriminate|].
    intros [Hall Hlen]. exfalso.
    assert (isalnum v = true) as E; [|congruence].
    apply isalnum_iff. split.
    + intros ->. simpl in Hlen. lia.
    + intros c Hc. apply isalnum_char_iff, Hall, Hc.
Qed.

(** C2, amended. [username_must_be_alphanumeric] accepts a username if and
    only if every character is a letter, a digit or another numeric
    character (one with a numeric value that is not a digit, such as a
    fraction or a Roman numeral) and its length is between 3 and 20
    inclusive. The empty string is rejected by the alphanumeric check, and
    so is any username that contains a whitespace character, a punctuation
    character or a symbol. *)
Theorem username_accepted_iff_alphanumeric (v : str) :
  (UserCreate.username_must_be_alphanumeric v = Return v
   <-> (forall c, In c v -> letter c \/ digit c \/ other_numeric c)
       /\ 3 <= len v <= 20)
  /\ UserCreate.username_must_be_alphanumeric [] = ValueError not_alphanumeric
  /\ (forall c, In c v -> whitespace c \/ punctuation c \/ symbol c ->
      UserCreate.username_must_be_alphanumeric v = ValueError not_alphanumeric).
Proof.
  split; [|split].
  - apply username_returns_iff.
  - reflexivity.
  - intros c Hc Hclass. apply username_not_alnum.
    destruct (isalnum v) eqn:Halnum; [exfalso | reflexivity].
    apply isalnum_iff in Halnum as [_ Hall]. specialize (Hall c Hc).
    destruct Hclass as [H|[H|H]].
    + apply whitespace_not_alnum in H. congruence.
    + apply punctuation_not_alnum in H. congruence.
    + apply symbol_not_alnum in H. congruence.
Qed.

(** [user_name] contains the punctuation character [_] and is rejected. *)
Lemma username_witness :
  UserCreate.username_must_be_alphanumeric (lit "user_name") = ValueError not_alphanumeric.
Proof.
  apply (proj2 (proj2 (username_accepted_iff_alphanumeric (lit "user_name")))
           (ord "_")).
  - vm_compute. tauto.
  - right. left. vm_compute. reflexivity.
Defined.

(* ===================================================================== *)
(** ** The full-name validator *)
(* ===================================================================== *)

Lemma full_name_class_mem (c : codepoint) :
  Re.class_mem full_name_class c = true <-> name_character c.
Proof.
  unfold Re.class_mem, full_name_class, name_character, uppercase_latin,
    lowercase_latin, whitespace; simpl.
  rewrite !orb_true_iff, !andb_true_iff, !Z.leb_le, !Z.eqb_eq.
  change (ord "A") with 65%Z. change (ord "Z") with 90%Z.
  change (ord "a") with 97%Z. change (ord "z") with 122%Z.
  intuition discriminate.
Qed.

(** The pattern, anchored at both ends, matches exactly the non-empty
    strings all of whose characters are in the class: the newline before
    which [$] also matches is itself a whitespace character. *)
Lemma match_re_full_name (s : str) :
  Re.match_ UserCreate.re_full_name s = true
  <-> s <> [] /\ forall c, In c s -> name_character c.
Proof.
  unfold Re.match_, UserCreate.re_full_name.
  rewrite match_bol, match_plus_eol by (vm_compute; reflexivity).
  fold full_name_class.
  destruct s as [|c s].
  - split; [discriminate | intros [H _]; congruence].
  - rewrite forallb_forall. split.
    + intros H. split; [discriminate|].
      intros x Hx. apply full_name_class_mem, H, Hx.
    + intros [_ H] x Hx. apply full_name_class_mem, H, Hx.
Qed.

(** C3, refuted as stated. Every character of [José] is a letter and its
    length is 4, yet it is rejected: the pattern admits only the Latin
    letters [A-Z] and [a-z], and U+00E9 is not one of them. *)
Lemma full_name_with_accent_rejected :
  (forall c, In c [74; 111; 115; 0xE9]%Z -> letter c)
  /\ 2 <= len [74; 111; 115; 0xE9]%Z <= 50
  /\ UserCreate.full_name_must_be_proper_format (Some [74; 111; 115; 0xE9]%Z)
     = ValueError not_proper_format.
Proof.
  split; [|split].
  - intros c [<-|[<-|[<-|[<-|[]]]]]; vm_compute; reflexivity.
  - simpl. lia.
  - vm_compute. reflexivity.
Qed.

Lemma full_name_returns_iff (s : str) :
  UserCreate.full_name_must_be_proper_format (Some s) = Return (Some s)
  <-> (forall c, In c s -> name_character c) /\ 2 <= len s <= 50.
Proof.
  unfold UserCreate.full_name_must_be_proper_format.
  destruct (Re.match_ UserCreate.re_full_name s) eqn:Hm; simpl negb; cbv iota.
  - apply match_re_full_name in Hm as [_ Hall].
    destruct (Nat.ltb_spec (len s) 2) as [H2|H2];
      [split; [discriminate | intros [_ ?]; lia]|].
    destruct (Nat.ltb_spec 50 (len s)) as [H50|H50];
      [split; [discriminate | intros [_ ?]; lia]|].
    split; [|reflexivity]. intros _. split; [exact Hall | lia].
  - split; [discriminate|].
    intros [Hall Hlen]. exfalso.
    assert (Re.match_ UserCreate.re_full_name s = true) as E; [|congruence].
    apply match_re_full_name. split; [|exact Hall].
    intros ->. simpl in Hlen. lia.
Qed.

(** C3, amended. An absent [full_name] is accepted unconditionally. A
    present one is accepted if and only if every character is a Latin
    letter [A-Z] or [a-z], a whitespace character, a hyphen, an apostrophe
    or a period, and its length is between 2 and 50 inclusive. *)
Theorem full_name_accepted_iff (s : str) :
  UserCreate.full_name_must_be_proper_format None = Return None
  /\ (UserCreate.full_name_must_be_proper_format (Some s) = Return (Some s)
      <-> (forall c, In c s -> name_character c) /\ 2 <= len s <= 50).
Proof.
  split; [reflexivity | apply full_name_returns_iff].
Qed.

(** [Jean-Paul O'Neil.] is accepted. *)
Lemma full_name_witness :
  UserCreate.full_name_must_be_proper_format (Some (lit "Jean-Paul O'Neil."))
  = Return (Some (lit "Jean-Paul O'Neil.")).
Proof.
  apply (proj2 (full_name_accepted_iff (lit "Jean-Paul O'Neil."))).
  split.
  - intros c Hc. apply full_name_class_mem.
    revert c Hc. apply (proj1 (forallb_forall _ _)). vm_compute. reflexivity.
  - vm_compute. split; apply Nat.leb_le; reflexivity.
Defined.

(** C10. A present [full_name] without any letter is accepted: every string
    of length 2 to 50 made only of whitespace characters, hyphens,
    apostrophes and periods passes, for instance two hyphens or two
    spaces. *)
Theorem full_name_without_letter_accepted (s : str) :
  2 <= len s <= 50 ->
  (forall c, In c s -> whitespace c \/ c = ord "-" \/ c = ord "'" \/ c = ord ".") ->
  UserCreate.full_name_must_be_proper_format (Some s) = Return (Some s).
Proof.
  intros Hlen Hall. apply full_name_returns_iff. split; [|exact Hlen].
  intros c Hc. unfold name_character. specialize (Hall c Hc). tauto.
Qed.

(** Two hyphens, and two spaces, are accepted full names. *)
Lemma full_name_without_letter_witness :
  UserCreate.full_name_must_be_proper_format (Some (lit "--")) = Return (Some (lit "--"))
  /\ UserCreate.full_name_must_be_proper_format (Some (lit "  "))
     = Return (Some (lit "  ")).
Proof.
  split.
  - apply (full_name_without_letter_accepted (lit "--")).
    + simpl. lia.
    + intros c [<-|[<-|[]]]; right; left; reflexivity.
  - apply (full_name_without_letter_accepted (lit "  ")).
    + simpl. lia.
    + intros c [<-|[<-|[]]]; left; vm_compute; reflexivity.
Defined.

(* ===================================================================== *)
(** ** Unicode usernames *)
(* ===================================================================== *)

(** C9. The alphanumeric check of the username is Unicode-aware: every
    username of length 3 to 20 whose characters are letters or digits of any
    script is accepted. So are [caf\u00e9], whose last letter is accented,
    the three CJK ideographs U+65E5 U+672C U+8A9E, and the three
    Arabic-Indic digits U+0661 U+0662 U+0663, none of which is made of Latin
    letters [A-Z], [a-z] and decimal digits [0-9] only. *)
Theorem username_accepts_unicode_letters_and_digits :
  (forall v : str,
     3 <= len v <= 20 ->
     (forall c, In c v -> letter c \/ digit c) ->
     UserCreate.username_must_be_alphanumeric v = Return v)
  /\ (letter 0xE9%Z /\ (127 < 0xE9)%Z
      /\ UserCreate.username_must_be_alphanumeric [99; 97; 102; 0xE9]%Z
         = Return [99; 97; 102; 0xE9]%Z)
  /\ (letter 0x65E5%Z /\ (127 < 0x65E5)%Z
      /\ UserCreate.username_must_be_alphanumeric [0x65E5; 0x672C; 0x8A9E]%Z
         = Return [0x65E5; 0x672C; 0x8A9E]%Z)
  /\ (digit 0x0661%Z /\ (127 < 0x0661)%Z
      /\ UserCreate.username_must_be_alphanumeric [0x0661; 0x0662; 0x0663]%Z
         = Return [0x0661; 0x0662; 0x0663]%Z).
Proof.
  split; [|repeat split; try (vm_compute; reflexivity)].
  intros v Hlen Hall. apply username_returns_iff. split; [|exact Hlen].
  intros c Hc. specialize (Hall c Hc). tauto.
Qed.

(** The general statement at the three ideographs. *)
Lemma username_unicode_witness :
  UserCreate.username_must_be_alphanumeric [0x65E5; 0x672C; 0x8A9E]%Z
  = Return [0x65E5; 0x672C; 0x8A9E]%Z.
Proof.
  apply (proj1 username_accepts_unicode_letters_and_digits).
  - simpl. lia.
  - intros c [<-|[<-|[<-|[]]]]; left; vm_compute; reflexivity.
Defined.

(* ===================================================================== *)
(** ** Validation of the request body *)
(* ===================================================================== *)

Lemma password_returns (v x : str) :
  UserCreate.password_must_be_strong v = Return x -> x = v.
Proof.
  destruct (password_outcome v) as [[_ H]|[r [_ H]]]; rewrite H; congruence.
Qed.

Lemma username_returns (v x : str) :
  UserCreate.username_must_be_alphanumeric v = Return x -> x = v.
Proof.
  unfold UserCreate.username_must_be_alphanumeric.
  destruct (negb (isalnum v)); [discriminate|].
  destruct (len v <? 3)%nat; [discriminate|].
  destruct (20 <? len v)%nat; [discriminate|]. congruence.
Qed.

Lemma full_name_returns (v x : option str) :
  UserCreate.full_name_must_be_proper_format v = Return x -> x = v.
Proof.
  unfold UserCreate.full_name_must_be_proper_format.
  destruct v as [s|]; [|congruence].
  destruct (negb (Re.match_ UserCreate.re_full_name s)); [discriminate|].
  destruct (len s <? 2)%nat; [discriminate|].
  destruct (50 <? len s)%nat; [discriminate|]. congruence.
Qed.

Section RequestValidation.

Variable EmailStr : str -> result str.

(** The model is built exactly when the four validators accept. *)
Lemma model_validate_inr (data : UserCreate.input) (user_data : UserCreate.t) :
  UserCreate.model_validate EmailStr data = inr user_data
  <-> accepted EmailStr data user_data.
Proof.
  unfold UserCreate.model_validate, accepted.
  destruct user_data as [u e p f]; simpl.
  destruct (UserCreate.username_must_be_alphanumeric _) as [u'|];
    destruct (EmailStr _) as [e'|];
    destruct (UserCreate.password_must_be_strong _) as [p'|];
    destruct (UserCreate.full_name_must_be_proper_format _) as [f'|];
    simpl; split; try discriminate; try (intros [? [? [? ?]]]; discriminate).
  - intros H. injection H as -> -> -> ->. repeat split.
  - intros [H1 [H2 [H3 H4]]]. congruence.
Qed.

Lemma raises_iff_errors {A : Type} (field : string) (r : result A) :
  raises r <-> line_errors field r <> [].
Proof.
  unfold raises. destruct r as [x|m]; simpl; split.
  - intros [m H]. discriminate H.
  - intros H. congruence.
  - discriminate.
  - intros _. now exists m.
Qed.

(** A request body is rejected exactly when some field has an error. *)
Lemma rejected_iff_errors (data : UserCreate.input) :
  rejected EmailStr data <-> field_errors EmailStr data <> [].
Proof.
  unfold rejected, field_errors.
  rewrite (raises_iff_errors "username"), (raises_iff_errors "email"),
    (raises_iff_errors "password"), (raises_iff_errors "full_name").
  destruct (line_errors "username" _), (line_errors "email" _),
    (line_errors "password" _), (line_errors "full_name" _); simpl;
    split; intros H; try discriminate; intuition congruence.
Qed.

(** Otherwise the errors of all fields are reported, and there is one. *)
Lemma model_validate_inl (data : UserCreate.input) (errors : list ErrorDetails) :
  UserCreate.model_validate EmailStr data = inl errors
  <-> rejected EmailStr data /\ errors = field_errors EmailStr data.
Proof.
  rewrite rejected_iff_errors.
  unfold UserCreate.model_validate, field_errors.
  destruct (UserCreate.username_must_be_alphanumeric _) as [u'|];
    destruct (EmailStr _) as [e'|];
    destruct (UserCreate.password_must_be_strong _) as [p'|];
    destruct (UserCreate.full_name_must_be_proper_format _) as [f'|];
    simpl; split;
    try (intros H; injection H as <-; split; [discriminate | reflexivity]);
    try (intros [_ ->]; reflexivity);
    try discriminate.
  intros [H _]. congruence.
Qed.

(** A request body is either accepted or rejected, never both. *)
Lemma accepted_or_rejected (data : UserCreate.input) :
  (exists user_data, accepted EmailStr data user_data) \/ rejected EmailStr data.
Proof.
  destruct (UserCreate.model_validate EmailStr data) as [errors|user_data] eqn:E.
  - right. now apply model_validate_inl in E.
  - left. exists user_data. now apply model_validate_inr.
Qed.

Lemma accepted_not_rejected (data : UserCreate.input) (user_data : UserCreate.t) :
  accepted EmailStr data user_data -> ~ rejected EmailStr data.
Proof.
  intros [E1 [E2 [E3 E4]]] Hr. apply rejected_iff_errors in Hr. apply Hr.
  unfold field_errors. rewrite E1, E2, E3, E4. reflexivity.
Qed.

(** The validated fields are those of the body, the e-mail address being
    the one [EmailStr] returns. *)
Lemma accepted_fields (data : UserCreate.input) (user_data : UserCreate.t) :
  accepted EmailStr data user_data ->
  UserCreate.username user_data = UserCreate.input_username data
  /\ UserCreate.password user_data = UserCreate.input_password data
  /\ UserCreate.full_name user_data = UserCreate.input_full_name data.
Proof.
  intros [H1 [_ [H3 H4]]].
  apply username_returns in H1. apply password_returns in H3.
  apply full_name_returns in H4. auto.
Qed.

End RequestValidation.

(* ===================================================================== *)
(** ** The timestamp *)
(* ===================================================================== *)

Lemma digit_char_decimal (n : Z) : is_decimal_digit (digit_char n) = true.
Proof.
  unfold is_decimal_digit, digit_char. change (ord "0") with 48%Z.
  pose proof (Z.mod_pos_bound n 10 eq_refl).
  apply andb_true_iff. rewrite !Z.leb_le. lia.
Qed.

Lemma has_layout_app (t1 t2 s1 s2 : str) :
  has_layout t1 s1 = true -> has_layout t2 s2 = true ->
  has_layout (t1 ++ t2) (s1 ++ s2) = true.
Proof.
  revert s1. induction t1 as [|t t1 IH]; intros [|c s1]; simpl; try discriminate.
  - auto.
  - intros H H2. apply andb_true_iff in H as [Hc H1].
    rewrite Hc. simpl. now apply IH.
Qed.

Lemma zero_padded_layout (width : nat) (n : Z) :
  has_layout (repeat (ord "0") width) (zero_padded width n) = true.
Proof.
  revert n. induction width as [|w IH]; intros n.
  - reflexivity.
  - change (S w) with (1 + w)%nat. rewrite Nat.add_comm, repeat_app.
    simpl zero_padded. rewrite Nat.add_comm. simpl zero_padded.
    apply has_layout_app; [apply IH|].
    simpl. now rewrite digit_char_decimal.
Qed.

(** Whatever the clock reads, [isoformat] renders it in the ISO 8601
    layout. *)
Lemma isoformat_iso8601 (t : datetime) : iso8601 (isoformat t) = true.
Proof.
  unfold iso8601, isoformat. apply orb_true_iff.
  destruct (microsecond t =? 0)%Z.
  - left.
    change (lit "0000-00-00T00:00:00")
      with (repeat (ord "0") 4 ++ lit "-" ++ repeat (ord "0") 2 ++ lit "-"
            ++ repeat (ord "0") 2 ++ lit "T" ++ repeat (ord "0") 2 ++ lit ":"
            ++ repeat (ord "0") 2 ++ lit ":" ++ repeat (ord "0") 2 ++ []).
    repeat (apply has_layout_app;
            [first [apply zero_padded_layout | reflexivity]|]).
    reflexivity.
  - right.
    change (lit "0000-00-00T00:00:00.000000")
      with (repeat (ord "0") 4 ++ lit "-" ++ repeat (ord "0") 2 ++ lit "-"
            ++ repeat (ord "0") 2 ++ lit "T" ++ repeat (ord "0") 2 ++ lit ":"
            ++ repeat (ord "0") 2 ++ lit ":" ++ repeat (ord "0") 2 ++ lit "."
            ++ repeat (ord "0") 6).
    repeat (apply has_layout_app;
            [first [apply zero_padded_layout | reflexivity]|]).
    apply zero_padded_layout.
Qed.

Example isoformat_noon : isoformat noon = lit "2024-05-17T12:00:00".
Proof. reflexivity. Qed.

Lemma decimal_value_2 (n : Z) :
  (0 <= n < 100)%Z -> decimal_value (zero_padded 2 n) = n.
Proof.
  intros H. unfold decimal_value. cbn [zero_padded app fold_left].
  unfold digit_char. change (ord "0") with 48%Z.
  Z.div_mod_to_equations. lia.
Qed.

Lemma decimal_value_4 (n : Z) :
  (0 <= n < 10000)%Z -> decimal_value (zero_padded 4 n) = n.
Proof.
  intros H. unfold decimal_value. cbn [zero_padded app fold_left].
  unfold digit_char. change (ord "0") with 48%Z.
  Z.div_mod_to_equations. lia.
Qed.

Lemma decimal_value_6 (n : Z) :
  (0 <= n < 1000000)%Z -> decimal_value (zero_padded 6 n) = n.
Proof.
  intros H. unfold decimal_value. cbn [zero_padded app fold_left].
  unfold digit_char. change (ord "0") with 48%Z.
  Z.div_mod_to_equations. lia.
Qed.

(** The rendering loses nothing: a clock reading is read back from its
    [isoformat]. *)
Lemma fromisoformat_isoformat (t : datetime) :
  datetime_in_range t -> fromisoformat (isoformat t) = Some t.
Proof.
  intros (Hy & Hmo & Hd & Hh & Hmi & Hs & Hus).
  unfold fromisoformat. rewrite isoformat_iso8601.
  destruct t as [y mo d h mi s us]; simpl in Hy, Hmo, Hd, Hh, Hmi, Hs, Hus.
  unfold isoformat; cbn [year month day hour minute second microsecond].
  assert (forall w n rest, firstn w (zero_padded w n ++ rest) = zero_padded w n) as Hfirst.
  { intros w n rest. rewrite firstn_app.
    assert (List.length (zero_padded w n) = w) as ->.
    { revert n. induction w as [|w IH]; intros n; simpl; [reflexivity|].
      rewrite length_app, IH. simpl. lia. }
    rewrite Nat.sub_diag, firstn_all2, app_nil_r; [reflexivity|].
    clear. revert n. induction w as [|w IH]; intros n; simpl; [lia|].
    rewrite length_app. specialize (IH (n / 10)%Z). simpl. lia. }
  f_equal. f_equal.
  - rewrite Hfirst. apply decimal_value_4. lia.
  - cbn [zero_padded app lit map list_ascii_of_string skipn firstn].
    apply (decimal_value_2 mo). lia.
  - cbn [zero_padded app lit map list_ascii_of_string skipn firstn].
    apply (decimal_value_2 d). lia.
  - cbn [zero_padded app lit map list_ascii_of_string skipn firstn].
    apply (decimal_value_2 h). lia.
  - cbn [zero_padded app lit map list_ascii_of_string skipn firstn].
    apply (decimal_value_2 mi). lia.
  - cbn [zero_padded app lit map list_ascii_of_string skipn firstn].
    apply (decimal_value_2 s). lia.
  - cbn [zero_padded app lit map list_ascii_of_string skipn firstn].
    destruct (Z.eqb_spec us 0) as [->|Hne].
    + reflexivity.
    + cbn [zero_padded app lit map list_ascii_of_string skipn firstn].
      apply (decimal_value_6 us). lia.
Qed.

(* ===================================================================== *)
(** ** [POST /users/] *)
(* ===================================================================== *)

Lemma create_user_record (now : datetime) (user_data : UserCreate.t)
    (fake_db : list dict) :
  create_user now user_data fake_db
  = (record_of now user_data, fake_db ++ [record_of now user_data]).
Proof. reflexivity. Qed.

Section PostUsers.

Variable EmailStr : str -> result str.

(** The response model reads five keys of the stored dictionary and
    validates its e-mail address once more. *)
Lemma response_model_of_record (now : datetime) (user_data : UserCreate.t) :
  UserOut.model_validate EmailStr (record_of now user_data)
  = match EmailStr (UserCreate.email user_data) with
    | Return e =>
        Some {| UserOut.username := UserCreate.username user_data;
                UserOut.email := e;
                UserOut.full_name := UserCreate.full_name user_data;
                UserOut.join_date := isoformat now;
                UserOut.validation_status := lit "passed" |}
    | ValueError _ => None
    end.
Proof.
  unfold UserOut.model_validate, UserOut.required_str, record_of. simpl.
  destruct (EmailStr (UserCreate.email user_data)); [|reflexivity].
  destruct (UserCreate.full_name user_data); reflexivity.
Qed.

(** What [POST /users/] does with an accepted request. *)
Lemma post_users_accepted (now : datetime) (data : UserCreate.input)
    (user_data : UserCreate.t) (fake_db : list dict) :
  accepted EmailStr data user_data ->
  post_users EmailStr now data fake_db
  = (match EmailStr (UserCreate.email user_data) with
     | Return e =>
         {| status_code := HTTP_201_CREATED;
            body := JSON (view_of now user_data e) |}
     | ValueError _ =>
         {| status_code := HTTP_500_INTERNAL_SERVER_ERROR;
            body := ResponseValidationError |}
     end, fake_db ++ [record_of now user_data]).
Proof.
  intros H. apply model_validate_inr in H.
  unfold post_users. rewrite H, create_user_record, response_model_of_record.
  destruct (EmailStr (UserCreate.email user_data)); reflexivity.
Qed.

(** What [POST /users/] does with a rejected request. *)
Lemma post_users_rejected (now : datetime) (data : UserCreate.input)
    (fake_db : list dict) :
  rejected EmailStr data ->
  post_users EmailStr now data fake_db
  = ({| status_code := HTTP_422_UNPROCESSABLE_ENTITY;
        body := RequestValidationError (field_errors EmailStr data) |}, fake_db).
Proof.
  intros H. unfold post_users.
  destruct (UserCreate.model_validate EmailStr data) as [errors|user_data] eqn:E.
  - apply model_validate_inl in E as [_ ->]. reflexivity.
  - apply model_validate_inr in E. now apply accepted_not_rejected in E.
Qed.

(** C4, amended. For every request accepted by all four validators, the
    operation appends one record to the storage, whatever the storage
    already holds. The record's username, password and full name are the
    strings of the request, verbatim ([None] for an absent full name); its
    e-mail address is the one the e-mail validation returns for the
    request's address, which is the address of the validated request; its
    join date is the clock reading in ISO 8601 format, from which the
    reading can be read back, and its validation status is [passed]. The
    same request made a second time appends a second record, equal to the
    first when the clock reads the same. *)
Theorem create_user_appends_record (now now' : datetime) (data : UserCreate.input)
    (user_data : UserCreate.t) (fake_db : list dict) :
  accepted EmailStr data user_data ->
  exists db_user db_user',
    UserCreate.model_validate EmailStr data = inr user_data
    /\ snd (post_users EmailStr now data fake_db) = fake_db ++ [db_user]
    /\ keys db_user = record_keys
    /\ get db_user "username" = Some (VStr (UserCreate.input_username data))
    /\ get db_user "password" = Some (VStr (UserCreate.input_password data))
    /\ get db_user "full_name"
       = Some (match UserCreate.input_full_name data with
               | Some s => VStr s
               | None => VNone
               end)
    /\ (exists e, EmailStr (UserCreate.input_email data) = Return e
                  /\ UserCreate.email user_data = e
                  /\ get db_user "email" = Some (VStr e))
    /\ UserCreate.username user_data = UserCreate.input_username data
    /\ UserCreate.password user_data = UserCreate.input_password data
    /\ UserCreate.full_name user_data = UserCreate.input_full_name data
    /\ get db_user "join_date" = Some (VStr (isoformat now))
    /\ iso8601 (isoformat now) = true
    /\ (datetime_in_range now -> fromisoformat (isoformat now) = Some now)
    /\ get db_user "validation_status" = Some (VStr (lit "passed"))
    /\ snd (post_users EmailStr now' data (fake_db ++ [db_user]))
       = fake_db ++ [db_user; db_user']
    /\ (now' = now -> db_user' = db_user).
Proof.
  intros H.
  exists (record_of now user_data), (record_of now' user_data).
  rewrite !(post_users_accepted _ _ user_data) by exact H.
  destruct (accepted_fields EmailStr data user_data H) as [Hu [Hp Hf]].
  pose proof (proj2 (model_validate_inr EmailStr data user_data) H) as Hm.
  destruct H as [_ [He _]].
  split; [exact Hm|]. split; [reflexivity|]. split; [reflexivity|].
  split; [simpl; now rewrite Hu|]. split; [simpl; now rewrite Hp|].
  split; [simpl; now rewrite Hf|].
  split; [exists (UserCreate.email user_data); auto|].
  repeat split; auto.
  - apply isoformat_iso8601.
  - apply fromisoformat_isoformat.
  - simpl. now rewrite <- app_assoc.
  - now intros ->.
Qed.

(** C6. A request rejected by any field validator is answered with a client
    error, 422, and leaves the storage as it was. The storage never
    shrinks, and it grows, by one record, only when all four validators
    accept the request. *)
Theorem rejected_request_not_stored (now : datetime) (data : UserCreate.input)
    (fake_db : list dict) :
  (rejected EmailStr data ->
   exists errors,
     errors <> []
     /\ post_users EmailStr now data fake_db
        = ({| status_code := HTTP_422_UNPROCESSABLE_ENTITY;
              body := RequestValidationError errors |}, fake_db)
     /\ client_error HTTP_422_UNPROCESSABLE_ENTITY)
  /\ (snd (post_users EmailStr now data fake_db) <> fake_db ->
      exists user_data,
        accepted EmailStr data user_data
        /\ snd (post_users EmailStr now data fake_db)
           = fake_db ++ [record_of now user_data])
  /\ (List.length fake_db < List.length (snd (post_users EmailStr now data fake_db)) ->
      exists user_data, accepted EmailStr data user_data).
Proof.
  split; [|split].
  - intros Hr. exists (field_errors EmailStr data). split; [|split].
    + now apply rejected_iff_errors.
    + now apply post_users_rejected.
    + unfold client_error, HTTP_422_UNPROCESSABLE_ENTITY. lia.
  - intros Hneq.
    destruct (accepted_or_rejected EmailStr data) as [[user_data Ha]|Hr].
    + exists user_data. split; [exact Ha|].
      now rewrite (post_users_accepted now data user_data fake_db Ha).
    + rewrite (post_users_rejected now data fake_db Hr) in Hneq.
      now contradiction Hneq.
  - intros Hlen.
    destruct (accepted_or_rejected EmailStr data) as [[user_data Ha]|Hr].
    + now exists user_data.
    + rewrite (post_users_rejected now data fake_db Hr) in Hlen.
      simpl in Hlen. lia.
Qed.

End PostUsers.

(** The validated form of the sample request. *)
Lemma alice_accepted :
  accepted validateEmail alice
    {| UserCreate.username := lit "alice1";
       UserCreate.email := lit "alice@example.com";
       UserCreate.password := lit "Str0ng!Pass";
       UserCreate.full_name := Some (lit "Alice A.") |}.
Proof. repeat split. Defined.

(** The sample request, made on an empty storage, stores one record. *)
Lemma create_user_witness :
  exists db_user,
    snd (post_users validateEmail noon alice []) = [db_user]
    /\ get db_user "password" = Some (VStr (lit "Str0ng!Pass")).
Proof.
  destruct (create_user_appends_record validateEmail noon noon alice _ []
              alice_accepted)
    as [db_user [db_user' [_ [H [_ [_ [Hp _]]]]]]].
  exists db_user. split; [exact H | exact Hp].
Defined.

(** C4, refuted as stated. With the normalisation that [EmailStr] applies,
    the request whose address is [Alice@EXAMPLE.COM] is accepted by all four
    validators, and the record it stores holds [Alice@example.com], which is
    not the e-mail address of the request. *)
Lemma stored_email_not_verbatim :
  UserCreate.username_must_be_alphanumeric (UserCreate.input_username alice_in_capitals)
    = Return (UserCreate.input_username alice_in_capitals)
  /\ EmailStr_normalised (UserCreate.input_email alice_in_capitals)
     = Return (lit "Alice@example.com")
  /\ UserCreate.password_must_be_strong (UserCreate.input_password alice_in_capitals)
     = Return (UserCreate.input_password alice_in_capitals)
  /\ UserCreate.full_name_must_be_proper_format
       (UserCreate.input_full_name alice_in_capitals)
     = Return (UserCreate.input_full_name alice_in_capitals)
  /\ exists db_user,
       snd (post_users EmailStr_normalised noon alice_in_capitals []) = [db_user]
       /\ get db_user "email" = Some (VStr (lit "Alice@example.com"))
       /\ get db_user "email"
          <> Some (VStr (UserCreate.input_email alice_in_capitals)).
Proof.
  repeat (split; [vm_compute; reflexivity|]).
  eexists. split; [vm_compute; reflexivity|].
  split; [vm_compute; reflexivity|].
  vm_compute. discriminate.
Qed.

(** The sample request with the password [weak] is answered with 422 and
    nothing is stored. *)
Lemma rejected_witness :
  exists errors,
    errors <> []
    /\ post_users validateEmail noon (with_password alice (lit "weak")) []
       = ({| status_code := HTTP_422_UNPROCESSABLE_ENTITY;
             body := RequestValidationError errors |}, [])
    /\ client_error HTTP_422_UNPROCESSABLE_ENTITY.
Proof.
  apply (rejected_request_not_stored validateEmail noon
           (with_password alice (lit "weak")) []).
  right. right. left. eexists. reflexivity.
Defined.

(* ===================================================================== *)
(** ** Which errors are reported *)
(* ===================================================================== *)

Lemma first_violation_here {R : Type} (holds : R -> Prop) (before : list R)
    (r : R) (after : list R) :
  Forall holds before -> ~ holds r ->
  first_violation (before ++ r :: after) holds r.
Proof.
  intros Hb Hr. exists before, after. split; [reflexivity|]. split; [|exact Hr].
  now apply Forall_forall.
Qed.

Ltac all_hold := repeat (apply Forall_cons; [assumption|]); apply Forall_nil.

(** The password validator raises at the first of its five checks that
    fails. *)
Lemma password_first_violation (v : str) (m : string) :
  UserCreate.password_must_be_strong v = ValueError m ->
  exists r, first_violation password_checks (obeys v) r /\ m = rule_message r.
Proof.
  unfold UserCreate.password_must_be_strong.
  destruct (Nat.ltb_spec (len v) 8) as [Hlen|Hlen].
  { intros [= <-]. exists MinLength. split; [|reflexivity].
    apply (first_violation_here _ []); [constructor | simpl; lia]. }
  destruct (Re.search UserCreate.re_uppercase v) eqn:Hu; simpl negb; cbv iota.
  2:{ intros [= <-]. exists Uppercase. split; [|reflexivity].
      apply (first_violation_here _ [MinLength]); [all_hold|].
      exact (not_true_of_false _ _ (search_uppercase v) Hu). }
  apply search_uppercase in Hu.
  destruct (Re.search UserCreate.re_lowercase v) eqn:Hl; simpl negb; cbv iota.
  2:{ intros [= <-]. exists Lowercase. split; [|reflexivity].
      apply (first_violation_here _ [MinLength; Uppercase]);
        [all_hold|].
      exact (not_true_of_false _ _ (search_lowercase v) Hl). }
  apply search_lowercase in Hl.
  destruct (Re.search UserCreate.re_number v) eqn:Hn; simpl negb; cbv iota.
  2:{ intros [= <-]. exists Number. split; [|reflexivity].
      apply (first_violation_here _ [MinLength; Uppercase; Lowercase]);
        [all_hold|].
      exact (not_true_of_false _ _ (search_number v) Hn). }
  apply search_number in Hn.
  destruct (Re.search UserCreate.re_special v) eqn:Hs; simpl negb; cbv iota.
  2:{ intros [= <-]. exists SpecialChar. split; [|reflexivity].
      apply (first_violation_here _ [MinLength; Uppercase; Lowercase; Number]);
        [all_hold|].
      exact (not_true_of_false _ _ (search_special v) Hs). }
  discriminate.
Qed.

Lemma isalnum_obeys (v : str) : isalnum v = true <-> username_obeys v Alphanumeric.
Proof.
  rewrite isalnum_iff. simpl.
  split; intros [Hne Hall]; (split; [exact Hne|]); intros c Hc;
    apply isalnum_char_iff, Hall, Hc.
Qed.

(** The username validator raises at the first of its three checks that
    fails. *)
Lemma username_first_violation (v : str) (m : string) :
  UserCreate.username_must_be_alphanumeric v = ValueError m ->
  exists r, first_violation username_checks (username_obeys v) r
            /\ m = username_rule_message r.
Proof.
  unfold UserCreate.username_must_be_alphanumeric.
  destruct (isalnum v) eqn:Ha; simpl negb; cbv iota.
  2:{ intros [= <-]. exists Alphanumeric. split; [|reflexivity].
      apply (first_violation_here _ []); [constructor|].
      exact (not_true_of_false _ _ (isalnum_obeys v) Ha). }
  apply isalnum_obeys in Ha.
  destruct (Nat.ltb_spec (len v) 3) as [H3|H3].
  { intros [= <-]. exists UsernameMinLength. split; [|reflexivity].
    apply (first_violation_here _ [Alphanumeric]);
      [all_hold | simpl; lia]. }
  destruct (Nat.ltb_spec 20 (len v)) as [H20|H20].
  { intros [= <-]. exists UsernameMaxLength. split; [|reflexivity].
    apply (first_violation_here _ [Alphanumeric; UsernameMinLength]);
      [all_hold | simpl; lia]. }
  discriminate.
Qed.

(** The full-name validator raises at the first of its three checks that
    fails. *)
Lemma full_name_first_violation (s : str) (m : string) :
  UserCreate.full_name_must_be_proper_format (Some s) = ValueError m ->
  exists r, first_violation full_name_checks (full_name_obeys s) r
            /\ m = full_name_rule_message r.
Proof.
  unfold UserCreate.full_name_must_be_proper_format.
  destruct (Re.match_ UserCreate.re_full_name s) eqn:Hm; simpl negb; cbv iota.
  2:{ intros [= <-]. exists ProperFormat. split; [|reflexivity].
      apply (first_violation_here _ []); [constructor|].
      exact (not_true_of_false _ _ (match_re_full_name s) Hm). }
  apply match_re_full_name in Hm.
  destruct (Nat.ltb_spec (len s) 2) as [H2|H2].
  { intros [= <-]. exists FullNameMinLength. split; [|reflexivity].
    apply (first_violation_here _ [ProperFormat]);
      [all_hold | simpl; lia]. }
  destruct (Nat.ltb_spec 50 (len s)) as [H50|H50].
  { intros [= <-]. exists FullNameMaxLength. split; [|reflexivity].
    apply (first_violation_here _ [ProperFormat; FullNameMinLength]);
      [all_hold | simpl; lia]. }
  discriminate.
Qed.

Lemma in_line_errors {A : Type} (field : string) (r : result A) (e : ErrorDetails) :
  In e (line_errors field r) <-> loc e = field /\ r = ValueError (msg e).
Proof.
  destruct r as [x|m]; simpl.
  - split; [tauto | intros [_ H]; discriminate H].
  - split.
    + intros [<-|[]]. now split.
    + intros [Hl Hm]. left. destruct e as [l m']; simpl in *.
      injection Hm as ->. now subst.
Qed.

(** C7, refuted as stated. A request whose username and password are both
    ill-formed is answered with two errors, one for each field: violations
    in different fields are reported together. *)
Lemma two_failing_fields_two_errors :
  fst (post_users validateEmail noon two_bad_fields [])
  = {| status_code := HTTP_422_UNPROCESSABLE_ENTITY;
       body := RequestValidationError
                 [{| loc := "username"; msg := not_alphanumeric |};
                  {| loc := "password"; msg := rule_message MinLength |}] |}.
Proof. vm_compute. reflexivity. Qed.

(** Whatever the e-mail validator, that request has at least two errors. *)
Lemma two_bad_fields_any_validator (EmailStr : str -> result str) :
  2 <= List.length (field_errors EmailStr two_bad_fields).
Proof.
  unfold field_errors. rewrite !length_app.
  change (UserCreate.username_must_be_alphanumeric
            (UserCreate.input_username two_bad_fields))
    with (@ValueError str not_alphanumeric).
  change (UserCreate.password_must_be_strong
            (UserCreate.input_password two_bad_fields))
    with (@ValueError str (rule_message MinLength)).
  simpl. lia.
Qed.

Section ReportedErrors.

Variable EmailStr : str -> result str.

(** C7, amended. A rejected request aborts the operation: the caller
    receives a 422 and nothing is stored. Within a field the violations are
    not aggregated: the field's validator raises at its first failing check,
    so the field has one error, with the message of that check. Across
    fields they are: the caller receives the errors of all failing fields,
    one per field, in the order username, email, password, full_name. *)
Theorem errors_first_per_field (now : datetime) (data : UserCreate.input)
    (fake_db : list dict) :
  rejected EmailStr data ->
  post_users EmailStr now data fake_db
  = ({| status_code := HTTP_422_UNPROCESSABLE_ENTITY;
        body := RequestValidationError (field_errors EmailStr data) |}, fake_db)
  /\ (exists eu ee ep ef,
        field_errors EmailStr data = eu ++ ee ++ ep ++ ef
        /\ (List.length eu <= 1 /\ List.length ee <= 1
            /\ List.length ep <= 1 /\ List.length ef <= 1)
        /\ (forall e, In e eu <->
              loc e = "username"%string
              /\ UserCreate.username_must_be_alphanumeric
                   (UserCreate.input_username data) = ValueError (msg e))
        /\ (forall e, In e ee <->
              loc e = "email"%string
              /\ EmailStr (UserCreate.input_email data) = ValueError (msg e))
        /\ (forall e, In e ep <->
              loc e = "password"%string
              /\ UserCreate.password_must_be_strong
                   (UserCreate.input_password data) = ValueError (msg e))
        /\ (forall e, In e ef <->
              loc e = "full_name"%string
              /\ UserCreate.full_name_must_be_proper_format
                   (UserCreate.input_full_name data) = ValueError (msg e)))
  /\ (forall m,
        UserCreate.username_must_be_alphanumeric (UserCreate.input_username data)
        = ValueError m ->
        exists r,
          first_violation username_checks
            (username_obeys (UserCreate.input_username data)) r
          /\ m = username_rule_message r)
  /\ (forall m,
        UserCreate.password_must_be_strong (UserCreate.input_password data)
        = ValueError m ->
        exists r,
          first_violation password_checks
            (obeys (UserCreate.input_password data)) r
          /\ m = rule_message r)
  /\ (forall s m,
        UserCreate.input_full_name data = Some s ->
        UserCreate.full_name_must_be_proper_format (Some s) = ValueError m ->
        exists r,
          first_violation full_name_checks (full_name_obeys s) r
          /\ m = full_name_rule_message r).
Proof.
  intros Hr. split; [now apply post_users_rejected|]. split; [|split; [|split]].
  - eexists _, _, _, _. split; [reflexivity|]. split.
    + repeat split;
        match goal with
        | |- List.length (line_errors _ ?r) <= 1 => destruct r; simpl; lia
        end.
    + split; [|split; [|split]]; intros e; apply in_line_errors.
  - intros m. apply username_first_violation.
  - intros m. apply password_first_violation.
  - intros s m _. apply full_name_first_violation.
Qed.

End ReportedErrors.

(** The request with two ill-formed fields is answered with the errors of
    its fields and stores nothing. *)
Lemma errors_witness :
  post_users validateEmail noon two_bad_fields []
  = ({| status_code := HTTP_422_UNPROCESSABLE_ENTITY;
        body := RequestValidationError (field_errors validateEmail two_bad_fields) |},
     []).
Proof.
  apply (errors_first_per_field validateEmail noon two_bad_fields []).
  left. eexists. reflexivity.
Defined.

(* ===================================================================== *)
(** ** The read-only routes *)
(* ===================================================================== *)

Lemma password_meets_rules (v : str) :
  UserCreate.password_must_be_strong v = Return v
  <-> meets_password_rules
        {| password_min_length := 8; requires_uppercase := true;
           requires_lowercase := true; requires_number := true;
           requires_special_char := true |} v.
Proof.
  unfold meets_password_rules; simpl.
  destruct (password_outcome v) as [[Hall Hret]|[r [Hr Hraise]]].
  - split; [|intros _; exact Hret]. intros _.
    pose proof (Hall MinLength) as Hlen. simpl in Hlen.
    split; [lia|].
    split; [intros _; apply (Hall Uppercase)|].
    split; [intros _; apply (Hall Lowercase)|].
    split; intros _; [apply (Hall Number) | apply (Hall SpecialChar)].
  - rewrite Hraise. split; [discriminate|].
    intros [Hlen [Hu [Hl [Hn Hs]]]]. exfalso. apply Hr.
    destruct r; simpl; auto. lia.
Qed.

Lemma username_meets_rules (v : str) :
  UserCreate.username_must_be_alphanumeric v = Return v
  <-> meets_username_rules
        {| alphanumeric_only := true; username_min_length := 3;
           username_max_length := 20 |} v.
Proof.
  rewrite username_returns_iff. unfold meets_username_rules; simpl. split.
  - intros [Hall Hlen]. split; [|lia]. intros _. split; [|exact Hall].
    intros ->. simpl in Hlen. lia.
  - intros [Hall Hlen]. split; [|lia]. now apply Hall.
Qed.

Lemma full_name_meets_rules (v : option str) :
  UserCreate.full_name_must_be_proper_format v = Return v
  <-> meets_full_name_rules
        {| allowed_characters := lit "letters, spaces, hyphens, apostrophes, periods";
           full_name_min_length := 2; full_name_max_length := 50;
           optional := true |} v.
Proof.
  destruct v as [s|]; unfold meets_full_name_rules;
    cbn [full_name_min_length full_name_max_length optional].
  - rewrite full_name_returns_iff.
    split; intros [Hall Hlen]; (split; [exact Hall | lia]).
  - split; reflexivity.
Qed.

(** How the text of the document reads, character by character. *)
Lemma allowed_by_document (c : codepoint) :
  allowed_by (lit "letters, spaces, hyphens, apostrophes, periods") c
  = isalpha_char c
    || ((c =? ord " ")%Z
        || ((c =? ord "-")%Z || ((c =? ord "'")%Z || ((c =? ord ".")%Z || false)))).
Proof. reflexivity. Qed.

Lemma latin_letter (c : codepoint) :
  uppercase_latin c \/ lowercase_latin c -> letter c.
Proof.
  unfold uppercase_latin, lowercase_latin, letter, isalpha_char.
  intros H. apply in_ranges_iff. destruct H as [H|H].
  - exists (65, 90)%Z. split; [left; reflexivity | simpl; lia].
  - exists (97, 122)%Z. split; [right; left; reflexivity | simpl; lia].
Qed.

(** The characters the full-name validator allows are the documented ones
    with the letters narrowed to the Latin letters [A-Z] and [a-z] and the
    space widened to every whitespace character. *)
Lemma name_character_documented (c : codepoint) :
  name_character c
  <-> (allowed_by (lit "letters, spaces, hyphens, apostrophes, periods") c = true
       /\ (letter c -> uppercase_latin c \/ lowercase_latin c))
      \/ whitespace c.
Proof.
  rewrite allowed_by_document, orb_false_r, !orb_true_iff, !Z.eqb_eq.
  unfold name_character. fold (letter c). split.
  - intros [H|[H|[H|[H|[H|H]]]]].
    + left. split; [left; apply latin_letter; now left | intros _; now left].
    + left. split; [left; apply latin_letter; now right | intros _; now right].
    + now right.
    + left. split; [tauto|]. subst c. intros E. vm_compute in E. discriminate E.
    + left. split; [tauto|]. subst c. intros E. vm_compute in E. discriminate E.
    + left. split; [tauto|]. subst c. intros E. vm_compute in E. discriminate E.
  - intros [[[H|[H|[H|[H|H]]]] Hl]|H]; try tauto.
    subst c. right. right. left. vm_compute. reflexivity.
Qed.

(** C8, refuted as stated. Read as the document gives them, text of the
    allowed characters included, the full-name rules are met by [José]:
    its four characters are letters and its length is between the
    documented bounds. The validator rejects it, so the documented allowed
    characters are not the set the validator enforces. *)
Lemma documented_characters_not_enforced :
  exists fp,
    read_full_name_rules get_validation_rules = Some fp
    /\ meets_documented_full_name_rules fp (Some [74; 111; 115; 0xE9]%Z)
    /\ UserCreate.full_name_must_be_proper_format (Some [74; 111; 115; 0xE9]%Z)
       = ValueError not_proper_format.
Proof.
  eexists. split; [reflexivity|]. split; [split|].
  - intros c [<-|[<-|[<-|[<-|[]]]]]; vm_compute; reflexivity.
  - vm_compute. split; discriminate.
  - vm_compute. reflexivity.
Qed.

(** C8, amended. Both read-only routes answer with a fixed document,
    whatever the storage holds, and leave the storage as it is; so any two
    calls return the same body. The numeric and boolean parameters of the
    rules document are the constants the validators enforce: each validator
    accepts a value exactly when the value meets them, password (minimum
    length 8, four required classes), username (alphanumeric only, length 3
    to 20) and full name (length 2 to 50, optional). The allowed characters
    of the full name are given as the fixed text [letters, spaces, hyphens,
    apostrophes, periods], which names the enforced set loosely: the
    validator admits, of the letters, the Latin letters [A-Z] and [a-z]
    only, and besides the space every whitespace character. *)
Theorem rules_document_fixed_and_faithful (fake_db fake_db' : list dict) :
  get_validation_rules_route fake_db
    = ({| status_code := HTTP_200_OK; body := JSON get_validation_rules |}, fake_db)
  /\ get_root fake_db = ({| status_code := HTTP_200_OK; body := JSON root |}, fake_db)
  /\ fst (get_validation_rules_route fake_db) = fst (get_validation_rules_route fake_db')
  /\ fst (get_root fake_db) = fst (get_root fake_db')
  /\ (exists pp up fp,
        read_password_rules get_validation_rules = Some pp
        /\ read_username_rules get_validation_rules = Some up
        /\ read_full_name_rules get_validation_rules = Some fp
        /\ pp = {| password_min_length := 8; requires_uppercase := true;
                   requires_lowercase := true; requires_number := true;
                   requires_special_char := true |}
        /\ up = {| alphanumeric_only := true; username_min_length := 3;
                   username_max_length := 20 |}
        /\ (full_name_min_length fp = 2%Z /\ full_name_max_length fp = 50%Z
            /\ optional fp = true
            /\ allowed_characters fp
               = lit "letters, spaces, hyphens, apostrophes, periods")
        /\ (forall v, UserCreate.password_must_be_strong v = Return v
                      <-> meets_password_rules pp v)
        /\ (forall v, UserCreate.username_must_be_alphanumeric v = Return v
                      <-> meets_username_rules up v)
        /\ (forall v, UserCreate.full_name_must_be_proper_format v = Return v
                      <-> meets_full_name_rules fp v)
        /\ (forall c, name_character c
                      <-> (allowed_by (allowed_characters fp) c = true
                           /\ (letter c -> uppercase_latin c \/ lowercase_latin c))
                          \/ whitespace c)).
Proof.
  repeat (split; [reflexivity|]).
  eexists _, _, _.
  repeat (split; [reflexivity|]).
  split; [repeat split|].
  split; [exact password_meets_rules|].
  split; [exact username_meets_rules|].
  split; [exact full_name_meets_rules | exact name_character_documented].
Qed.

(* ===================================================================== *)
(** ** The documented cases *)
(* ===================================================================== *)

Example password_too_short :
  UserCreate.password_must_be_strong (lit "weak") = ValueError (rule_message MinLength).
Proof. reflexivity. Qed.

Example password_without_uppercase :
  UserCreate.password_must_be_strong (lit "str0ng!pass")
  = ValueError (rule_message Uppercase).
Proof. reflexivity. Qed.

Example password_without_lowercase :
  UserCreate.password_must_be_strong (lit "STR0NG!PASS")
  = ValueError (rule_message Lowercase).
Proof. reflexivity. Qed.

Example password_without_number :
  UserCreate.password_must_be_strong (lit "Strong!Pass")
  = ValueError (rule_message Number).
Proof. reflexivity. Qed.

Example password_without_special :
  UserCreate.password_must_be_strong (lit "Str0ngPass1")
  = ValueError (rule_message SpecialChar).
Proof. reflexivity. Qed.

Example username_of_two :
  UserCreate.username_must_be_alphanumeric (lit "ab")
  = ValueError (username_rule_message UsernameMinLength).
Proof. vm_compute. reflexivity. Qed.

Example username_of_twenty :
  UserCreate.username_must_be_alphanumeric (lit "abcdefghij0123456789")
  = Return (lit "abcdefghij0123456789").
Proof. vm_compute. reflexivity. Qed.

Example username_of_twenty_one :
  UserCreate.username_must_be_alphanumeric (lit "abcdefghij0123456789a")
  = ValueError (username_rule_message UsernameMaxLength).
Proof. vm_compute. reflexivity. Qed.

Example full_name_of_one :
  UserCreate.full_name_must_be_proper_format (Some (lit "J"))
  = ValueError (full_name_rule_message FullNameMinLength).
Proof. vm_compute. reflexivity. Qed.

Example full_name_with_digits :
  UserCreate.full_name_must_be_proper_format (Some (lit "John123"))
  = ValueError not_proper_format.
Proof. vm_compute. reflexivity. Qed.

(** A name that ends with a newline is accepted: the newline is whitespace. *)
Example full_name_with_final_newline :
  UserCreate.full_name_must_be_proper_format (Some (lit "John" ++ [10%Z]))
  = Return (Some (lit "John" ++ [10%Z])).
Proof. vm_compute. reflexivity. Qed.

Example post_alice :
  post_users validateEmail noon alice []
  = ({| status_code := HTTP_201_CREATED;
        body := JSON [("username"%string, VStr (lit "alice1"));
                      ("email"%string, VStr (lit "alice@example.com"));
                      ("full_name"%string, VStr (lit "Alice A."));
                      ("join_date"%string, VStr (lit "2024-05-17T12:00:00"));
                      ("validation_status"%string, VStr (lit "passed"))] |},
     [[("username"%string, VStr (lit "alice1"));
       ("email"%string, VStr (lit "alice@example.com"));
       ("full_name"%string, VStr (lit "Alice A."));
       ("join_date"%string, VStr (lit "2024-05-17T12:00:00"));
       ("password"%string, VStr (lit "Str0ng!Pass"));
       ("validation_status"%string, VStr (lit "passed"))]]).
Proof. vm_compute. reflexivity. Qed.

Example post_alice_with_weak_password :
  post_users validateEmail noon (with_password alice (lit "weak")) []
  = ({| status_code := HTTP_422_UNPROCESSABLE_ENTITY;
        body := RequestValidationError
                  [{| loc := "password"; msg := rule_message MinLength |}] |}, []).
Proof. vm_compute. reflexivity. Qed.

Example email_cases :
  validateEmail (lit "a@b.com") = Return (lit "a@b.com")
  /\ raises (validateEmail (lit "not-an-email")).
Proof. split; [reflexivity | eexists; reflexivity]. Qed.

(* ===================================================================== *)
(** ** Further properties of the validators *)
(* ===================================================================== *)

Lemma ascii_alnum_table :
  forallb (fun c => Bool.eqb (isalnum_char c) (ascii_alnum c))
          (map Z.of_nat (seq 0 128)) = true.
Proof. vm_compute. reflexivity. Qed.

(** On the ASCII range the alphanumeric characters are the Latin letters
    and the decimal digits. *)
Lemma isalnum_char_ascii (c : codepoint) :
  ascii_char c ->
  (isalnum_char c = true <-> uppercase_latin c \/ lowercase_latin c \/ decimal_digit c).
Proof.
  intros Hc.
  assert (isalnum_char c = ascii_alnum c) as ->.
  { apply eqb_prop.
    apply (proj1 (forallb_forall _ _) ascii_alnum_table c).
    apply in_map_iff. exists (Z.to_nat c). unfold ascii_char in Hc.
    split; [lia|]. apply in_seq. lia. }
  unfold ascii_alnum, uppercase_latin, lowercase_latin, decimal_digit.
  rewrite !orb_true_iff, !andb_true_iff, !Z.leb_le. tauto.
Qed.

(** X1. A username written in ASCII is accepted if and only if it is made of
    the letters [A-Z], [a-z] and the digits [0-9] and has 3 to 20
    characters. *)
Theorem ascii_username_accepted_iff (v : str) :
  (forall c, In c v -> ascii_char c) ->
  (UserCreate.username_must_be_alphanumeric v = Return v
   <-> (forall c, In c v -> uppercase_latin c \/ lowercase_latin c \/ decimal_digit c)
       /\ 3 <= len v <= 20).
Proof.
  intros Hascii. rewrite username_returns_iff.
  split; intros [Hall Hlen]; (split; [|exact Hlen]); intros c Hc.
  - apply (isalnum_char_ascii c (Hascii c Hc)), isalnum_char_iff, Hall, Hc.
  - apply isalnum_char_iff, (isalnum_char_ascii c (Hascii c Hc)), Hall, Hc.
Qed.

Lemma ascii_username_witness :
  UserCreate.username_must_be_alphanumeric (lit "alice1") = Return (lit "alice1").
Proof.
  apply (proj2 (ascii_username_accepted_iff (lit "alice1")
     ltac:(intros c Hc; apply (proj1 (forallb_forall
             (fun c => (0 <=? c)%Z && (c <? 128)%Z) (lit "alice1")) eq_refl) in Hc;
           apply andb_true_iff in Hc as [H1 H2];
           apply Z.leb_le in H1; apply Z.ltb_lt in H2; split; assumption))).
  split.
  - intros c Hc.
    apply (proj1 (forallb_forall ascii_alnum (lit "alice1")) eq_refl) in Hc.
    unfold ascii_alnum in Hc. unfold uppercase_latin, lowercase_latin, decimal_digit.
    rewrite !orb_true_iff, !andb_true_iff, !Z.leb_le in Hc. tauto.
  - simpl. lia.
Defined.

Lemma obeys_incl (v w : str) (r : password_rule) :
  incl v w -> len v <= len w -> obeys v r -> obeys w r.
Proof.
  intros Hincl Hlen. destruct r; simpl.
  - lia.
  - intros [c [Hc H]]. exists c. auto.
  - intros [c [Hc H]]. exists c. auto.
  - intros [c [Hc H]]. exists c. auto.
  - intros [c [Hc H]]. exists c. auto.
Qed.

Lemma password_returns_iff (v : str) :
  UserCreate.password_must_be_strong v = Return v <-> forall r, obeys v r.
Proof.
  destruct (password_outcome v) as [[Hall Hret]|[r [Hr Hraise]]].
  - tauto.
  - rewrite Hraise. split; [discriminate|].
    intros Hall. exfalso. apply Hr, Hall.
Qed.

(** X2. The password validator has no maximum length and forbids no character:
    an accepted password stays accepted with any characters put before and
    after it. *)
Theorem password_extension_accepted (before v after : str) :
  UserCreate.password_must_be_strong v = Return v ->
  UserCreate.password_must_be_strong (before ++ v ++ after)
  = Return (before ++ v ++ after).
Proof.
  rewrite !password_returns_iff. intros Hall r.
  apply (obeys_incl v); [| |apply Hall].
  - intros c Hc. apply in_or_app. right. apply in_or_app. now left.
  - unfold len. rewrite !length_app. lia.
Qed.

Lemma password_extension_witness :
  UserCreate.password_must_be_strong (lit " " ++ lit "Str0ng!Pass" ++ [0; 233]%Z)
  = Return (lit " " ++ lit "Str0ng!Pass" ++ [0; 233]%Z).
Proof.
  apply (password_extension_accepted (lit " ") (lit "Str0ng!Pass") [0; 233]%Z).
  reflexivity.
Defined.

(** X3. The validators look at which characters occur and at how many there
    are, not at their order: a rearrangement of an accepted password,
    username or full name is accepted. *)
Theorem validators_ignore_order (v w : str) :
  Permutation v w ->
  (UserCreate.password_must_be_strong v = Return v
   <-> UserCreate.password_must_be_strong w = Return w)
  /\ (UserCreate.username_must_be_alphanumeric v = Return v
      <-> UserCreate.username_must_be_alphanumeric w = Return w)
  /\ (UserCreate.full_name_must_be_proper_format (Some v) = Return (Some v)
      <-> UserCreate.full_name_must_be_proper_format (Some w) = Return (Some w)).
Proof.
  intros Hp.
  assert (forall a b : str, Permutation a b ->
            (forall r, obeys a r) -> forall r, obeys b r) as Hpw.
  { intros a b Hab Hall r. apply (obeys_incl a); [| |apply Hall].
    - intros c. now apply Permutation_in.
    - unfold len. now rewrite (Permutation_length Hab). }
  assert (forall (P : codepoint -> Prop) (lo hi : nat) (a b : str),
            Permutation a b ->
            (forall c, In c a -> P c) /\ lo <= len a <= hi ->
            (forall c, In c b -> P c) /\ lo <= len b <= hi) as Hall.
  { intros P lo hi a b Hab [HP Hlen]. split.
    - intros c Hc. apply HP. apply (Permutation_in c (Permutation_sym Hab) Hc).
    - unfold len in *. now rewrite <- (Permutation_length Hab). }
  pose proof (Permutation_sym Hp) as Hp'.
  rewrite !password_returns_iff, !username_returns_iff, !full_name_returns_iff.
  split; [|split]; split; eauto.
Qed.

Lemma validators_ignore_order_witness :
  UserCreate.password_must_be_strong (lit "ssaP!gn0rtS") = Return (lit "ssaP!gn0rtS").
Proof.
  apply (proj1 (validators_ignore_order (lit "Str0ng!Pass") (lit "ssaP!gn0rtS")
                  ltac:(apply Permutation_rev))).
  reflexivity.
Defined.

Lemma special_not_alnum (c : codepoint) :
  In c special_characters -> isalnum_char c = false.
Proof.
  intros H.
  assert (forallb (fun c => negb (isalnum_char c)) special_characters = true) as E
    by (vm_compute; reflexivity).
  apply negb_true_iff. exact (proj1 (forallb_forall _ _) E c H).
Qed.

Lemma digit_not_name_character (c : codepoint) :
  decimal_digit c -> ~ name_character c.
Proof.
  unfold decimal_digit, name_character, uppercase_latin, lowercase_latin, whitespace.
  change (ord "-") with 45%Z. change (ord "'") with 39%Z. change (ord ".") with 46%Z.
  intros Hd [H|[H|[H|[H|[H|H]]]]]; try lia.
  apply in_ranges_iff in H as [r [Hr Hc]].
  simpl in Hr. repeat (destruct Hr as [<-|Hr]; [simpl in Hc; lia|]). exact Hr.
Qed.

Lemma password_fails_other_validators (v : str) :
  UserCreate.password_must_be_strong v = Return v ->
  UserCreate.username_must_be_alphanumeric v = ValueError not_alphanumeric
  /\ UserCreate.full_name_must_be_proper_format (Some v) = ValueError not_proper_format.
Proof.
  intros H. rewrite password_returns_iff in H. split.
  - apply username_not_alnum.
    destruct (isalnum v) eqn:E; [exfalso | reflexivity].
    apply isalnum_iff in E as [_ Hall].
    destruct (H SpecialChar) as [c [Hc Hs]].
    apply special_not_alnum in Hs. rewrite (Hall c Hc) in Hs. discriminate Hs.
  - unfold UserCreate.full_name_must_be_proper_format.
    destruct (Re.match_ UserCreate.re_full_name v) eqn:E; [exfalso | reflexivity].
    apply match_re_full_name in E as [_ Hall].
    destruct (H Number) as [c [Hc Hd]].
    exact (digit_not_name_character c Hd (Hall c Hc)).
Qed.

(** X4. A password is never a username, nor a full name: a string the password
    validator accepts fails the first check of the username validator (it
    contains a special character) and the first check of the full-name
    validator (it contains a digit). *)
Theorem password_is_no_username_nor_full_name (v : str) :
  UserCreate.password_must_be_strong v = Return v ->
  UserCreate.username_must_be_alphanumeric v = ValueError not_alphanumeric
  /\ UserCreate.full_name_must_be_proper_format (Some v) = ValueError not_proper_format.
Proof. apply password_fails_other_validators. Qed.

Lemma password_is_no_username_witness :
  UserCreate.username_must_be_alphanumeric (lit "Str0ng!Pass")
  = ValueError not_alphanumeric.
Proof.
  apply (password_is_no_username_nor_full_name (lit "Str0ng!Pass")). reflexivity.
Defined.

Lemma first_violation_unique {R : Type} (order : list R) (holds : R -> Prop) (r r' : R) :
  first_violation order holds r -> first_violation order holds r' -> r = r'.
Proof.
  intros (b & a & -> & Hb & Hr) (b' & a' & E & Hb' & Hr').
  revert b' E Hb'. induction b as [|x b IH]; intros [|x' b'] E Hb'; simpl in E.
  - now injection E.
  - injection E as -> _. exfalso. apply Hr, Hb'. now left.
  - injection E as -> _. exfalso. apply Hr', Hb. now left.
  - injection E as -> E. apply (IH (fun y Hy => Hb y (or_intror Hy)) b' E).
    intros y Hy. apply Hb'. now right.
Qed.

Lemma rule_message_injective (r1 r2 : password_rule) :
  rule_message r1 = rule_message r2 -> r1 = r2.
Proof. destruct r1, r2; simpl; intros H; try reflexivity; discriminate H. Qed.

Lemma username_rule_message_injective (r1 r2 : username_rule) :
  username_rule_message r1 = username_rule_message r2 -> r1 = r2.
Proof. destruct r1, r2; simpl; intros H; try reflexivity; discriminate H. Qed.

Lemma full_name_rule_message_injective (r1 r2 : full_name_rule) :
  full_name_rule_message r1 = full_name_rule_message r2 -> r1 = r2.
Proof. destruct r1, r2; simpl; intros H; try reflexivity; discriminate H. Qed.

(** A validator that does not return raises. *)
Lemma password_raises_or_returns (v : str) :
  UserCreate.password_must_be_strong v = Return v
  \/ raises (UserCreate.password_must_be_strong v).
Proof.
  destruct (password_outcome v) as [[_ H]|[r [_ H]]]; [now left | right].
  now exists (rule_message r).
Qed.

Lemma username_raises_or_returns (v : str) :
  UserCreate.username_must_be_alphanumeric v = Return v
  \/ raises (UserCreate.username_must_be_alphanumeric v).
Proof.
  unfold UserCreate.username_must_be_alphanumeric, raises.
  destruct (negb (isalnum v)); [right; eauto|].
  destruct (len v <? 3)%nat; [right; eauto|].
  destruct (20 <? len v)%nat; [right; eauto | now left].
Qed.

Lemma full_name_raises_or_returns (s : str) :
  UserCreate.full_name_must_be_proper_format (Some s) = Return (Some s)
  \/ raises (UserCreate.full_name_must_be_proper_format (Some s)).
Proof.
  unfold UserCreate.full_name_must_be_proper_format, raises.
  destruct (negb (Re.match_ UserCreate.re_full_name s)); [right; eauto|].
  destruct (len s <? 2)%nat; [right; eauto|].
  destruct (50 <? len s)%nat; [right; eauto | now left].
Qed.

(** X5. Which message a rejection carries: each validator raises the message
    of a check exactly when that check is the first, in the order in which
    the validator makes them, that the value fails. So a password shorter
    than 8 characters gets the length message whatever else it lacks, and
    the message about special characters is only seen by passwords that
    pass the four other checks. *)
Theorem rejection_message_iff_first_violation (v : str) :
  (forall r, UserCreate.password_must_be_strong v = ValueError (rule_message r)
             <-> first_violation password_checks (obeys v) r)
  /\ (forall r, UserCreate.username_must_be_alphanumeric v
                = ValueError (username_rule_message r)
                <-> first_violation username_checks (username_obeys v) r)
  /\ (forall r, UserCreate.full_name_must_be_proper_format (Some v)
                = ValueError (full_name_rule_message r)
                <-> first_violation full_name_checks (full_name_obeys v) r).
Proof.
  split; [|split]; intros r; split.
  - intros H. destruct (password_first_violation v _ H) as [r' [Hf Hm]].
    apply rule_message_injective in Hm. now subst.
  - intros Hf. destruct (password_raises_or_returns v) as [H|[m H]].
    + exfalso. destruct Hf as (_ & _ & _ & _ & Hr).
      apply Hr. now apply password_returns_iff.
    + destruct (password_first_violation v m H) as [r' [Hf' ->]].
      now rewrite H, (first_violation_unique _ _ _ _ Hf Hf').
  - intros H. destruct (username_first_violation v _ H) as [r' [Hf Hm]].
    apply username_rule_message_injective in Hm. now subst.
  - intros Hf. destruct (username_raises_or_returns v) as [H|[m H]].
    + exfalso. destruct Hf as (b & a & E & _ & Hr).
      apply username_returns_iff in H as [Hall Hlen]. apply Hr.
      destruct r; simpl; try lia. split; [|exact Hall].
      intros ->. simpl in Hlen. lia.
    + destruct (username_first_violation v m H) as [r' [Hf' ->]].
      now rewrite H, (first_violation_unique _ _ _ _ Hf Hf').
  - intros H. destruct (full_name_first_violation v _ H) as [r' [Hf Hm]].
    apply full_name_rule_message_injective in Hm. now subst.
  - intros Hf. destruct (full_name_raises_or_returns v) as [H|[m H]].
    + exfalso. destruct Hf as (b & a & E & _ & Hr).
      apply full_name_returns_iff in H as [Hall Hlen]. apply Hr.
      destruct r; simpl; try lia. split; [|exact Hall].
      intros ->. simpl in Hlen. lia.
    + destruct (full_name_first_violation v m H) as [r' [Hf' ->]].
      now rewrite H, (first_violation_unique _ _ _ _ Hf Hf').
Qed.

(* ===================================================================== *)
(** ** Further properties of the response model *)
(* ===================================================================== *)

Lemma get_skip (d1 d2 : dict) (k key : string) (x : value) :
  k <> key -> get (d1 ++ (k, x) :: d2) key = get (d1 ++ d2) key.
Proof.
  intros Hk. induction d1 as [|[k' x'] d1 IH]; simpl.
  - destruct (String.eqb_spec k key); [contradiction | reflexivity].
  - now rewrite IH.
Qed.

Section ResponseModel.

Variable EmailStr : str -> result str.

(** X6. [UserOut] reads its five fields and nothing else: a binding of any
    other key, such as [password], may be added to a dictionary or removed
    from it without changing what validating it as a [UserOut] gives. *)
Theorem UserOut_ignores_other_keys (d1 d2 : dict) (k : string) (x : value) :
  ~ In k view_keys ->
  UserOut.model_validate EmailStr (d1 ++ (k, x) :: d2)
  = UserOut.model_validate EmailStr (d1 ++ d2).
Proof.
  intros Hk. unfold UserOut.model_validate, UserOut.required_str.
  rewrite !(get_skip d1 d2 k) by (intros ->; apply Hk; simpl; tauto).
  reflexivity.
Qed.

(** Dumping a [UserOut] and validating the dump gives the model back, when
    the e-mail validation accepts the model's address as it is. *)
Lemma UserOut_dump_validate (u : UserOut.t) :
  EmailStr (UserOut.email u) = Return (UserOut.email u) ->
  UserOut.model_validate EmailStr (UserOut.model_dump u) = Some u.
Proof.
  intros He. destruct u as [n e f j st]; simpl in He.
  unfold UserOut.model_validate, UserOut.required_str, UserOut.model_dump; simpl.
  rewrite He. destruct f; reflexivity.
Qed.

End ResponseModel.

Lemma UserOut_ignores_other_keys_witness :
  UserOut.model_validate validateEmail
    ([("username"%string, VStr (lit "alice1"))]
     ++ ("password"%string, VStr (lit "Str0ng!Pass"))
        :: [("email"%string, VStr (lit "alice@example.com"));
            ("join_date"%string, VStr (lit "2024-05-17T12:00:00"))])
  = UserOut.model_validate validateEmail
      ([("username"%string, VStr (lit "alice1"))]
       ++ [("email"%string, VStr (lit "alice@example.com"));
           ("join_date"%string, VStr (lit "2024-05-17T12:00:00"))]).
Proof.
  apply (UserOut_ignores_other_keys validateEmail).
  simpl. intros [H|[H|[H|[H|[H|[]]]]]]; discriminate H.
Defined.

(* ===================================================================== *)
(** ** Further properties of [POST /users/] *)
(* ===================================================================== *)

Lemma has_layout_chars (template s : str) :
  has_layout template s = true ->
  forall c, In c s -> is_decimal_digit c = true \/ In c template.
Proof.
  revert s. induction template as [|t template IH]; intros [|x s]; simpl;
    try discriminate; [tauto|].
  intros H c [<-|Hc]; apply andb_true_iff in H as [Hx Hs].
  - destruct (t =? ord "0")%Z; [now left|].
    apply Z.eqb_eq in Hx. right. now left.
  - destruct (IH s Hs c Hc); auto.
Qed.

(** An [isoformat] has no lowercase Latin letter. *)
Lemma isoformat_no_lowercase (t : datetime) (c : codepoint) :
  In c (isoformat t) -> ~ lowercase_latin c.
Proof.
  intros Hc. pose proof (isoformat_iso8601 t) as H.
  unfold iso8601 in H. apply orb_true_iff in H.
  assert (is_decimal_digit c = true
          \/ In c (lit "0000-00-00T00:00:00.000000")) as [Hd|Hin].
  { destruct H as [H|H]; destruct (has_layout_chars _ _ H c Hc) as [Hd|Hin]; auto.
    right. revert Hin. simpl. tauto. }
  - unfold is_decimal_digit in Hd. apply andb_true_iff in Hd.
    rewrite !Z.leb_le in Hd. unfold lowercase_latin. lia.
  - unfold lowercase_latin. simpl in Hin.
    repeat (destruct Hin as [<-|Hin]; [vm_compute; intuition discriminate|]).
    destruct Hin.
Qed.

Section PostUsersFurther.

Variable EmailStr : str -> result str.

(** X7. [POST /users/] never reads the storage: the response, and the records
    appended, are the same whatever is stored. In particular no username or
    e-mail address is refused for being stored already. *)
Theorem post_users_ignores_storage (now : datetime) (data : UserCreate.input)
    (fake_db1 fake_db2 : list dict) :
  fst (post_users EmailStr now data fake_db1) = fst (post_users EmailStr now data fake_db2)
  /\ exists appended,
       snd (post_users EmailStr now data fake_db1) = fake_db1 ++ appended
       /\ snd (post_users EmailStr now data fake_db2) = fake_db2 ++ appended
       /\ List.length appended <= 1.
Proof.
  destruct (accepted_or_rejected EmailStr data) as [[user_data Ha]|Hr].
  - rewrite !(post_users_accepted EmailStr now data user_data _ Ha).
    split; [reflexivity|]. exists [record_of now user_data]. simpl. auto.
  - rewrite !(post_users_rejected EmailStr now data _ Hr).
    split; [reflexivity|]. exists []. simpl. rewrite !app_nil_r. auto.
Qed.

(** X8. For a body whose [username], [email] and [password] are strings and
    whose [full_name] is a string or absent, the response code tells what
    happened: 422 exactly when some field validator rejects the body, and
    never 200. When the e-mail validation accepts the addresses it returns,
    an accepted body is always answered with 201, and the response body is
    the stored record without its [password] entry. *)
Theorem status_code_tells_outcome (now : datetime) (data : UserCreate.input)
    (fake_db : list dict) :
  (status_code (fst (post_users EmailStr now data fake_db))
   = HTTP_422_UNPROCESSABLE_ENTITY <-> rejected EmailStr data)
  /\ status_code (fst (post_users EmailStr now data fake_db)) <> HTTP_200_OK
  /\ (stable EmailStr ->
      forall user_data,
        accepted EmailStr data user_data ->
        post_users EmailStr now data fake_db
        = ({| status_code := HTTP_201_CREATED;
              body := JSON (filter (fun kv => negb (String.eqb (fst kv) "password"))
                                   (record_of now user_data)) |},
           fake_db ++ [record_of now user_data])).
Proof.
  split; [|split].
  - destruct (accepted_or_rejected EmailStr data) as [[user_data Ha]|Hr].
    + rewrite (post_users_accepted EmailStr now data user_data _ Ha).
      split.
      * destruct (EmailStr (UserCreate.email user_data)); discriminate.
      * intros Hr. now apply (accepted_not_rejected EmailStr data user_data) in Hr.
    + rewrite (post_users_rejected EmailStr now data _ Hr). tauto.
  - destruct (accepted_or_rejected EmailStr data) as [[user_data Ha]|Hr].
    + rewrite (post_users_accepted EmailStr now data user_data _ Ha).
      destruct (EmailStr (UserCreate.email user_data)); discriminate.
    + rewrite (post_users_rejected EmailStr now data _ Hr). discriminate.
  - intros Hstable user_data Ha.
    rewrite (post_users_accepted EmailStr now data user_data _ Ha).
    destruct Ha as [_ [He _]]. now rewrite (Hstable _ _ He).
Qed.

Lemma view_values_not_password (now : datetime) (data : UserCreate.input)
    (fake_db fake_db' : list dict) (view : dict) (key : string) :
  post_users EmailStr now data fake_db
  = ({| status_code := HTTP_201_CREATED; body := JSON view |}, fake_db') ->
  key <> "email"%string ->
  get view key <> Some (VStr (UserCreate.input_password data)).
Proof.
  intros Hpost Hkey.
  destruct (accepted_or_rejected EmailStr data) as [[user_data Ha]|Hr].
  2:{ rewrite (post_users_rejected EmailStr now data fake_db Hr) in Hpost.
      discriminate Hpost. }
  rewrite (post_users_accepted EmailStr now data user_data fake_db Ha) in Hpost.
  destruct (accepted_fields EmailStr data user_data Ha) as [Hu [Hp Hf]].
  destruct Ha as [Hau [_ [Hap Haf]]]. rewrite Hu in Hau. rewrite Hp in Hap.
  rewrite Hf in Haf.
  destruct (password_fails_other_validators _ Hap) as [Hnu Hnf].
  destruct (EmailStr (UserCreate.email user_data)) as [e|]; [|discriminate Hpost].
  injection Hpost as <- <-. unfold view_of. cbn [get].
  destruct (String.eqb_spec "username" key) as [_|_].
  { rewrite Hu. intros [= E]. rewrite E in Hau. congruence. }
  destruct (String.eqb_spec "email" key) as [E|_]; [now symmetry in E|].
  destruct (String.eqb_spec "full_name" key) as [_|_].
  { rewrite Hf. destruct (UserCreate.input_full_name data) as [s|]; simpl;
      [|discriminate].
    intros [= E]. rewrite E in Haf. congruence. }
  destruct (String.eqb_spec "join_date" key) as [_|_].
  { intros [= E]. rewrite password_returns_iff in Hap.
    destruct (Hap Lowercase) as [c [Hc Hl]]. rewrite <- E in Hc.
    exact (isoformat_no_lowercase now c Hc Hl). }
  destruct (String.eqb_spec "validation_status" key) as [_|_]; [|discriminate].
  intros [= E]. rewrite password_returns_iff in Hap.
  pose proof (Hap MinLength) as Hlen. rewrite <- E in Hlen. simpl in Hlen. lia.
Qed.

(** X9. In a successful response only the e-mail address can coincide with the
    password: the username, the full name, the join date and the validation
    status of the response are never equal to the password of the request. *)
Theorem response_values_differ_from_password (now : datetime)
    (data : UserCreate.input) (fake_db fake_db' : list dict) (view : dict)
    (key : string) :
  post_users EmailStr now data fake_db
  = ({| status_code := HTTP_201_CREATED; body := JSON view |}, fake_db') ->
  key <> "email"%string ->
  get view key <> Some (VStr (UserCreate.input_password data)).
Proof. apply view_values_not_password. Qed.

(** C5, amended. The body of every successful response has exactly the
    five keys [username], [email], [full_name], [join_date] and
    [validation_status]; it has no [password] key, although the stored
    record holds the password. No value of the body other than the e-mail
    address is the password, and the e-mail address of the body is what the
    e-mail validation returns, so it is the password only when the
    validated address itself is. The body does not depend on the password:
    the same request with any other acceptable password gets the same
    response. *)
Theorem response_omits_password (now : datetime) (data : UserCreate.input)
    (fake_db fake_db' : list dict) (view : dict) :
  post_users EmailStr now data fake_db
  = ({| status_code := HTTP_201_CREATED; body := JSON view |}, fake_db') ->
  keys view = view_keys
  /\ get view "password" = None
  /\ ~ In "password"%string (keys view)
  /\ (forall key, key <> "email"%string ->
        get view key <> Some (VStr (UserCreate.input_password data)))
  /\ (exists e0 e, EmailStr (UserCreate.input_email data) = Return e0
                   /\ EmailStr e0 = Return e
                   /\ get view "email" = Some (VStr e))
  /\ (exists db_user, fake_db' = fake_db ++ [db_user]
        /\ get db_user "password" = Some (VStr (UserCreate.input_password data)))
  /\ (forall p : str,
        UserCreate.password_must_be_strong p = Return p ->
        fst (post_users EmailStr now (with_password data p) fake_db)
        = {| status_code := HTTP_201_CREATED; body := JSON view |}).
Proof.
  intros Hpost.
  pose proof (fun key => view_values_not_password now data fake_db fake_db' view key
                           Hpost) as Hvalues.
  destruct (accepted_or_rejected EmailStr data) as [[user_data Ha]|Hr].
  2:{ rewrite (post_users_rejected EmailStr now data fake_db Hr) in Hpost.
      discriminate Hpost. }
  rewrite (post_users_accepted EmailStr now data user_data fake_db Ha) in Hpost.
  destruct (accepted_fields EmailStr data user_data Ha) as [Hu [Hp Hf]].
  destruct (EmailStr (UserCreate.email user_data)) as [e|] eqn:He;
    [|discriminate Hpost].
  injection Hpost as <- <-.
  split; [reflexivity|]. split; [reflexivity|]. split.
  { simpl. intros [H|[H|[H|[H|[H|[]]]]]]; discriminate H. }
  split; [exact Hvalues|]. split.
  { exists (UserCreate.email user_data), e.
    destruct Ha as [_ [H2 _]]. repeat split; auto. }
  split.
  { exists (record_of now user_data). split; [reflexivity|].
    simpl. now rewrite Hp. }
  intros p Hpw.
  assert (accepted EmailStr (with_password data p)
            {| UserCreate.username := UserCreate.username user_data;
               UserCreate.email := UserCreate.email user_data;
               UserCreate.password := p;
               UserCreate.full_name := UserCreate.full_name user_data |}) as Ha'.
  { destruct Ha as [H1 [H2 [_ H4]]]. repeat split; simpl; assumption. }
  rewrite (post_users_accepted EmailStr now _ _ fake_db Ha'). simpl.
  rewrite He. reflexivity.
Qed.

End PostUsersFurther.

Lemma validateEmail_stable : stable validateEmail.
Proof.
  intros e e' H. unfold validateEmail in H.
  destruct (split (ord "@") e) as [|loc [|dom [|x l]]] eqn:E; try discriminate H.
  destruct (nonempty loc && (2 <=? List.length (split (ord ".") dom))%nat
            && forallb nonempty (split (ord ".") dom)) eqn:C; [|discriminate H].
  injection H as <-. unfold validateEmail. now rewrite E, C.
Defined.

Lemma status_code_witness :
  post_users validateEmail noon alice []
  = ({| status_code := HTTP_201_CREATED;
        body := JSON (filter (fun kv => negb (String.eqb (fst kv) "password"))
                             (record_of noon
                                {| UserCreate.username := lit "alice1";
                                   UserCreate.email := lit "alice@example.com";
                                   UserCreate.password := lit "Str0ng!Pass";
                                   UserCreate.full_name := Some (lit "Alice A.") |})) |},
     [] ++ [record_of noon
              {| UserCreate.username := lit "alice1";
                 UserCreate.email := lit "alice@example.com";
                 UserCreate.password := lit "Str0ng!Pass";
                 UserCreate.full_name := Some (lit "Alice A.") |}]).
Proof.
  apply (proj2 (proj2 (status_code_tells_outcome validateEmail noon alice []))
           validateEmail_stable _ alice_accepted).
Defined.

(** The response to the sample request has the five keys. *)
Lemma response_witness :
  exists view,
    fst (post_users validateEmail noon alice [])
    = {| status_code := HTTP_201_CREATED; body := JSON view |}
    /\ keys view = view_keys.
Proof.
  eexists. split; [reflexivity|].
  eapply (response_omits_password validateEmail noon alice [] _ _).
  reflexivity.
Defined.

(** C5, refuted as stated. A request whose password is its e-mail address,
    [Abcdef1@example.com], is accepted, and the body of the response
    contains the value of the password, as its e-mail address. *)
Lemma response_email_holds_password :
  (exists view,
     fst (post_users validateEmail noon password_is_email [])
     = {| status_code := HTTP_201_CREATED; body := JSON view |}
     /\ get view "email" = Some (VStr (UserCreate.input_password password_is_email))
     /\ In (VStr (UserCreate.input_password password_is_email)) (map snd view))
  /\ (exists view,
        fst (post_users EmailStr_normalised noon password_is_email [])
        = {| status_code := HTTP_201_CREATED; body := JSON view |}
        /\ get view "email"
           = Some (VStr (UserCreate.input_password password_is_email))
        /\ In (VStr (UserCreate.input_password password_is_email)) (map snd view)).
Proof.
  split; eexists; (split; [vm_compute; reflexivity|]);
    (split; [vm_compute; reflexivity|]); right; left; vm_compute; reflexivity.
Qed.

Lemma response_values_witness :
  get [("username"%string, VStr (lit "alice1"));
       ("email"%string, VStr (lit "alice@example.com"));
       ("full_name"%string, VStr (lit "Alice A."));
       ("join_date"%string, VStr (lit "2024-05-17T12:00:00"));
       ("validation_status"%string, VStr (lit "passed"))] "username"
  <> Some (VStr (UserCreate.input_password alice)).
Proof.
  apply (response_values_differ_from_password validateEmail noon alice [] _ _
           "username" eq_refl).
  discriminate.
Defined.

(* ===================================================================== *)
(** ** Sequences of requests *)
(* ===================================================================== *)

Section Sequences.

Variable EmailStr : str -> result str.

Lemma dispatch_storage (r : request) (fake_db : list dict) :
  snd (dispatch EmailStr r fake_db) = fake_db ++ stored_by EmailStr r.
Proof.
  destruct r as [now data| |]; simpl; try (now rewrite app_nil_r).
  unfold post_users.
  destruct (UserCreate.model_validate EmailStr data) as [errors|user_data].
  - simpl. now rewrite app_nil_r.
  - rewrite create_user_record.
    destruct (UserOut.model_validate EmailStr (record_of now user_data)); reflexivity.
Qed.

Lemma dispatch_response (r : request) (fake_db : list dict) :
  fst (dispatch EmailStr r fake_db) = fst (dispatch EmailStr r []).
Proof.
  destruct r as [now data| |]; simpl; try reflexivity.
  apply (post_users_ignores_storage EmailStr now data fake_db []).
Qed.

Lemma serve_cons (r : request) (requests : list request) (fake_db : list dict) :
  serve EmailStr (r :: requests) fake_db
  = (fst (dispatch EmailStr r fake_db)
       :: fst (serve EmailStr requests (snd (dispatch EmailStr r fake_db))),
     snd (serve EmailStr requests (snd (dispatch EmailStr r fake_db)))).
Proof.
  simpl. destruct (dispatch EmailStr r fake_db) as [response fake_db'].
  simpl. destruct (serve EmailStr requests fake_db'). reflexivity.
Qed.

(** X10. The storage is append-only and keeps the order of arrival: after any
    sequence of requests it is the storage before, followed by one record
    for each [POST /users/] whose body was accepted, in the order of the
    requests. Nothing stored is ever changed or removed, and the read-only
    routes add nothing. *)
Theorem serve_appends_accepted_in_order (requests : list request)
    (fake_db : list dict) :
  snd (serve EmailStr requests fake_db)
  = fake_db ++ flat_map (stored_by EmailStr) requests
  /\ firstn (List.length fake_db) (snd (serve EmailStr requests fake_db)) = fake_db
  /\ List.length fake_db <= List.length (snd (serve EmailStr requests fake_db))
     <= List.length fake_db + List.length requests.
Proof.
  assert (snd (serve EmailStr requests fake_db)
          = fake_db ++ flat_map (stored_by EmailStr) requests) as E.
  { revert fake_db. induction requests as [|r requests IH]; intros fake_db.
    - simpl. now rewrite app_nil_r.
    - rewrite serve_cons. simpl snd. rewrite IH, dispatch_storage.
      simpl. now rewrite app_assoc. }
  split; [exact E|]. rewrite E. split.
  - rewrite firstn_app, Nat.sub_diag, firstn_all. simpl. now rewrite app_nil_r.
  - rewrite length_app. split; [lia|].
    apply Nat.add_le_mono_l. clear E.
    induction requests as [|r requests IH]; simpl; [lia|].
    rewrite length_app.
    assert (List.length (stored_by EmailStr r) <= 1); [|lia].
    destruct r as [now data| |]; simpl; try lia.
    destruct (UserCreate.model_validate EmailStr data); simpl; lia.
Qed.

(** X11. Every request is answered as it would be on an empty storage: what was
    stored by earlier requests, and which requests came before, has no
    influence on a response. *)
Theorem serve_responses_independent (requests : list request) (fake_db : list dict) :
  fst (serve EmailStr requests fake_db)
  = map (fun r => fst (dispatch EmailStr r [])) requests.
Proof.
  revert fake_db. induction requests as [|r requests IH]; intros fake_db.
  - reflexivity.
  - rewrite serve_cons. simpl. now rewrite IH, dispatch_response.
Qed.

Lemma record_well_formed (now : datetime) (data : UserCreate.input)
    (user_data : UserCreate.t) :
  accepted EmailStr data user_data -> well_formed (record_of now user_data).
Proof.
  intros Ha.
  destruct (accepted_fields EmailStr data user_data Ha) as [Hu [Hp Hf]].
  destruct Ha as [Hau [_ [Hap Haf]]].
  rewrite Hu in Hau. rewrite Hp in Hap. rewrite Hf in Haf.
  unfold well_formed. split; [reflexivity|].
  split.
  { exists (UserCreate.username user_data). split; [reflexivity|].
    rewrite Hu. now apply username_returns_iff. }
  split; [eexists; reflexivity|].
  split.
  { exists (UserCreate.password user_data). split; [reflexivity|].
    rewrite Hp. now apply password_returns_iff. }
  split.
  { change (get (record_of now user_data) "full_name")
      with (Some (optional_str (UserCreate.full_name user_data))).
    rewrite Hf. destruct (UserCreate.input_full_name data) as [s|].
    - right. exists s. split; [reflexivity|]. now apply full_name_returns_iff.
    - left. reflexivity. }
  split; [|reflexivity].
  exists (isoformat now). split; [reflexivity | apply isoformat_iso8601].
Qed.

(** X12. Only validated data is stored: if every record of the storage is well
    formed (six keys, a username, a password and a full name that satisfy
    their rules, an ISO 8601 join date, status [passed]), then so is every
    record after any sequence of requests. *)
Theorem serve_keeps_storage_well_formed (requests : list request)
    (fake_db : list dict) :
  Forall well_formed fake_db ->
  Forall well_formed (snd (serve EmailStr requests fake_db)).
Proof.
  intros Hdb.
  rewrite (proj1 (serve_appends_accepted_in_order requests fake_db)).
  apply Forall_app. split; [exact Hdb|].
  apply Forall_flat_map, Forall_forall. intros r _.
  destruct r as [now data| |]; simpl; try constructor.
  destruct (UserCreate.model_validate EmailStr data) as [errors|user_data] eqn:E;
    constructor; [|constructor].
  apply model_validate_inr in E. exact (record_well_formed now data user_data E).
Qed.

End Sequences.

(** Starting from the empty storage of a fresh process, a rejected request,
    a read and the sample request leave one well-formed record. *)
Lemma serve_witness :
  Forall well_formed
    (snd (serve validateEmail
            [POST_users noon two_bad_fields; GET_validation_rules;
             POST_users noon alice] [])).
Proof.
  apply (serve_keeps_storage_well_formed validateEmail). constructor.
Defined.

(* ===================================================================== *)
(** ** The order of join dates *)
(* ===================================================================== *)

Lemma length_zero_padded (w : nat) (n : Z) : List.length (zero_padded w n) = w.
Proof.
  revert n. induction w as [|w IH]; intros n; simpl; [reflexivity|].
  rewrite length_app, IH. simpl. lia.
Qed.

Lemma str_lt_cons_same (c : codepoint) (r1 r2 : str) :
  str_lt (c :: r1) (c :: r2) <-> str_lt r1 r2.
Proof. simpl. intuition lia. Qed.

Lemma str_lt_app (p1 p2 r1 r2 : str) :
  List.length p1 = List.length p2 ->
  (str_lt (p1 ++ r1) (p2 ++ r2) <-> str_lt p1 p2 \/ (p1 = p2 /\ str_lt r1 r2)).
Proof.
  revert p2. induction p1 as [|c1 p1 IH]; intros [|c2 p2] Hlen; try discriminate Hlen.
  - simpl. tauto.
  - injection Hlen as Hlen. specialize (IH p2 Hlen).
    change (str_lt ((c1 :: p1) ++ r1) ((c2 :: p2) ++ r2))
      with ((c1 < c2)%Z \/ (c1 = c2 /\ str_lt (p1 ++ r1) (p2 ++ r2))).
    change (str_lt (c1 :: p1) (c2 :: p2))
      with ((c1 < c2)%Z \/ (c1 = c2 /\ str_lt p1 p2)).
    rewrite IH. split.
    + intros [H|[-> [H|[-> H]]]]; auto.
    + intros [[H|[-> H]]|[E H]]; auto.
      injection E as -> ->. auto.
Qed.

(** Numbers written with the same number of digits compare as their
    writings do. *)
Lemma zero_padded_order (w : nat) (a b : Z) :
  (0 <= a < 10 ^ Z.of_nat w)%Z -> (0 <= b < 10 ^ Z.of_nat w)%Z ->
  (str_lt (zero_padded w a) (zero_padded w b) <-> (a < b)%Z)
  /\ (zero_padded w a = zero_padded w b <-> a = b).
Proof.
  revert a b. induction w as [|w IH]; intros a b Ha Hb.
  - change (10 ^ Z.of_nat 0)%Z with 1%Z in Ha, Hb. simpl. split; split; try lia.
    tauto.
  - rewrite Nat2Z.inj_succ, Z.pow_succ_r in Ha, Hb by lia.
    assert (0 <= a / 10 < 10 ^ Z.of_nat w)%Z as Ha'
      by (split; [apply Z.div_pos; lia | apply Z.div_lt_upper_bound; lia]).
    assert (0 <= b / 10 < 10 ^ Z.of_nat w)%Z as Hb'
      by (split; [apply Z.div_pos; lia | apply Z.div_lt_upper_bound; lia]).
    destruct (IH (a / 10) (b / 10) Ha' Hb')%Z as [IHlt IHeq].
    cbn [zero_padded]. split.
    + rewrite str_lt_app by (now rewrite !length_zero_padded).
      rewrite IHlt, IHeq. cbn [str_lt]. unfold digit_char.
      clear IH IHlt IHeq. Z.div_mod_to_equations. lia.
    + split; [|now intros ->].
      intros H. apply app_inj_tail in H as [H1 H2].
      apply IHeq in H1. unfold digit_char in H2.
      clear IH IHlt IHeq. Z.div_mod_to_equations. lia.
Qed.

Lemma field_order (w : nat) (a b : Z) (sep : codepoint) (r1 r2 : str) (P : Prop) :
  (0 <= a < 10 ^ Z.of_nat w)%Z -> (0 <= b < 10 ^ Z.of_nat w)%Z ->
  (str_lt r1 r2 <-> P) ->
  (str_lt (zero_padded w a ++ sep :: r1) (zero_padded w b ++ sep :: r2)
   <-> (a < b)%Z \/ (a = b /\ P)).
Proof.
  intros Ha Hb HP. destruct (zero_padded_order w a b Ha Hb) as [Hlt Heq].
  rewrite str_lt_app by (now rewrite !length_zero_padded).
  now rewrite str_lt_cons_same, Hlt, Heq, HP.
Qed.

(** X13. Join dates sort as the clock readings they render: of two readings,
    the earlier has the [isoformat] that comes first in the lexicographic
    order of strings. *)
Theorem join_dates_sort_chronologically (t1 t2 : datetime) :
  datetime_in_range t1 -> datetime_in_range t2 ->
  (str_lt (isoformat t1) (isoformat t2) <-> earlier t1 t2).
Proof.
  intros (Hy1 & Hmo1 & Hd1 & Hh1 & Hmi1 & Hs1 & Hus1)
         (Hy2 & Hmo2 & Hd2 & Hh2 & Hmi2 & Hs2 & Hus2).
  unfold isoformat, earlier. cbv zeta.
  change (lit "-") with [ord "-"]. change (lit "T") with [ord "T"].
  change (lit ":") with [ord ":"]. cbn [app].
  assert (10 ^ Z.of_nat 2 = 100)%Z as E2 by reflexivity.
  assert (10 ^ Z.of_nat 4 = 10000)%Z as E4 by reflexivity.
  assert (10 ^ Z.of_nat 6 = 1000000)%Z as E6 by reflexivity.
  repeat (apply field_order; [lia | lia |]).
  destruct (zero_padded_order 2 (second t1) (second t2)) as [Hlt Heq]; [lia | lia |].
  rewrite str_lt_app by (now rewrite !length_zero_padded).
  rewrite Hlt, Heq.
  assert (str_lt (if (microsecond t1 =? 0)%Z then []
                  else lit "." ++ zero_padded 6 (microsecond t1))
                 (if (microsecond t2 =? 0)%Z then []
                  else lit "." ++ zero_padded 6 (microsecond t2))
          <-> (microsecond t1 < microsecond t2)%Z) as ->; [|reflexivity].
  change (lit ".") with [ord "."]. cbn [app].
  destruct (Z.eqb_spec (microsecond t1) 0) as [E1|N1],
           (Z.eqb_spec (microsecond t2) 0) as [E0|N2]; cbn [str_lt]; try lia.
  destruct (zero_padded_order 6 (microsecond t1) (microsecond t2)) as [H6 _];
    [lia | lia |].
  rewrite H6. lia.
Qed.

Lemma join_dates_witness :
  str_lt (isoformat noon)
         (isoformat {| year := 2024; month := 5; day := 17; hour := 12; minute := 0;
                       second := 0; microsecond := 250000 |}).
Proof.
  apply (join_dates_sort_chronologically noon
           {| year := 2024; month := 5; day := 17; hour := 12; minute := 0;
              second := 0; microsecond := 250000 |}).
  - unfold datetime_in_range. simpl. lia.
  - unfold datetime_in_range. simpl. lia.
  - unfold earlier. simpl. lia.
Defined.
